(** * Doctor mode of npm-check-updates

    A shallow embedding of [src/lib/doctor.ts]: the [npm] helper,
    [loadPackageFile] and [doctor].  The asynchronous code is sequential
    (every call is awaited), so it is modelled in a state-and-exception
    monad.  The state holds the files of the working directory, the mutable
    local variables of [doctor] and the chronological trace of everything
    the session did.  The package manager, the test command, the inner
    [run] of npm-check-updates and the file system are external: an
    environment [Env] answers every call, as a function of the history and
    of the files. *)

From stdpp Require Import base strings gmap list.
From Stdlib Require Import String Ascii ZArith Lia.

Open Scope string_scope.

(** ** Data *)

(** [Index<VersionSpec>]: a JavaScript object read through [Object.entries],
    so the order of the keys matters. *)
Abbreviation Index := (list (string * string)).

(** The fields of the parsed package.json that [doctor] reads. *)
Record PackageFile := {
  scripts : option (gmap string string);
  dependencies : option (gmap string string);
  devDependencies : option (gmap string string);
  optionalDependencies : option (gmap string string);
  bundleDependencies : option (gmap string string);
}.

(** What [JSON.parse] returns for package.json: [null], whose properties
    cannot be read, or any other value, seen through those fields. *)
Inductive Json :=
| JsonNull
| JsonValue (pkg : PackageFile).

Inductive PackageData :=
| PackageDataString (s : string)
| PackageDataObject (p : PackageFile).

(** The fields of [Options] that [doctor] reads. *)
Record Options := {
  packageManager : option string;
  doctorInstall : option string;
  doctorTest : option string;
  packageData : option PackageData;
  packageFile : option string;
}.

(** JavaScript truthiness of an optional string: [undefined] and the empty
    string are falsy. *)
Definition truthy (v : option string) : bool :=
  match v with
  | Some s => negb (String.eqb s "")
  | None => false
  end.

Definition truthyData (v : option PackageData) : bool :=
  match v with
  | Some (PackageDataString s) => negb (String.eqb s "")
  | Some (PackageDataObject _) => true
  | None => false
  end.

(** ** Console output, errors and events *)

Inductive Color := red | green | blue | cyan | greenBold.

(** A printed line: plain text and text wrapped by [chalk]. *)
Inductive Frag :=
| Txt (s : string)
| Chalk (c : Color) (s : string).

Definition fragText (f : Frag) : string :=
  match f with Txt s => s | Chalk _ s => s end.

Definition plain (m : list Frag) : string :=
  fold_right (fun f acc => fragText f ++ acc) "" m.

Inductive Exn :=
| SpawnError (text : string)
| FsError (path : string)
| WriteError (text : string)
| SyntaxError
| TypeError (property : string)
| RunError (text : string)
| NewError (message : list Frag).

(** What [chalk.red(e)] prints for a caught error. *)
Definition exnString (e : Exn) : string :=
  match e with
  | SpawnError t => t
  | FsError p => "Error: ENOENT: no such file or directory, open '" ++ p ++ "'"
  | WriteError t => t
  | SyntaxError => "SyntaxError"
  | TypeError p =>
      "TypeError: Cannot read properties of null (reading '" ++ p ++ "')"
  | RunError t => t
  | NewError m => "Error: " ++ plain m
  end.

(** A spawned process: [spawnNpm], [spawnYarn] or [spawn] of a custom
    command. *)
Inductive Command :=
| SpawnNpm (args : list string)
| SpawnYarn (args : list string)
| Spawn (cmd : string) (args : list string).

Inductive Outcome :=
| Succeeded
| Failed (text : string).

Inductive RunResult :=
| RunReturns (upgrades : option Index)
| RunRejects (text : string).

Inductive Event :=
| ReadFile (path : string) (content : option string)
| WriteFile (path content : string)
| Rimraf (path : string)
| Rejected (path error : string)
| Spawned (c : Command) (out : Outcome)
| Ran (r : RunResult)
| ConsoleLog (m : list Frag)
| ConsoleError (m : list Frag)
| PrintUpgrades (current : gmap string string) (upgraded : Index) (total : nat).

(** The external collaborators.  A process may do anything to the files;
    the file system may reject a write or a removal ([deny] gives the
    error), and then leaves the files as they are.  [Rejected] is the
    event of such a write or removal. *)
Record Env := {
  process_argv : list string;
  exec : list Event -> gmap string string -> Command ->
         Outcome * gmap string string;
  run : list Event -> gmap string string -> RunResult * gmap string string;
  deny : list Event -> gmap string string -> string -> option string;
}.

(** A file system that accepts every write and every removal. *)
Definition reliable (env : Env) : Prop :=
  forall history files path, deny env history files path = None.

(** ** The monad *)

Record State := {
  fs : gmap string string;
  trace : list Event;
  installAllSuccess : bool;
  lockFile : string;
  lastPkgFile : string;
}.

Definition initial (files : gmap string string) : State :=
  {| fs := files; trace := []; installAllSuccess := false;
     lockFile := ""; lastPkgFile := "" |}.

Inductive Result (A : Type) :=
| Ok (a : A)
| Thrown (e : Exn)
| Exited (code : Z).
Arguments Ok {A} a.
Arguments Thrown {A} e.
Arguments Exited {A} code.

Definition M (A : Type) : Type := State -> Result A * State.

Definition ret {A} (a : A) : M A := fun s => (Ok a, s).

Definition bind {A B} (m : M A) (k : A -> M B) : M B := fun s =>
  match m s with
  | (Ok a, s') => k a s'
  | (Thrown e, s') => (Thrown e, s')
  | (Exited c, s') => (Exited c, s')
  end.

Definition throw {A} (e : Exn) : M A := fun s => (Thrown e, s).

(** [process.exit(code)]: no handler catches it. *)
Definition process_exit {A} (code : Z) : M A := fun s => (Exited code, s).

(** [try { m } catch (e) { h e }] *)
Definition try_catch {A} (m : M A) (h : Exn -> M A) : M A := fun s =>
  match m s with
  | (Thrown e, s') => h e s'
  | r => r
  end.

Declare Scope doctor_scope.
Delimit Scope doctor_scope with doctor.
Notation "'let*' x ':=' m 'in' k" := (bind m (fun x => k))
  (at level 10, x pattern, m at level 100, k at level 200) : doctor_scope.
Notation "m ';;;' k" := (bind m (fun _ => k))
  (at level 100, k at level 200, right associativity) : doctor_scope.
Open Scope doctor_scope.

Definition emit (e : Event) : M unit := fun s =>
  (Ok tt, {| fs := fs s; trace := trace s ++ [e];
             installAllSuccess := installAllSuccess s;
             lockFile := lockFile s; lastPkgFile := lastPkgFile s |}).

Definition set_fs (f : gmap string string) : M unit := fun s =>
  (Ok tt, {| fs := f; trace := trace s;
             installAllSuccess := installAllSuccess s;
             lockFile := lockFile s; lastPkgFile := lastPkgFile s |}).

Definition set_installAllSuccess (b : bool) : M unit := fun s =>
  (Ok tt, {| fs := fs s; trace := trace s; installAllSuccess := b;
             lockFile := lockFile s; lastPkgFile := lastPkgFile s |}).

Definition set_lockFile (v : string) : M unit := fun s =>
  (Ok tt, {| fs := fs s; trace := trace s;
             installAllSuccess := installAllSuccess s;
             lockFile := v; lastPkgFile := lastPkgFile s |}).

Definition set_lastPkgFile (v : string) : M unit := fun s =>
  (Ok tt, {| fs := fs s; trace := trace s;
             installAllSuccess := installAllSuccess s;
             lockFile := lockFile s; lastPkgFile := v |}).

Definition get {A} (proj : State -> A) : M A := fun s => (Ok (proj s), s).

Definition console_log (m : list Frag) : M unit := emit (ConsoleLog m).
Definition console_error (m : list Frag) : M unit := emit (ConsoleError m).

(** [fs.readFile(path, 'utf-8')]: rejects when the file is missing. *)
Definition readFile (path : string) : M string := fun s =>
  match fs s !! path with
  | Some c => (emit (ReadFile path (Some c)) ;;; ret c) s
  | None => (emit (ReadFile path None) ;;; throw (FsError path)) s
  end.

(** ** String helpers of JavaScript *)

(** [s.split(' ')] for a one-character separator: never empty. *)
Fixpoint split (sep : ascii) (s : string) : list string :=
  match s with
  | EmptyString => [EmptyString]
  | String c rest =>
      if Ascii.eqb c sep then EmptyString :: split sep rest
      else match split sep rest with
           | w :: ws => String c w :: ws
           | [] => [String c EmptyString]
           end
  end.

(** [parts.join(sep)] *)
Fixpoint join (sep : string) (parts : list string) : string :=
  match parts with
  | [] => ""
  | [p] => p
  | p :: ps => p ++ sep ++ join sep ps
  end.

Definition space : ascii := ascii_of_nat 32.
Definition dq : string := String (ascii_of_nat 34) "".
Definition nl : string := String (ascii_of_nat 10) "".

(** [s.includes(pat)] *)
Fixpoint isInfix (pat s : string) : bool :=
  String.prefix pat s ||
  match s with
  | EmptyString => false
  | String _ rest => isInfix pat rest
  end.

(** How a template literal prints an optional string. *)
Definition show (v : option string) : string := default "undefined" v.

Definition isYarn (pm : option string) : bool :=
  match pm with
  | Some s => String.eqb s "yarn"
  | None => false
  end.

Section Doctor.

(** [JSON.parse], seen through the fields that [doctor] reads; [None] when
    it throws. *)
Variable JSON_parse : string -> option Json.

(** [upgradePackageData(pkgData, current, upgraded)] lives in
    [src/lib/upgradePackageData.ts], which is not part of the sources at
    hand; [doctor] calls it with one-entry objects, and it is taken here
    as a total function of the manifest text, the name, the current
    specifier ([allDependencies[name]], possibly undefined) and the new
    one. *)
Variable upgradePackageData :
  string -> string * option string -> string * string -> string.

Variable env : Env.

(** [fs.writeFile(path, content)]: rejects when the file system denies the
    write. *)
Definition writeFile (path content : string) : M unit := fun s =>
  match deny env (trace s) (fs s) path with
  | None =>
      (emit (WriteFile path content) ;;; set_fs (<[path := content]> (fs s))) s
  | Some error =>
      (emit (Rejected path error) ;;; throw (WriteError error)) s
  end.

(** [rimraf.sync(path)]: throws when the file system denies the removal. *)
Definition rimraf (path : string) : M unit := fun s =>
  match deny env (trace s) (fs s) path with
  | None => (emit (Rimraf path) ;;; set_fs (delete path (fs s))) s
  | Some error => (emit (Rejected path error) ;;; throw (WriteError error)) s
  end.

(** A spawned process: the environment decides the outcome and the files
    it leaves behind; a failure rejects. *)
Definition spawn (c : Command) : M unit := fun s =>
  let '(out, f) := exec env (trace s) (fs s) c in
  (set_fs f ;;; emit (Spawned c out) ;;;
   match out with
   | Succeeded => ret tt
   | Failed t => throw (SpawnError t)
   end) s.

Definition npmCommand (pm : option string) (args : list string) : Command :=
  if isYarn pm then SpawnYarn args else SpawnNpm args.

(** Run the npm CLI in CI mode.  Every call in [doctor] passes only
    [packageManager] (the spawn options of [runTests] land in fields that
    [npm] does not read). *)
Definition npm (args : list string) (pm : option string) (print : bool)
  : M unit :=
  (if print
   then console_log [Chalk blue (join " " (default "" pm :: args))]
   else ret tt) ;;;
  spawn (npmCommand pm args).

Definition noTestScript : list Frag :=
  [Txt ("No npm " ++ dq ++ "test" ++ dq ++ " script defined. You must define a "
        ++ dq ++ "test" ++ dq ++ " script in the " ++ dq ++ "scripts" ++ dq
        ++ " section of your package.json to use --doctor.")].

Definition notAllowed : list Frag :=
  [Txt ("--packageData and --packageFile are not allowed with --doctor. You must execute "
        ++ dq ++ "ncu --doctor" ++ dq
        ++ " in a directory with a package file so it can install dependencies and test them.")].

Definition script (pkg : PackageFile) (name : string) : option string :=
  match scripts pkg with
  | Some sc => sc !! name
  | None => None
  end.

(** [pkg.name], for a property that is read without optional chaining:
    a [TypeError] when [pkg] is [null]. *)
Definition property (pkg : Json) (name : string) : M PackageFile :=
  match pkg with
  | JsonValue p => ret p
  | JsonNull => throw (TypeError name)
  end.

(** Load and validate package file and tests.  [pkg.scripts] is read only
    when no custom test command is given ([&&] is lazy). *)
Definition loadPackageFile (options : Options) : M (Json * string) :=
  (if truthyData (packageData options) || truthy (packageFile options)
   then console_error notAllowed ;;; process_exit 1
   else ret tt) ;;;
  let* (pkg, pkgFile) :=
    try_catch
      (let* pkgFile := readFile "package.json" in
       match JSON_parse pkgFile with
       | Some pkg => ret (pkg, pkgFile)
       | None => throw SyntaxError
       end)
      (fun _ =>
         console_error [Txt "Missing or invalid package.json"] ;;;
         process_exit 1) in
  let* untested :=
    if negb (truthy (doctorTest options))
    then let* p := property pkg "scripts" in
         ret (negb (truthy (script p "test")))
    else ret false in
  (if untested
   then console_error noTestScript ;;; process_exit 1
   else ret tt) ;;;
  ret (pkg, pkgFile).

Definition spread (m : option (gmap string string)) : gmap string string :=
  default ∅ m.

(** [{...pkg.dependencies, ...pkg.devDependencies,
      ...pkg.optionalDependencies, ...pkg.bundleDependencies}]:
    a later section overrides an earlier one. *)
Definition allDependenciesOf (pkg : PackageFile) : gmap string string :=
  spread (bundleDependencies pkg) ∪ (spread (optionalDependencies pkg) ∪
  (spread (devDependencies pkg) ∪ spread (dependencies pkg))).

Section Session.

Variable options : Options.

Definition lockFileName : string :=
  if isYarn (packageManager options) then "yarn.lock" else "package-lock.json".

(** Install dependencies using "npm run install" or a custom script given
    by --doctorInstall. *)
Definition runInstall : M unit :=
  if truthy (doctorInstall options)
  then
    let parts := split space (default "" (doctorInstall options)) in
    spawn (Spawn (hd "" parts) (tl parts))
  else npm ["install"] (packageManager options) true.

(** Run the tests using "npm run test" or a custom script given by
    --doctorTest.  What a process prints is not part of the model, nor is
    the echo of its error output that the spawn options of the first run
    ask for. *)
Definition runTests : M unit :=
  if truthy (doctorTest options)
  then
    let parts := split space (default "" (doctorTest options)) in
    spawn (Spawn (hd "" parts) (tl parts))
  else npm ["run"; "test"] (packageManager options) true.

Definition fatalReinstall : list Frag :=
  [Txt "Error: Doctor mode was about to test individual upgrades, but ";
   Chalk cyan (default "npm" (if truthy (packageManager options)
                              then packageManager options else None)
               ++ " install");
   Txt " failed after rolling back to your existing package and lock files. This is unexpected since the initial install before any upgrades succeeded. Either npm failed to revert a partial install, or failed anomalously on the second run. Please check your internet connection and retry. If doctor mode fails consistently, report a bug with your complete list of dependency versions at https://github.com/raineorshine/npm-check-updates/issues."].

Section Bisect.

Variable pkg : PackageFile.
Variable pkgFile : string.

Definition allDependencies : gmap string string := allDependenciesOf pkg.

Definition upgradeLine (name version : string) : string :=
  " " ++ name ++ " " ++ show (allDependencies !! name) ++ " → " ++ version.

Definition passLine (name version : string) : list Frag :=
  [Txt "  "; Chalk green "✓"; Txt (upgradeLine name version)].

Definition failLine (name version : string) : list Frag :=
  [Txt "  "; Chalk red "✗"; Txt (upgradeLine name version ++ nl)].

(** The install of one upgrade. *)
Definition installSingle (name version : string) : M unit :=
  npm ((if isYarn (packageManager options) then ["add"]
        else ["install"; "--no-save"]) ++ [name ++ "@" ++ version])
      (packageManager options) true.

Definition runPrepare : M unit :=
  if truthy (script pkg "prepare")
  then try_catch (npm ["run"; "prepare"] (packageManager options) true)
         (fun e => console_error [Chalk red "Prepare script failed"] ;;; throw e)
  else ret tt.

(** Install one upgrade, run the prepare script if there is one (--no-save
    does not run it), run the tests. *)
Definition installAndTest (name version : string) : M unit :=
  installSingle name version ;;;
  runPrepare ;;;
  runTests.

(** The body of the [try] of one iteration. *)
Definition tryUpgrade (name version : string) : M unit :=
  installAndTest name version ;;;
  console_log (passLine name version) ;;;
  let* last := get lastPkgFile in
  set_lastPkgFile
    (upgradePackageData last (name, allDependencies !! name) (name, version)) ;;;
  let* l := readFile lockFileName in
  set_lockFile l.

(** The [catch] of one iteration. *)
Definition restoreLastGood (name version : string) (e : Exn) : M unit :=
  console_error (failLine name version) ;;;
  console_error [Chalk red (exnString e)] ;;;
  let* l := get lockFile in
  writeFile lockFileName l ;;;
  if isYarn (packageManager options)
  then let* last := get lastPkgFile in writeFile "package.json" last
  else ret tt.

Definition iteration (name version : string) : M unit :=
  try_catch (tryUpgrade name version) (restoreLastGood name version).

(** [for (const [name, version] of Object.entries(upgrades))] *)
Fixpoint iterate (upgrades : Index) : M unit :=
  match upgrades with
  | [] => ret tt
  | (name, version) :: rest => iteration name version ;;; iterate rest
  end.

(** The end of the [catch] block: persist and re-install. *)
Definition saveAndReinstall : M unit :=
  let* last := get lastPkgFile in
  (if negb (String.eqb last pkgFile)
   then console_log [Txt "Saving partially upgraded package.json"] ;;;
        writeFile "package.json" last
   else ret tt) ;;;
  runInstall.

(** Restore package file and lockFile. *)
Definition restoreFiles : M unit :=
  writeFile "package.json" pkgFile ;;;
  let* l := get lockFile in
  (if negb (String.eqb l "") then writeFile lockFileName l
   else rimraf lockFileName) ;;;
  set_lastPkgFile pkgFile.

(** Re-install after restoring package file and lock file: only if the
    tests failed, not if npm install failed. *)
Definition reinstallBaseline : M unit :=
  let* ok := get installAllSuccess in
  if ok
  then try_catch runInstall (fun _ => throw (NewError fatalReinstall))
  else ret tt.

(** The [catch] block of the run with all upgrades, up to the end of the
    loop. *)
Definition bisect (upgrades : Index) : M unit :=
  let* ok := get installAllSuccess in
  console_error [Chalk red (if ok then "Tests failed" else "Install failed")] ;;;
  console_log [Txt "Identifying broken dependencies"] ;;;
  restoreFiles ;;;
  reinstallBaseline ;;;
  iterate upgrades.

(** The whole [catch] block. *)
Definition identifyBroken (upgrades : Index) : M unit :=
  bisect upgrades ;;;
  saveAndReinstall.

(** The [try] block of the run with all upgrades. *)
Definition testAll (upgrades : Index) : M unit :=
  runInstall ;;;
  set_installAllSuccess true ;;;
  runTests ;;;
  console_log [Chalk green "✓"; Txt " Tests pass"] ;;;
  emit (PrintUpgrades allDependencies upgrades (List.length upgrades)) ;;;
  console_log [Txt (nl ++ "All dependencies upgraded and installed ");
               Chalk green ":)"].

End Bisect.

(** The inner, normal run of npm-check-updates that upgrades package.json. *)
Definition runNcu : M (option Index) := fun s =>
  let '(r, f) := run env (trace s) (fs s) in
  (set_fs f ;;; emit (Ran r) ;;;
   match r with
   | RunReturns u => ret u
   | RunRejects t => throw (RunError t)
   end) s.

(** The initial install, the lock file snapshot and the tests before any
    upgrade. *)
Definition verifyBaseline : M unit :=
  console_log [Txt "Running tests before upgrading"] ;;;
  runInstall ;;;
  set_lockFile "" ;;;
  try_catch (let* l := readFile lockFileName in set_lockFile l)
            (fun _ => ret tt) ;;;
  try_catch runTests
    (fun _ =>
       console_error [Txt "Tests failed before we even got started!"] ;;;
       process_exit 1).

(** Upgrade all dependencies through the inner run. *)
Definition upgradeAll : M Index :=
  console_log [Txt "Upgrading all dependencies and re-running tests"] ;;;
  console_log
    [Chalk blue
       ("ncu " ++ join " "
          (filter (fun arg => arg ≠ "--doctor") (drop 2 (process_argv env))))] ;;;
  let* upgrades := runNcu in
  ret (default [] upgrades).

(** Iteratively installs upgrades and runs tests to identify breaking
    upgrades. *)
Definition doctor : M unit :=
  let* (parsed, pkgFile) := loadPackageFile options in
  let* pkg := property parsed "dependencies" in
  verifyBaseline ;;;
  let* upgrades := upgradeAll in
  if Nat.eqb (List.length upgrades) 0
  then console_log [Txt "All dependencies are up-to-date "; Chalk greenBold ":)"]
  else
    set_installAllSuccess false ;;;
    try_catch (testAll pkg upgrades) (fun _ => identifyBroken pkg pkgFile upgrades).

End Session.
End Doctor.

(** ** The events of each call *)

Open Scope list_scope.

(** The reads of [path] in a trace, in order. *)
Definition reads (path : string) (t : list Event) : list (option string) :=
  omap (fun e => match e with
                 | ReadFile p c => if String.eqb p path then Some c else None
                 | _ => None
                 end) t.

Definition resultOf (out : Outcome) : Result unit :=
  match out with
  | Succeeded => Ok tt
  | Failed t => Thrown (SpawnError t)
  end.

(** A process with the line printed before it and its outcome. *)
Definition spawnEvents (log : list Event) (c : Command) (out : Outcome)
  : list Event :=
  (log ++ [Spawned c out])%list.

Section Events.

Variable options : Options.

Definition npmLog (args : list string) : list Event :=
  [ConsoleLog [Chalk blue (join " " (default "" (packageManager options) :: args))]].

Definition customCommand (line : option string) : Command :=
  let parts := split space (default "" line) in
  Spawn (hd "" parts) (tl parts).

Definition installCommand : Command :=
  if truthy (doctorInstall options)
  then customCommand (doctorInstall options)
  else npmCommand (packageManager options) ["install"].

Definition installLog : list Event :=
  if truthy (doctorInstall options) then [] else npmLog ["install"].

Definition installEvents (out : Outcome) : list Event :=
  spawnEvents installLog installCommand out.

Definition testCommand : Command :=
  if truthy (doctorTest options)
  then customCommand (doctorTest options)
  else npmCommand (packageManager options) ["run"; "test"].

Definition testLog : list Event :=
  if truthy (doctorTest options) then [] else npmLog ["run"; "test"].

Definition testEvents (out : Outcome) : list Event :=
  spawnEvents testLog testCommand out.

Definition singleArgs (name version : string) : list string :=
  ((if isYarn (packageManager options) then ["add"]
    else ["install"; "--no-save"]) ++ [(name ++ "@" ++ version)%string])%list.

Definition singleCommand (name version : string) : Command :=
  npmCommand (packageManager options) (singleArgs name version).

Definition singleEvents (name version : string) (out : Outcome) : list Event :=
  spawnEvents (npmLog (singleArgs name version)) (singleCommand name version) out.

Definition prepareCommand : Command :=
  npmCommand (packageManager options) ["run"; "prepare"].

Definition prepareEvents (pkg : PackageFile) (out : Outcome) : list Event :=
  if truthy (script pkg "prepare")
  then (spawnEvents (npmLog ["run"; "prepare"]) prepareCommand out
        ++ match out with
           | Succeeded => []
           | Failed _ => [ConsoleError [Chalk red "Prepare script failed"]]
           end)%list
  else [].

(** What the [catch] of an iteration does, given the last good lock file
    and manifest. *)
Definition restoreEvents (pkg : PackageFile) (name version : string) (e : Exn)
  (lock last : string) : list Event :=
  ([ConsoleError (failLine pkg name version);
    ConsoleError [Chalk red (exnString e)];
    WriteFile (lockFileName options) lock]
   ++ (if isYarn (packageManager options)
       then [WriteFile "package.json" last] else []))%list.

(** The same [catch] when a write is rejected: that of the lock file, or
    (under yarn only) that of package.json, once the lock file is
    written. *)
Definition restoreRejected (pkg : PackageFile) (name version : string)
  (e : Exn) (lock : string) (manifest : bool) (error : string) : list Event :=
  ([ConsoleError (failLine pkg name version);
    ConsoleError [Chalk red (exnString e)]]
   ++ (if manifest
       then [WriteFile (lockFileName options) lock;
             Rejected "package.json" error]
       else [Rejected (lockFileName options) error]))%list.

End Events.

(** ** Observations of a session *)

(** The processes a session spawned, in order, with their outcomes. *)
Definition spawned (t : list Event) : list (Command * Outcome) :=
  omap (fun e => match e with Spawned c o => Some (c, o) | _ => None end) t.

Definition succeeded (o : Outcome) : bool :=
  match o with Succeeded => true | Failed _ => false end.

(** Which of the spawned processes succeeded, in order. *)
Definition outcomes (t : list Event) : list bool :=
  map (fun p => succeeded p.2) (spawned t).

(** What the inner run of npm-check-updates returned. *)
Definition ranResult (t : list Event) : option RunResult :=
  head (omap (fun e => match e with Ran r => Some r | _ => None end) t).

(** The upgrades that the inner run found, if it ran and returned. *)
Definition found (t : list Event) : Index :=
  match ranResult t with
  | Some (RunReturns u) => default [] u
  | _ => []
  end.

(** The first and the last read of [path] in the session. *)
Definition firstRead (path : string) (t : list Event) : option (option string) :=
  head (reads path t).

Definition lastRead (path : string) (t : list Event) : option (option string) :=
  last (reads path t).

(** The index of the first event that satisfies [p]. *)
Fixpoint position (p : Event -> bool) (t : list Event) : option nat :=
  match t with
  | [] => None
  | e :: rest => if p e then Some 0 else S <$> position p rest
  end.

Definition isSpawned (e : Event) : bool :=
  match e with Spawned _ _ => true | _ => false end.

Definition isReadOf (path : string) (e : Event) : bool :=
  match e with ReadFile p _ => String.eqb p path | _ => false end.

(** Both snapshots, of the manifest and of the lock file, are read before
    the first process is spawned. *)
Definition snapshotsBeforeInstall (lockName : string) (t : list Event) : Prop :=
  exists m l i,
    position (isReadOf "package.json") t = Some m /\
    position (isReadOf lockName) t = Some l /\
    position isSpawned t = Some i /\
    m < i /\ l < i.

(** What [doctor] itself did to the files. *)
Definition isWrite (e : Event) : bool :=
  match e with
  | WriteFile _ _ | Rimraf _ => true
  | _ => false
  end.

Definition isRejected (e : Event) : bool :=
  match e with Rejected _ _ => true | _ => false end.

Section Updated.
Variable upgradePackageData :
  string -> string * option string -> string * string -> string.
Variable pkg : PackageFile.

(** The manifest once the upgrade of [name] is merged into [last]. *)
Definition merged (name version last : string) : string :=
  upgradePackageData last (name, allDependencies pkg !! name) (name, version).

(** The processes of one iteration: the install, the prepare script when
    there is one, the tests. *)
Definition attempts : nat :=
  if truthy (script pkg "prepare") then 3 else 2.

End Updated.

(** ** The paths of a session *)

Section Sessions.
Variable JSON_parse : string -> option Json.
Variable upgradePackageData :
  string -> string * option string -> string * string -> string.
Variable env : Env.
Variable options : Options.

(** The manifest passes [loadPackageFile]. *)
Definition Loaded (files : gmap string string) (pkg : PackageFile)
  (pkgFile : string) : Prop :=
  truthyData (packageData options) || truthy (packageFile options) = false /\
  files !! "package.json" = Some pkgFile /\
  JSON_parse pkgFile = Some (JsonValue pkg) /\
  truthy (doctorTest options) || truthy (script pkg "test") = true.

Definition loadedEvents (pkgFile : string) : list Event :=
  [ReadFile "package.json" (Some pkgFile);
   ConsoleLog [Txt "Running tests before upgrading"]].

(** The baseline phase when it passes; [lock] is what the read of the lock
    file gave. *)
Definition baselineEvents (pkgFile : string) (lock : option string)
  : list Event :=
  loadedEvents pkgFile ++ installEvents options Succeeded
  ++ [ReadFile (lockFileName options) lock] ++ testEvents options Succeeded.

Definition upgradingEvents : list Event :=
  [ConsoleLog [Txt "Upgrading all dependencies and re-running tests"];
   ConsoleLog
     [Chalk blue
        ("ncu " ++ join " "
           (filter (fun arg => arg ≠ "--doctor") (drop 2 (process_argv env))))]].

(** The run with all upgrades when it fails: at the install, or at the
    tests. *)
Definition failedAllEvents (ok : bool) (t : string) : list Event :=
  if ok then installEvents options Succeeded ++ testEvents options (Failed t)
  else installEvents options (Failed t).

(** A spawned process, with the line printed before it, as one step. *)
Definition run_spawn (log : list Event) (c : Command) (s : State)
  : Result unit * State :=
  let '(out, f) := exec env (trace s ++ log) (fs s) c in
  (resultOf out,
   {| fs := f; trace := trace s ++ spawnEvents log c out;
      installAllSuccess := installAllSuccess s;
      lockFile := lockFile s; lastPkgFile := lastPkgFile s |}).

(** What the rollback does to the lock file, given the snapshot read in
    the baseline phase: written back, or removed when there is none. *)
Definition lockRestore (lock : option string) : Event :=
  if truthy lock then WriteFile (lockFileName options) (default "" lock)
  else Rimraf (lockFileName options).

(** The start of the [catch] of the run with all upgrades. *)
Definition rollbackEvents (ok : bool) (pkgFile : string) (lock : option string)
  : list Event :=
  [ConsoleError [Chalk red (if ok then "Tests failed" else "Install failed")];
   ConsoleLog [Txt "Identifying broken dependencies"];
   WriteFile "package.json" pkgFile;
   lockRestore lock].

(** The same start when a write is rejected: that of package.json, or
    ([lockStep]) the write or the removal of the lock file. *)
Definition rollbackRejected (ok : bool) (pkgFile : string) (lockStep : bool)
  (error : string) : list Event :=
  [ConsoleError [Chalk red (if ok then "Tests failed" else "Install failed")];
   ConsoleLog [Txt "Identifying broken dependencies"]]
  ++ (if lockStep
      then [WriteFile "package.json" pkgFile;
            Rejected (lockFileName options) error]
      else [Rejected "package.json" error]).

(** What the end of the loop writes: the accumulated manifest, when it
    differs from the snapshot. *)
Definition saveEvents (pkgFile last : string) : list Event :=
  if String.eqb last pkgFile then []
  else [ConsoleLog [Txt "Saving partially upgraded package.json"];
        WriteFile "package.json" last].

(** The save at the end of the loop when the write is rejected. *)
Definition saveRejected (error : string) : list Event :=
  [ConsoleLog [Txt "Saving partially upgraded package.json"];
   Rejected "package.json" error].

(** The session is refused by [loadPackageFile], with the message it
    prints. *)
Inductive Refusal (files : gmap string string) : list Frag -> Prop :=
| refusal_options :
    truthyData (packageData options) || truthy (packageFile options) = true ->
    Refusal files notAllowed
| refusal_missing :
    truthyData (packageData options) || truthy (packageFile options) = false ->
    files !! "package.json" = None ->
    Refusal files [Txt "Missing or invalid package.json"]
| refusal_invalid c :
    truthyData (packageData options) || truthy (packageFile options) = false ->
    files !! "package.json" = Some c ->
    JSON_parse c = None ->
    Refusal files [Txt "Missing or invalid package.json"]
| refusal_untested c pkg :
    truthyData (packageData options) || truthy (packageFile options) = false ->
    files !! "package.json" = Some c ->
    JSON_parse c = Some (JsonValue pkg) ->
    truthy (doctorTest options) = false ->
    truthy (script pkg "test") = false ->
    Refusal files noTestScript.

(** package.json holds [null]: the property that is read first. *)
Definition nullProperty : string :=
  if truthy (doctorTest options) then "dependencies" else "scripts".

(** The paths of a session, with everything it did. *)
Inductive Session (files : gmap string string) : Result unit -> State -> Prop :=
| NotAllowed s :
    truthyData (packageData options) || truthy (packageFile options) = true ->
    trace s = [ConsoleError notAllowed] ->
    fs s = files ->
    Session files (Exited 1) s
| InvalidManifest s c :
    truthyData (packageData options) || truthy (packageFile options) = false ->
    files !! "package.json" = c ->
    c ≫= JSON_parse = None ->
    trace s = [ReadFile "package.json" c;
               ConsoleError [Txt "Missing or invalid package.json"]] ->
    fs s = files ->
    Session files (Exited 1) s
| NoTestScript s c pkg :
    truthyData (packageData options) || truthy (packageFile options) = false ->
    files !! "package.json" = Some c ->
    JSON_parse c = Some (JsonValue pkg) ->
    truthy (doctorTest options) || truthy (script pkg "test") = false ->
    trace s = [ReadFile "package.json" (Some c); ConsoleError noTestScript] ->
    fs s = files ->
    Session files (Exited 1) s
| NullManifest s c :
    truthyData (packageData options) || truthy (packageFile options) = false ->
    files !! "package.json" = Some c ->
    JSON_parse c = Some JsonNull ->
    trace s = [ReadFile "package.json" (Some c)] ->
    fs s = files ->
    Session files (Thrown (TypeError nullProperty)) s
| BaselineInstallFailed s pkg pkgFile t :
    Loaded files pkg pkgFile ->
    trace s = loadedEvents pkgFile ++ installEvents options (Failed t) ->
    Session files (Thrown (SpawnError t)) s
| BaselineTestsFailed s pkg pkgFile lock t :
    Loaded files pkg pkgFile ->
    trace s = loadedEvents pkgFile ++ installEvents options Succeeded
              ++ [ReadFile (lockFileName options) lock]
              ++ testEvents options (Failed t)
              ++ [ConsoleError [Txt "Tests failed before we even got started!"]] ->
    Session files (Exited 1) s
| RunRejected s pkg pkgFile lock t :
    Loaded files pkg pkgFile ->
    trace s = baselineEvents pkgFile lock ++ upgradingEvents
              ++ [Ran (RunRejects t)] ->
    Session files (Thrown (RunError t)) s
| UpToDate s pkg pkgFile lock u :
    Loaded files pkg pkgFile ->
    default [] u = [] ->
    trace s = baselineEvents pkgFile lock ++ upgradingEvents
              ++ [Ran (RunReturns u);
                  ConsoleLog [Txt "All dependencies are up-to-date ";
                              Chalk greenBold ":)"]] ->
    Session files (Ok tt) s
| AllUpgraded s pkg pkgFile lock u :
    Loaded files pkg pkgFile ->
    default [] u ≠ [] ->
    trace s = baselineEvents pkgFile lock ++ upgradingEvents
              ++ [Ran (RunReturns u)]
              ++ installEvents options Succeeded ++ testEvents options Succeeded
              ++ [ConsoleLog [Chalk green "✓"; Txt " Tests pass"];
                  PrintUpgrades (allDependencies pkg) (default [] u)
                    (List.length (default [] u));
                  ConsoleLog [Txt (nl ++ "All dependencies upgraded and installed ")%string;
                              Chalk green ":)"]] ->
    Session files (Ok tt) s
| Bisected r s pkg pkgFile lock u ok t s0 :
    Loaded files pkg pkgFile ->
    default [] u ≠ [] ->
    trace s0 = baselineEvents pkgFile lock ++ upgradingEvents
               ++ [Ran (RunReturns u)] ++ failedAllEvents ok t ->
    installAllSuccess s0 = ok ->
    lockFile s0 = default "" lock ->
    identifyBroken upgradePackageData env options pkg pkgFile (default [] u) s0
      = (r, s) ->
    Session files r s.

End Sessions.

(** ** What the loop may do *)

(** The file that an event reads, writes or removes, or tries to. *)
Definition touched (e : Event) : option string :=
  match e with
  | ReadFile p _ | WriteFile p _ | Rimraf p | Rejected p _ => Some p
  | _ => None
  end.

(** The install of a single upgrade, among the commands. *)
Definition isSingleInstall (c : Command) : bool :=
  match c with
  | SpawnNpm ("install" :: "--no-save" :: _) => true
  | SpawnYarn ("add" :: _) => true
  | _ => false
  end.

Section Alphabet.

Variable options : Options.
Variable pkg : PackageFile.

(** Everything an iteration over [upgrades] can do. *)
Inductive loopEvent (upgrades : Index) : Event -> Prop :=
| loop_log m : loopEvent upgrades (ConsoleLog m)
| loop_error m : loopEvent upgrades (ConsoleError m)
| loop_single name version out :
    (name, version) ∈ upgrades ->
    loopEvent upgrades (Spawned (singleCommand options name version) out)
| loop_prepare out :
    truthy (script pkg "prepare") = true ->
    loopEvent upgrades (Spawned (prepareCommand options) out)
| loop_test out : loopEvent upgrades (Spawned (testCommand options) out)
| loop_read c : loopEvent upgrades (ReadFile (lockFileName options) c)
| loop_write c : loopEvent upgrades (WriteFile (lockFileName options) c)
| loop_manifest c :
    isYarn (packageManager options) = true ->
    loopEvent upgrades (WriteFile "package.json" c)
| loop_rejected_lock error :
    loopEvent upgrades (Rejected (lockFileName options) error)
| loop_rejected_manifest error :
    isYarn (packageManager options) = true ->
    loopEvent upgrades (Rejected "package.json" error).

(** The commands a session can spawn. *)
Inductive sessionCommand : Command -> Prop :=
| command_install : sessionCommand (installCommand options)
| command_test : sessionCommand (testCommand options)
| command_prepare : sessionCommand (prepareCommand options)
| command_single name version :
    sessionCommand (singleCommand options name version).

(** Everything a session can do. *)
Inductive sessionEvent : Event -> Prop :=
| session_log m : sessionEvent (ConsoleLog m)
| session_error m : sessionEvent (ConsoleError m)
| session_print current upgraded total :
    sessionEvent (PrintUpgrades current upgraded total)
| session_ran r : sessionEvent (Ran r)
| session_spawned c out : sessionCommand c -> sessionEvent (Spawned c out)
| session_read_manifest c : sessionEvent (ReadFile "package.json" c)
| session_read_lock c : sessionEvent (ReadFile (lockFileName options) c)
| session_write_manifest c : sessionEvent (WriteFile "package.json" c)
| session_write_lock c : sessionEvent (WriteFile (lockFileName options) c)
| session_remove_lock : sessionEvent (Rimraf (lockFileName options))
| session_rejected_manifest error : sessionEvent (Rejected "package.json" error)
| session_rejected_lock error :
    sessionEvent (Rejected (lockFileName options) error).

(** The manifest once the upgrades of [kept] are merged, in order. *)
Definition mergedAll
  (upgradePackageData :
     string -> string * option string -> string * string -> string)
  (kept : Index) (last : string) : string :=
  foldl (fun acc u => merged upgradePackageData pkg u.1 u.2 acc) last kept.

End Alphabet.

(** ** A small project to run the model on *)

Module Demo.

#[local] Open Scope string_scope.

(** Replace the first occurrence of [pat] in [s]. *)
Fixpoint replaceFirst (pat rep s : string) : string :=
  if String.prefix pat s
  then rep ++ String.substring (String.length pat)
                               (String.length s - String.length pat) s
  else match s with
       | EmptyString => EmptyString
       | String c rest => String c (replaceFirst pat rep rest)
       end.

Definition entry (name spec : string) : string :=
  dq ++ name ++ dq ++ ": " ++ dq ++ spec ++ dq.

Definition upgradePackageData (pkgData : string)
  (current : string * option string) (upgraded : string * string) : string :=
  match current.2 with
  | Some cur => replaceFirst (entry current.1 cur) (entry upgraded.1 upgraded.2) pkgData
  | None => pkgData
  end.

Definition manifest (a b c : string) : string :=
  "{" ++ dq ++ "scripts" ++ dq ++ ": {" ++ entry "test" "mocha" ++ "}, "
  ++ dq ++ "dependencies" ++ dq ++ ": {" ++ entry "a" a ++ ", " ++ entry "b" b
  ++ ", " ++ entry "c" c ++ "}}".

Definition pkgFile : string := manifest "1.0.0" "1.0.0" "1.0.0".

Definition pkg : PackageFile :=
  {| scripts := Some {["test" := "mocha"]};
     dependencies := Some (<["a" := "1.0.0"]> (<["b" := "1.0.0"]> {["c" := "1.0.0"]}));
     devDependencies := None;
     optionalDependencies := None;
     bundleDependencies := None |}.

(** A manifest without a test script. *)
Definition untested : PackageFile :=
  {| scripts := None; dependencies := dependencies pkg;
     devDependencies := None; optionalDependencies := None;
     bundleDependencies := None |}.

Definition untestedFile : string :=
  "{" ++ dq ++ "dependencies" ++ dq ++ ": {" ++ entry "a" "1.0.0" ++ ", "
  ++ entry "b" "1.0.0" ++ ", " ++ entry "c" "1.0.0" ++ "}}".

Definition JSON_parse (s : string) : option Json :=
  if String.eqb s pkgFile then Some (JsonValue pkg)
  else if String.eqb s untestedFile then Some (JsonValue untested)
  else if String.eqb s "null" then Some JsonNull
  else None.

Definition upgrades : Index := [("a", "2.0.0"); ("b", "2.0.0"); ("c", "2.0.0")].

Definition lockOf (files : gmap string string) (name : string) : string :=
  default "" (files !! name).

(** The tests break as soon as version 2.0.0 of [b] is installed. *)
Definition broken (lock : string) : bool :=
  isInfix (entry "b" "2.0.0") lock || isInfix "b@2.0.0" lock.

Definition execWith (lockName : string) (history : list Event)
  (files : gmap string string) (c : Command) : Outcome * gmap string string :=
  let args := match c with SpawnNpm a | SpawnYarn a | Spawn _ a => a end in
  match args with
  | ["install"] =>
      (Succeeded, <[lockName := "lock of " ++ lockOf files "package.json"]> files)
  | ["install"; "--no-save"; dep] | ["add"; dep] =>
      (Succeeded, <[lockName := lockOf files lockName ++ " + " ++ dep]> files)
  | ["run"; "test"] =>
      (if broken (lockOf files lockName) then Failed "1 failing" else Succeeded,
       files)
  | _ => (Failed "unknown command", files)
  end.

Definition env : Env :=
  {| process_argv := ["node"; "ncu"; "--doctor"; "-u"];
     exec := execWith "package-lock.json";
     run := fun _ files =>
       (RunReturns (Some upgrades),
        <["package.json" := manifest "2.0.0" "2.0.0" "2.0.0"]> files);
     deny := fun _ _ _ => None |}.

Definition options : Options :=
  {| packageManager := Some "npm"; doctorInstall := None; doctorTest := None;
     packageData := None; packageFile := None |}.

Definition files : gmap string string := {["package.json" := pkgFile]}.

(** A project whose only upgrade is harmless. *)
Definition healthy : Env :=
  {| process_argv := ["node"; "ncu"; "--doctor"; "-u"];
     exec := execWith "package-lock.json";
     run := fun _ files =>
       (RunReturns (Some [("a", "2.0.0")]),
        <["package.json" := manifest "2.0.0" "1.0.0" "1.0.0"]> files);
     deny := deny env |}.

(** The registry is unreachable once the rollback has been written. *)
Definition flaky : Env :=
  {| process_argv := ["node"; "ncu"; "--doctor"; "-u"];
     exec := fun history files c =>
       match c with
       | SpawnNpm ["install"] =>
           if existsb isWrite history then (Failed "ECONNRESET", files)
           else execWith "package-lock.json" history files c
       | _ => execWith "package-lock.json" history files c
       end;
     run := run env;
     deny := deny env |}.

(** A project that keeps no lock file: the tests look at package.json and
    at what was installed last. *)
Definition lockless : Env :=
  {| process_argv := ["node"; "ncu"; "--doctor"; "-u"];
     exec := fun history files c =>
       match c with
       | SpawnNpm ["run"; "test"] =>
           (if broken (lockOf files "package.json") then Failed "1 failing"
            else Succeeded, files)
       | SpawnNpm _ => (Succeeded, files)
       | _ => (Failed "unknown command", files)
       end;
     run := run env;
     deny := deny env |}.

(** A project with a stale lock file. *)
Definition staleFiles : gmap string string :=
  <["package-lock.json" := "stale"]> files.

Definition session : Result unit * State :=
  doctor JSON_parse upgradePackageData env options (initial files).

Definition healthySession : Result unit * State :=
  doctor JSON_parse upgradePackageData healthy options (initial files).

Definition flakySession : Result unit * State :=
  doctor JSON_parse upgradePackageData flaky options (initial files).

Definition locklessSession : Result unit * State :=
  doctor JSON_parse upgradePackageData lockless options (initial files).

Definition staleSession : Result unit * State :=
  doctor JSON_parse upgradePackageData env options (initial staleFiles).

(** No process can be started. *)
Definition offline : Env :=
  {| process_argv := process_argv env;
     exec := fun _ files _ => (Failed "ENOTFOUND", files);
     run := run env;
     deny := deny env |}.

(** The tests fail whatever is installed. *)
Definition red : Env :=
  {| process_argv := process_argv env;
     exec := fun history files c =>
       match c with
       | SpawnNpm ["run"; "test"] => (Failed "1 failing", files)
       | _ => execWith "package-lock.json" history files c
       end;
     run := run env;
     deny := deny env |}.

(** npm-check-updates finds nothing to upgrade. *)
Definition current : Env :=
  {| process_argv := process_argv env;
     exec := exec env;
     run := fun _ files => (RunReturns None, files);
     deny := deny env |}.

(** npm-check-updates cannot reach the registry. *)
Definition unreachable : Env :=
  {| process_argv := process_argv env;
     exec := exec env;
     run := fun _ files => (RunRejects "E503", files);
     deny := deny env |}.

Definition offlineSession : Result unit * State :=
  doctor JSON_parse upgradePackageData offline options (initial files).

Definition redSession : Result unit * State :=
  doctor JSON_parse upgradePackageData red options (initial files).

Definition currentSession : Result unit * State :=
  doctor JSON_parse upgradePackageData current options (initial files).

Definition unreachableSession : Result unit * State :=
  doctor JSON_parse upgradePackageData unreachable options (initial files).

(** The install of [b] leaves a directory where the lock file was: from
    then on the file system rejects the writes to it. *)
Definition brittle : Env :=
  {| process_argv := process_argv env;
     exec := exec env;
     run := run env;
     deny := fun history _ path =>
       if String.eqb path "package-lock.json"
          && existsb (fun e =>
                        match e with
                        | Spawned (SpawnNpm ["install"; "--no-save"; "b@2.0.0"]) _ =>
                            true
                        | _ => false
                        end) history
       then Some "EISDIR: illegal operation on a directory, open 'package-lock.json'"
       else None |}.

Definition brittleSession : Result unit * State :=
  doctor JSON_parse upgradePackageData brittle options (initial files).

(** A project whose package.json holds [null]. *)
Definition nullFiles : gmap string string := {["package.json" := "null"]}.

Definition nullSession : Result unit * State :=
  doctor JSON_parse upgradePackageData env options (initial nullFiles).

(** A project without a test script. *)
Definition untestedFiles : gmap string string :=
  {["package.json" := untestedFile]}.

Definition untestedSession : Result unit * State :=
  doctor JSON_parse upgradePackageData env options (initial untestedFiles).

(** [--packageFile] given, with the empty string. *)
Definition emptyPackageFile : Options :=
  {| packageManager := Some "npm"; doctorInstall := None; doctorTest := None;
     packageData := None; packageFile := Some "" |}.

Definition emptyPackageFileSession : Result unit * State :=
  doctor JSON_parse upgradePackageData env emptyPackageFile (initial files).

(** The same project under yarn. *)
Definition yarn : Options :=
  {| packageManager := Some "yarn"; doctorInstall := None; doctorTest := None;
     packageData := None; packageFile := None |}.

Definition yarnEnv : Env :=
  {| process_argv := process_argv env;
     exec := execWith "yarn.lock";
     run := run env;
     deny := deny env |}.

(** The state in which the [catch] of the run with all upgrades starts,
    in [session] and under yarn. *)
Definition atCatch : State :=
  ((loadPackageFile JSON_parse options ;;;
    verifyBaseline env options ;;;
    upgradeAll env ;;;
    set_installAllSuccess false ;;;
    testAll env options pkg upgrades) (initial files)).2.

Definition yarnAtCatch : State :=
  ((loadPackageFile JSON_parse yarn ;;;
    verifyBaseline yarnEnv yarn ;;;
    upgradeAll yarnEnv ;;;
    set_installAllSuccess false ;;;
    testAll yarnEnv yarn pkg upgrades) (initial files)).2.

(** The state in which the iteration of [b] starts, once [a] is kept. *)
Definition beforeB : State :=
  (bisect upgradePackageData env options pkg pkgFile [("a", "2.0.0")]
     atCatch).2.

Definition yarnBeforeB : State :=
  (bisect upgradePackageData yarnEnv yarn pkg pkgFile [("a", "2.0.0")]
     yarnAtCatch).2.

End Demo.

(** ** Every computation only appends to the trace *)

Definition extends {A} (m : M A) : Prop :=
  forall s r s', m s = (r, s') -> exists evs, trace s' = trace s ++ evs.

Lemma extends_ret {A} (a : A) : extends (ret a).
Proof. intros s r s' [= <- <-]. exists []. by rewrite app_nil_r. Qed.

Lemma extends_throw {A} (e : Exn) : extends (@throw A e).
Proof. intros s r s' [= <- <-]. exists []. by rewrite app_nil_r. Qed.

Lemma extends_exit {A} (c : Z) : extends (@process_exit A c).
Proof. intros s r s' [= <- <-]. exists []. by rewrite app_nil_r. Qed.

Lemma extends_get {A} (proj : State -> A) : extends (get proj).
Proof. intros s r s' [= <- <-]. exists []. by rewrite app_nil_r. Qed.

Lemma extends_bind {A B} (m : M A) (k : A -> M B) :
  extends m -> (forall a, extends (k a)) -> extends (bind m k).
Proof.
  intros Hm Hk s r s'. unfold bind.
  destruct (m s) as [[a|e|c] s1] eqn:E; destruct (Hm _ _ _ E) as [l1 H1].
  - intros H. destruct (Hk _ _ _ _ H) as [l2 H2].
    exists (l1 ++ l2). by rewrite H2, H1, app_assoc.
  - intros [= <- <-]. eauto.
  - intros [= <- <-]. eauto.
Qed.

Lemma extends_try {A} (m : M A) (h : Exn -> M A) :
  extends m -> (forall e, extends (h e)) -> extends (try_catch m h).
Proof.
  intros Hm Hh s r s'. unfold try_catch.
  destruct (m s) as [[a|e|c] s1] eqn:E; destruct (Hm _ _ _ E) as [l1 H1].
  - intros [= <- <-]. eauto.
  - intros H. destruct (Hh _ _ _ _ H) as [l2 H2].
    exists (l1 ++ l2). by rewrite H2, H1, app_assoc.
  - intros [= <- <-]. eauto.
Qed.

Lemma extends_emit (e : Event) : extends (emit e).
Proof. intros s r s' [= <- <-]. by exists [e]. Qed.

Lemma extends_set_fs f : extends (set_fs f).
Proof. intros s r s' [= <- <-]. exists []. by rewrite app_nil_r. Qed.

Lemma extends_set_installAllSuccess b : extends (set_installAllSuccess b).
Proof. intros s r s' [= <- <-]. exists []. by rewrite app_nil_r. Qed.

Lemma extends_set_lockFile v : extends (set_lockFile v).
Proof. intros s r s' [= <- <-]. exists []. by rewrite app_nil_r. Qed.

Lemma extends_set_lastPkgFile v : extends (set_lastPkgFile v).
Proof. intros s r s' [= <- <-]. exists []. by rewrite app_nil_r. Qed.

Create HintDb extends.
Create Rewrite HintDb outcomes.
#[export] Hint Resolve extends_ret extends_throw extends_exit extends_get
  extends_emit extends_set_fs extends_set_installAllSuccess
  extends_set_lockFile extends_set_lastPkgFile : extends.

Ltac extends_step :=
  first
    [ solve [eauto with extends]
    | apply extends_bind; [|intros ?]
    | apply extends_try; [|intros ?]
    | match goal with
      | |- extends (if ?b then _ else _) => destruct b
      | |- extends (match ?x with _ => _ end) => destruct x
      end ].

Ltac extends_auto := repeat extends_step.

Lemma extends_readFile path : extends (readFile path).
Proof.
  intros s r s'. unfold readFile.
  destruct (fs s !! path); intros [= <- <-]; cbn; eauto.
Qed.

#[export] Hint Resolve extends_readFile : extends.

Section Extends.

Variable JSON_parse : string -> option Json.
Variable upgradePackageData :
  string -> string * option string -> string * string -> string.
Variable env : Env.
Variable options : Options.

Lemma extends_writeFile path content : extends (writeFile env path content).
Proof.
  intros s r s'. unfold writeFile.
  destruct (deny env (trace s) (fs s) path); intros [= <- <-]; cbn; eauto.
Qed.

Lemma extends_rimraf path : extends (rimraf env path).
Proof.
  intros s r s'. unfold rimraf.
  destruct (deny env (trace s) (fs s) path); intros [= <- <-]; cbn; eauto.
Qed.
Hint Resolve extends_writeFile extends_rimraf : extends.

Lemma extends_spawn c : extends (spawn env c).
Proof.
  intros s r s'. unfold spawn.
  destruct (exec env (trace s) (fs s) c) as [[|t] f]; intros [= <- <-]; cbn; eauto.
Qed.
Hint Resolve extends_spawn : extends.

Lemma extends_npm args pm print : extends (npm env args pm print).
Proof. unfold npm, console_log. extends_auto. Qed.
Hint Resolve extends_npm : extends.

Lemma extends_runInstall : extends (runInstall env options).
Proof. unfold runInstall. extends_auto. Qed.

Lemma extends_runTests : extends (runTests env options).
Proof. unfold runTests. extends_auto. Qed.
Hint Resolve extends_runInstall extends_runTests : extends.

Lemma extends_runPrepare pkg : extends (runPrepare env options pkg).
Proof. unfold runPrepare, console_error. extends_auto. Qed.
Hint Resolve extends_runPrepare : extends.

Lemma extends_iteration pkg name version :
  extends (iteration upgradePackageData env options pkg name version).
Proof.
  unfold iteration, tryUpgrade, restoreLastGood, installAndTest,
    installSingle, console_log, console_error.
  extends_auto.
Qed.
Hint Resolve extends_iteration : extends.

Lemma extends_iterate pkg upgrades :
  extends (iterate upgradePackageData env options pkg upgrades).
Proof.
  induction upgrades as [|[name version] rest IH]; cbn [iterate]; extends_auto.
Qed.
Hint Resolve extends_iterate : extends.

Lemma extends_identifyBroken pkg pkgFile upgrades :
  extends (identifyBroken upgradePackageData env options pkg pkgFile upgrades).
Proof.
  unfold identifyBroken, bisect, restoreFiles, reinstallBaseline,
    saveAndReinstall, console_log, console_error.
  extends_auto.
Qed.

End Extends.

#[export] Hint Resolve extends_writeFile extends_rimraf extends_spawn
  extends_npm extends_runInstall extends_runTests extends_runPrepare
  extends_iteration extends_iterate : extends.

(** ** Stepping through the model *)

Section Runs.
Variable JSON_parse : string -> option Json.
Variable upgradePackageData :
  string -> string * option string -> string * string -> string.
Variable env : Env.
Variable options : Options.

Lemma spawn_run c s : spawn env c s = run_spawn env [] c s.
Proof.
  unfold spawn, run_spawn, spawnEvents. rewrite app_nil_r.
  destruct (exec env (trace s) (fs s) c) as [[|t] f]; reflexivity.
Qed.

Lemma npm_run args pm s :
  pm = packageManager options ->
  npm env args pm true s = run_spawn env (npmLog options args) (npmCommand pm args) s.
Proof.
  intros ->. unfold npm, run_spawn, spawnEvents, npmLog, spawn, console_log, emit, bind.
  cbn [trace fs installAllSuccess lockFile lastPkgFile].
  destruct (exec env _ (fs s) _) as [[|t] f]; cbn; by rewrite <- app_assoc.
Qed.

Lemma runInstall_run s :
  runInstall env options s = run_spawn env (installLog options) (installCommand options) s.
Proof.
  unfold runInstall, installLog, installCommand, customCommand.
  destruct (truthy (doctorInstall options)).
  - apply spawn_run.
  - by apply npm_run.
Qed.

Lemma runTests_run s :
  runTests env options s = run_spawn env (testLog options) (testCommand options) s.
Proof.
  unfold runTests, testLog, testCommand, customCommand.
  destruct (truthy (doctorTest options)).
  - apply spawn_run.
  - by apply npm_run.
Qed.

Lemma installSingle_run name version s :
  installSingle env options name version s
  = run_spawn env (npmLog options (singleArgs options name version))
      (singleCommand options name version) s.
Proof. unfold installSingle. by apply npm_run. Qed.


Lemma length_zero_default (u : option Index) :
  Nat.eqb (List.length (default [] u)) 0 = true -> default [] u = [].
Proof. destruct (default [] u); [done|discriminate]. Qed.

Lemma length_nonzero_default (u : option Index) :
  Nat.eqb (List.length (default [] u)) 0 = false -> default [] u ≠ [].
Proof. destruct (default [] u); [discriminate|done]. Qed.

Lemma tested_or (a b : bool) :
  negb a = true -> negb b = false -> a || b = true.
Proof. by destruct a, b. Qed.

Lemma untested_or (a b : bool) :
  negb a = true -> negb b = true -> a || b = false.
Proof. by destruct a, b. Qed.

Lemma custom_or (a b : bool) : negb a = false -> a || b = true.
Proof. by destruct a, b. Qed.

Ltac unfold_model :=
  cbv beta iota zeta delta
    [doctor loadPackageFile verifyBaseline upgradeAll testAll runNcu
     iteration tryUpgrade restoreLastGood installAndTest runPrepare
     bisect restoreFiles reinstallBaseline saveAndReinstall
     run_spawn resultOf
     bind try_catch ret throw process_exit emit
     set_fs set_installAllSuccess set_lockFile set_lastPkgFile get
     console_log console_error readFile writeFile rimraf property initial
     fs trace installAllSuccess lockFile lastPkgFile].

Ltac rewrite_runs :=
  rewrite ?runInstall_run, ?runTests_run, ?installSingle_run,
    ?(npm_run _ _ _ eq_refl).

Ltac split_next :=
  match goal with
  | |- context [match exec ?e ?h ?f ?c with _ => _ end] =>
      let out := fresh "out" in let f' := fresh "f" in let E := fresh "E" in
      destruct (exec e h f c) as [out f'] eqn:E; destruct out
  | |- context [match run ?e ?h ?f with _ => _ end] =>
      let out := fresh "out" in let f' := fresh "f" in let E := fresh "E" in
      destruct (run e h f) as [out f'] eqn:E; destruct out
  | |- context [match ?m !! ?k with _ => _ end] =>
      let E := fresh "E" in destruct (m !! k) eqn:E
  | |- context [match deny ?e ?h ?f ?p with _ => _ end] =>
      let E := fresh "E" in destruct (deny e h f p) eqn:E
  | |- context [match JSON_parse ?c with _ => _ end] =>
      let E := fresh "E" in destruct (JSON_parse c) eqn:E
  | |- context [match ?x with JsonNull => _ | JsonValue _ => _ end] =>
      is_var x; destruct x
  | |- context [if ?b then _ else _] =>
      let E := fresh "E" in destruct b eqn:E
  end.

Ltac execute :=
  unfold_model;
  repeat (first [progress rewrite_runs | split_next]; unfold_model).

Ltac flatten :=
  cbn [fs trace installAllSuccess lockFile lastPkgFile];
  rewrite <- ?app_assoc; cbn [app].

Ltac premise :=
  lazymatch goal with
  | |- Loaded _ _ _ _ _ =>
      unfold Loaded; repeat split;
      first [ eassumption | eapply tested_or; eassumption
            | eapply custom_or; eassumption ]
  | |- trace _ = _ =>
      unfold baselineEvents, loadedEvents, upgradingEvents, failedAllEvents,
        installEvents, testEvents, spawnEvents;
      flatten; reflexivity
  | |- _ =>
      first [ eassumption | reflexivity
            | eapply tested_or; eassumption | eapply untested_or; eassumption
            | eapply custom_or; eassumption
            | apply negb_true_iff; eassumption
            | apply negb_false_iff; eassumption
            | apply length_zero_default; eassumption
            | apply length_nonzero_default; eassumption
            | cbn; eassumption ]
  end.

Lemma NullManifest_at (b : bool) files s c :
  truthy (doctorTest options) = b ->
  truthyData (packageData options) || truthy (packageFile options) = false ->
  files !! "package.json" = Some c ->
  JSON_parse c = Some JsonNull ->
  trace s = [ReadFile "package.json" (Some c)] ->
  fs s = files ->
  Session JSON_parse upgradePackageData env options files
    (Thrown (TypeError (if b then "dependencies" else "scripts"))) s.
Proof.
  intros Hb. replace (if b then _ else _) with (nullProperty options)
    by (unfold nullProperty; by rewrite Hb).
  apply NullManifest.
Qed.

Lemma doctor_session files r s :
  doctor JSON_parse upgradePackageData env options (initial files) = (r, s) ->
  Session JSON_parse upgradePackageData env options files r s.
Proof.
  execute.
  all: try (intros [<- <-]%pair_equal_spec).
  all: try intros Hid.
  all: first
    [ solve [eapply NotAllowed; premise]
    | solve [eapply InvalidManifest; premise]
    | solve [eapply NoTestScript; premise]
    | solve [eapply NullManifest_at with (b := true); premise]
    | solve [eapply NullManifest_at with (b := false); premise]
    | solve [eapply BaselineInstallFailed; premise]
    | solve [eapply BaselineTestsFailed; premise]
    | solve [eapply RunRejected; premise]
    | solve [eapply UpToDate; premise]
    | solve [eapply AllUpgraded; premise]
    | solve [eapply Bisected with (ok := true); [..|exact Hid]; premise]
    | solve [eapply Bisected with (ok := false); [..|exact Hid]; premise] ].
Qed.

Section Iterations.
Variable pkg : PackageFile.

Lemma lockFileName_lookup (f : gmap string string) v w :
  <["package.json" := w]> (<[lockFileName options := v]> f)
    !! lockFileName options = Some v.
Proof.
  rewrite lookup_insert_ne, lookup_insert_eq; [done|].
  unfold lockFileName. by destruct (isYarn _).
Qed.

Ltac close_case :=
  repeat first
    [ reflexivity
    | progress (unfold prepareCommand, spawnEvents; flatten); reflexivity
    | esplit ].

(** The [try] of one iteration ends in one of five ways. *)
Lemma tryUpgrade_cases name version s :
  exists r s1 pre,
    tryUpgrade upgradePackageData env options pkg name version s = (r, s1) /\
    trace s1 = trace s ++ pre /\
    installAllSuccess s1 = installAllSuccess s /\
    ((exists l,
        r = Ok tt /\
        pre = singleEvents options name version Succeeded
              ++ prepareEvents options pkg Succeeded
              ++ testEvents options Succeeded
              ++ [ConsoleLog (passLine pkg name version);
                  ReadFile (lockFileName options) (Some l)] /\
        lastPkgFile s1 = merged upgradePackageData pkg name version (lastPkgFile s) /\
        lockFile s1 = l /\
        fs s1 !! lockFileName options = Some l)
     \/ (exists t,
        r = Thrown (SpawnError t) /\
        pre = singleEvents options name version (Failed t) /\
        lastPkgFile s1 = lastPkgFile s /\ lockFile s1 = lockFile s)
     \/ (exists t,
        truthy (script pkg "prepare") = true /\
        r = Thrown (SpawnError t) /\
        pre = singleEvents options name version Succeeded
              ++ prepareEvents options pkg (Failed t) /\
        lastPkgFile s1 = lastPkgFile s /\ lockFile s1 = lockFile s)
     \/ (exists t,
        r = Thrown (SpawnError t) /\
        pre = singleEvents options name version Succeeded
              ++ prepareEvents options pkg Succeeded
              ++ testEvents options (Failed t) /\
        lastPkgFile s1 = lastPkgFile s /\ lockFile s1 = lockFile s)
     \/ (r = Thrown (FsError (lockFileName options)) /\
        pre = singleEvents options name version Succeeded
              ++ prepareEvents options pkg Succeeded
              ++ testEvents options Succeeded
              ++ [ConsoleLog (passLine pkg name version);
                  ReadFile (lockFileName options) None] /\
        lastPkgFile s1 = merged upgradePackageData pkg name version (lastPkgFile s) /\
        lockFile s1 = lockFile s)).
Proof.
  destruct s as [f t ias lf lpf].
  unfold singleEvents, prepareEvents, testEvents, merged, tryUpgrade.
  execute.
  all: eexists _, _, _; split; [reflexivity|].
  all: unfold spawnEvents; flatten.
  all: split; [reflexivity|]; split; [reflexivity|].
  all: first
    [ left; solve [close_case; assumption]
    | right; left; solve [close_case]
    | right; right; left; solve [close_case]
    | right; right; right; left; solve [close_case]
    | right; right; right; right; solve [close_case] ].
Qed.

(** The [catch] of one iteration, step by step. *)
Lemma restoreLastGood_run name version e s1 :
  let failed := trace s1 ++ [ConsoleError (failLine pkg name version);
                             ConsoleError [Chalk red (exnString e)]] in
  let written := <[lockFileName options := lockFile s1]> (fs s1) in
  restoreLastGood env options pkg name version e s1
  = match deny env failed (fs s1) (lockFileName options) with
    | Some error =>
        (Thrown (WriteError error),
         {| fs := fs s1;
            trace := failed ++ [Rejected (lockFileName options) error];
            installAllSuccess := installAllSuccess s1;
            lockFile := lockFile s1; lastPkgFile := lastPkgFile s1 |})
    | None =>
        if isYarn (packageManager options)
        then match deny env (failed ++ [WriteFile (lockFileName options)
                                          (lockFile s1)])
                     written "package.json" with
             | Some error =>
                 (Thrown (WriteError error),
                  {| fs := written;
                     trace := failed ++ [WriteFile (lockFileName options)
                                           (lockFile s1);
                                         Rejected "package.json" error];
                     installAllSuccess := installAllSuccess s1;
                     lockFile := lockFile s1; lastPkgFile := lastPkgFile s1 |})
             | None =>
                 (Ok tt,
                  {| fs := <["package.json" := lastPkgFile s1]> written;
                     trace := failed ++ [WriteFile (lockFileName options)
                                           (lockFile s1);
                                         WriteFile "package.json"
                                           (lastPkgFile s1)];
                     installAllSuccess := installAllSuccess s1;
                     lockFile := lockFile s1; lastPkgFile := lastPkgFile s1 |})
             end
        else (Ok tt,
              {| fs := written;
                 trace := failed ++ [WriteFile (lockFileName options)
                                       (lockFile s1)];
                 installAllSuccess := installAllSuccess s1;
                 lockFile := lockFile s1; lastPkgFile := lastPkgFile s1 |})
    end.
Proof.
  destruct s1 as [f t ias lf lpf]. cbv zeta.
  cbn [fs trace installAllSuccess lockFile lastPkgFile].
  unfold restoreLastGood. unfold_model. flatten.
  destruct (deny env _ f _); [flatten; reflexivity|].
  destruct (isYarn (packageManager options)); unfold_model; flatten;
    [|reflexivity].
  destruct (deny env _ _ _); flatten; reflexivity.
Qed.

(** The [catch] of one iteration ends in one of two ways. *)
Lemma restoreLastGood_cases name version e s1 :
  exists r s',
    restoreLastGood env options pkg name version e s1 = (r, s') /\
    installAllSuccess s' = installAllSuccess s1 /\
    lockFile s' = lockFile s1 /\ lastPkgFile s' = lastPkgFile s1 /\
    ((r = Ok tt /\
      trace s' = trace s1 ++ restoreEvents options pkg name version e
                               (lockFile s1) (lastPkgFile s1) /\
      fs s' !! lockFileName options = Some (lockFile s1))
     \/ (exists error manifest,
           r = Thrown (WriteError error) /\
           trace s' = trace s1 ++ restoreRejected options pkg name version e
                                    (lockFile s1) manifest error /\
           (manifest = true -> isYarn (packageManager options) = true))).
Proof.
  rewrite restoreLastGood_run. unfold restoreEvents, restoreRejected.
  destruct (deny env _ (fs s1) _) as [error|].
  { eexists _, _. split; [reflexivity|]. do 3 (split; [reflexivity|]).
    right. exists error, false. cbn [trace]. rewrite <- app_assoc.
    by repeat split. }
  destruct (isYarn (packageManager options)) eqn:Hy.
  - destruct (deny env _ _ _) as [error|].
    + eexists _, _. split; [reflexivity|]. do 3 (split; [reflexivity|]).
      right. exists error, true. cbn [trace]. rewrite <- app_assoc.
      by repeat split.
    + eexists _, _. split; [reflexivity|]. do 3 (split; [reflexivity|]).
      left. cbn [trace fs]. rewrite <- app_assoc.
      split; [done|]. split; [done|]. apply lockFileName_lookup.
  - eexists _, _. split; [reflexivity|]. do 3 (split; [reflexivity|]).
    left. cbn [trace fs]. rewrite <- app_assoc.
    split; [done|]. split; [done|]. apply lookup_insert_eq.
Qed.

Lemma iteration_try name version s :
  iteration upgradePackageData env options pkg name version s
  = match tryUpgrade upgradePackageData env options pkg name version s with
    | (Thrown e, s1) => restoreLastGood env options pkg name version e s1
    | r => r
    end.
Proof. reflexivity. Qed.

(** One iteration: the upgrade passes, or the [catch] runs after one of
    four failures and returns unless a write is rejected. *)
Lemma iteration_cases name version s :
  exists r s' evs,
    iteration upgradePackageData env options pkg name version s = (r, s') /\
    trace s' = trace s ++ evs /\
    installAllSuccess s' = installAllSuccess s /\
    ((exists l,
        r = Ok tt /\
        evs = singleEvents options name version Succeeded
              ++ prepareEvents options pkg Succeeded
              ++ testEvents options Succeeded
              ++ [ConsoleLog (passLine pkg name version);
                  ReadFile (lockFileName options) (Some l)] /\
        lastPkgFile s' = merged upgradePackageData pkg name version (lastPkgFile s) /\
        lockFile s' = l /\
        fs s' !! lockFileName options = Some l)
     \/ (exists pre e last,
        ((exists t,
            e = SpawnError t /\
            pre = singleEvents options name version (Failed t) /\
            last = lastPkgFile s)
         \/ (exists t,
            truthy (script pkg "prepare") = true /\
            e = SpawnError t /\
            pre = singleEvents options name version Succeeded
                  ++ prepareEvents options pkg (Failed t) /\
            last = lastPkgFile s)
         \/ (exists t,
            e = SpawnError t /\
            pre = singleEvents options name version Succeeded
                  ++ prepareEvents options pkg Succeeded
                  ++ testEvents options (Failed t) /\
            last = lastPkgFile s)
         \/ (e = FsError (lockFileName options) /\
            pre = singleEvents options name version Succeeded
                  ++ prepareEvents options pkg Succeeded
                  ++ testEvents options Succeeded
                  ++ [ConsoleLog (passLine pkg name version);
                      ReadFile (lockFileName options) None] /\
            last = merged upgradePackageData pkg name version (lastPkgFile s))) /\
        lastPkgFile s' = last /\ lockFile s' = lockFile s /\
        ((r = Ok tt /\
          evs = pre ++ restoreEvents options pkg name version e (lockFile s) last /\
          fs s' !! lockFileName options = Some (lockFile s))
         \/ (exists error manifest,
               r = Thrown (WriteError error) /\
               evs = pre ++ restoreRejected options pkg name version e
                              (lockFile s) manifest error /\
               (manifest = true -> isYarn (packageManager options) = true))))).
Proof.
  rewrite iteration_try.
  destruct (tryUpgrade_cases name version s)
    as (r & s1 & pre & -> & Ht & Hias & Hcases).
  assert (Hcatch : forall e last,
            r = Thrown e -> lastPkgFile s1 = last -> lockFile s1 = lockFile s ->
            exists r' s',
              restoreLastGood env options pkg name version e s1 = (r', s') /\
              installAllSuccess s' = installAllSuccess s /\
              lastPkgFile s' = last /\ lockFile s' = lockFile s /\
              ((r' = Ok tt /\
                trace s' = trace s ++ pre
                           ++ restoreEvents options pkg name version e
                                (lockFile s) last /\
                fs s' !! lockFileName options = Some (lockFile s))
               \/ (exists error manifest,
                     r' = Thrown (WriteError error) /\
                     trace s' = trace s ++ pre
                                ++ restoreRejected options pkg name version e
                                     (lockFile s) manifest error /\
                     (manifest = true -> isYarn (packageManager options) = true)))).
  { intros e last _ Hl Hk.
    destruct (restoreLastGood_cases name version e s1)
      as (r' & s' & Hre & Hi & Hk' & Hl' & Hc).
    exists r', s'. split; [done|]. split; [congruence|].
    split; [congruence|]. split; [congruence|].
    rewrite Hl, Hk, Ht in Hc.
    destruct Hc as [(Hr & Hts & Hfs)|(error & manifest & Hr & Hts & Hm)];
      rewrite <- app_assoc in Hts; [left; done|right].
    by exists error, manifest. }
  destruct Hcases as [(l & -> & Hp & Hl & Hk & Hfs)|Hfail].
  { exists (Ok tt), s1, pre. split; [done|]. split; [done|]. split; [done|].
    left. by exists l. }
  assert (exists e last,
            r = Thrown e /\ lastPkgFile s1 = last /\ lockFile s1 = lockFile s /\
            ((exists t,
                e = SpawnError t /\
                pre = singleEvents options name version (Failed t) /\
                last = lastPkgFile s)
             \/ (exists t,
                truthy (script pkg "prepare") = true /\
                e = SpawnError t /\
                pre = singleEvents options name version Succeeded
                      ++ prepareEvents options pkg (Failed t) /\
                last = lastPkgFile s)
             \/ (exists t,
                e = SpawnError t /\
                pre = singleEvents options name version Succeeded
                      ++ prepareEvents options pkg Succeeded
                      ++ testEvents options (Failed t) /\
                last = lastPkgFile s)
             \/ (e = FsError (lockFileName options) /\
                pre = singleEvents options name version Succeeded
                      ++ prepareEvents options pkg Succeeded
                      ++ testEvents options Succeeded
                      ++ [ConsoleLog (passLine pkg name version);
                          ReadFile (lockFileName options) None] /\
                last = merged upgradePackageData pkg name version
                         (lastPkgFile s))))
    as (e & last & -> & Hl & Hk & Hshape).
  { destruct Hfail as [(t & -> & Hp & Hl & Hk)|[(t & Hpr & -> & Hp & Hl & Hk)
                      |[(t & -> & Hp & Hl & Hk)|(-> & Hp & Hl & Hk)]]];
      eexists _, _; (split; [reflexivity|]); (split; [exact Hl|]);
      (split; [exact Hk|]).
    - left. by exists t.
    - right. left. by exists t.
    - right. right. left. by exists t.
    - right. right. right. done. }
  destruct (Hcatch e last eq_refl Hl Hk)
    as (r' & s' & -> & Hi & Hl' & Hk' & Hc).
  destruct Hc as [(-> & Hts & Hfs)|(error & manifest & -> & Hts & Hm)].
  - eexists _, s', _. split; [reflexivity|]. split; [exact Hts|].
    split; [exact Hi|]. right. exists pre, e, last.
    split; [exact Hshape|]. split; [done|]. split; [done|]. left. done.
  - eexists _, s', _. split; [reflexivity|]. split; [exact Hts|].
    split; [exact Hi|]. right. exists pre, e, last.
    split; [exact Hshape|]. split; [done|]. split; [done|]. right.
    by exists error, manifest.
Qed.

End Iterations.

(** ** Observations of the events of each call *)

Lemma spawned_app t1 t2 : spawned (t1 ++ t2) = spawned t1 ++ spawned t2.
Proof. apply omap_app. Qed.

Lemma spawned_cons e t :
  spawned (e :: t) = match e with
                     | Spawned c o => (c, o) :: spawned t
                     | _ => spawned t
                     end.
Proof. by destruct e. Qed.

Lemma outcomes_app t1 t2 : outcomes (t1 ++ t2) = outcomes t1 ++ outcomes t2.
Proof. unfold outcomes. by rewrite spawned_app, map_app. Qed.

Lemma outcomes_cons e t :
  outcomes (e :: t) = match e with
                      | Spawned c o => succeeded o :: outcomes t
                      | _ => outcomes t
                      end.
Proof. by destruct e. Qed.

Lemma reads_app path t1 t2 : reads path (t1 ++ t2) = reads path t1 ++ reads path t2.
Proof. apply omap_app. Qed.

Lemma spawned_installEvents out :
  spawned (installEvents options out) = [(installCommand options, out)].
Proof.
  unfold installEvents, spawnEvents, installLog. by destruct (truthy _).
Qed.

Lemma spawned_testEvents out :
  spawned (testEvents options out) = [(testCommand options, out)].
Proof.
  unfold testEvents, spawnEvents, testLog. by destruct (truthy _).
Qed.

Lemma spawned_singleEvents name version out :
  spawned (singleEvents options name version out)
  = [(singleCommand options name version, out)].
Proof. reflexivity. Qed.

Lemma spawned_prepareEvents pkg out :
  spawned (prepareEvents options pkg out)
  = if truthy (script pkg "prepare") then [(prepareCommand options, out)] else [].
Proof.
  unfold prepareEvents. destruct (truthy _); [|done]. by destruct out.
Qed.

Lemma spawned_restoreEvents pkg name version e lock last :
  spawned (restoreEvents options pkg name version e lock last) = [].
Proof. unfold restoreEvents. by destruct (isYarn _). Qed.

Lemma spawned_restoreRejected pkg name version e lock manifest error :
  spawned (restoreRejected options pkg name version e lock manifest error) = [].
Proof. by destruct manifest. Qed.

Lemma outcomes_installEvents out :
  outcomes (installEvents options out) = [succeeded out].
Proof. unfold outcomes. by rewrite spawned_installEvents. Qed.

Lemma outcomes_testEvents out :
  outcomes (testEvents options out) = [succeeded out].
Proof. unfold outcomes. by rewrite spawned_testEvents. Qed.

Lemma outcomes_baselineEvents pkgFile lock :
  outcomes (baselineEvents options pkgFile lock) = [true; true].
Proof.
  unfold baselineEvents, loadedEvents.
  by rewrite !outcomes_app, outcomes_installEvents, outcomes_testEvents.
Qed.

Lemma outcomes_upgradingEvents : outcomes (upgradingEvents env) = [].
Proof. reflexivity. Qed.

Lemma outcomes_failedAllEvents ok t :
  outcomes (failedAllEvents options ok t) = if ok then [true; false] else [false].
Proof.
  unfold failedAllEvents. destruct ok.
  - by rewrite outcomes_app, outcomes_installEvents, outcomes_testEvents.
  - by rewrite outcomes_installEvents.
Qed.

Hint Rewrite outcomes_app outcomes_cons outcomes_installEvents
  outcomes_testEvents outcomes_baselineEvents outcomes_upgradingEvents
  outcomes_failedAllEvents : outcomes.

(** The outcomes of every path that does not reach the bisection. *)
Lemma outcomes_loadedEvents pkgFile : outcomes (loadedEvents pkgFile) = [].
Proof. reflexivity. Qed.
Hint Rewrite outcomes_loadedEvents : outcomes.

Lemma quiet_installEvents out :
  Forall (fun e => isWrite e = false) (installEvents options out).
Proof.
  unfold installEvents, spawnEvents, installLog.
  destruct (truthy _); repeat constructor.
Qed.

Lemma quiet_testEvents out :
  Forall (fun e => isWrite e = false) (testEvents options out).
Proof.
  unfold testEvents, spawnEvents, testLog.
  destruct (truthy _); repeat constructor.
Qed.

Lemma quiet_baselineEvents pkgFile lock :
  Forall (fun e => isWrite e = false) (baselineEvents options pkgFile lock).
Proof.
  unfold baselineEvents, loadedEvents.
  repeat first
    [ apply quiet_installEvents | apply quiet_testEvents
    | apply Forall_app; split | constructor ].
Qed.

Lemma ranResult_upgraded pkgFile lock r rest :
  ranResult (baselineEvents options pkgFile lock ++ upgradingEvents env
             ++ [Ran r] ++ rest) = Some r.
Proof.
  unfold ranResult, baselineEvents, loadedEvents, installEvents, testEvents,
    spawnEvents, installLog, testLog.
  rewrite !omap_app.
  by destruct (truthy (doctorInstall options)), (truthy (doctorTest options)).
Qed.

(** What is known of the outcomes once the run with all upgrades failed. *)
Lemma outcomes_bisected pkg pkgFile lock u ok t s0 r s :
  trace s0 = baselineEvents options pkgFile lock ++ upgradingEvents env
             ++ [Ran (RunReturns u)] ++ failedAllEvents options ok t ->
  identifyBroken upgradePackageData env options pkg pkgFile (default [] u) s0
    = (r, s) ->
  exists evs,
    trace s = trace s0 ++ evs /\
    outcomes (trace s)
    = [true; true] ++ (if ok then [true; false] else [false]) ++ outcomes evs.
Proof.
  intros Ht H. destruct (extends_identifyBroken _ _ _ _ _ _ _ _ _ H) as [evs He].
  exists evs. split; [done|].
  rewrite He, Ht. autorewrite with outcomes. reflexivity.
Qed.

(** C6. When the install with all upgrades and the tests after it both
    succeed, the session reports the upgrades and ends successfully: the
    four processes of the baseline and of the full upgrade are the only
    ones spawned (no bisection step), and [doctor] itself writes or
    removes no file. *)
Theorem all_upgrades_verified files r s rest :
  doctor JSON_parse upgradePackageData env options (initial files) = (r, s) ->
  outcomes (trace s) = [true; true; true; true] ++ rest ->
  r = Ok tt /\
  rest = [] /\
  Forall (fun e => isWrite e = false) (trace s) /\
  exists pkg u,
    spawned (trace s)
    = [(installCommand options, Succeeded); (testCommand options, Succeeded);
       (installCommand options, Succeeded); (testCommand options, Succeeded)] /\
    ranResult (trace s) = Some (RunReturns u) /\
    PrintUpgrades (allDependencies pkg) (default [] u)
      (List.length (default [] u)) ∈ trace s.
Proof.
  intros H Hout. apply doctor_session in H.
  destruct H as [ s Hc Ht | s c Hc Hf Hp Ht | s c pkg Hc Hf Hp Hs Ht
                | s c Hc Hf Hp Ht
                | s pkg pkgFile t Hl Ht | s pkg pkgFile lock t Hl Ht
                | s pkg pkgFile lock t Hl Ht | s pkg pkgFile lock u Hl Hu Ht
                | s pkg pkgFile lock u Hl Hu Ht
                | r s pkg pkgFile lock u ok t s0 Hl Hu Ht Hok Hlock Hid ].
  all: try (rewrite Ht in Hout; autorewrite with outcomes in Hout;
            cbn in Hout; discriminate).
  - rewrite Ht in *. autorewrite with outcomes in Hout. cbn in Hout.
    injection Hout as <-.
    split; [done|]. split; [done|]. split.
    + repeat first
        [ apply quiet_baselineEvents | apply quiet_installEvents
        | apply quiet_testEvents | apply Forall_app; split | constructor ].
    + exists pkg, u. split; [|split].
      * unfold baselineEvents, loadedEvents, upgradingEvents.
        rewrite !spawned_app, !spawned_installEvents, !spawned_testEvents.
        reflexivity.
      * apply ranResult_upgraded.
      * rewrite !elem_of_app. do 5 right. constructor. constructor.
  - destruct (outcomes_bisected _ _ _ _ _ _ _ _ _ Ht Hid) as (evs & _ & Ho).
    rewrite Ho in Hout. destruct ok; discriminate.
Qed.

Ltac session_paths H :=
  apply doctor_session in H;
  destruct H as [ s Hc Ht Hfs | s c Hc Hf Hp Ht Hfs
                | s c pkg Hc Hf Hp Hs Ht Hfs
                | s c Hc Hf Hp Ht Hfs
                | s pkg pkgFile t Hl Ht | s pkg pkgFile lock t Hl Ht
                | s pkg pkgFile lock t Hl Ht | s pkg pkgFile lock u Hl Hu Ht
                | s pkg pkgFile lock u Hl Hu Ht
                | r s pkg pkgFile lock u ok0 t s0 Hl Hu Ht Hok Hlock Hid ].

Ltac other_outcomes Hout :=
  try (match goal with Ht : trace _ = _ |- _ => rewrite Ht in Hout end;
       autorewrite with outcomes in Hout; cbn in Hout;
       repeat match goal with
              | _ : context [if ?b then _ else _] |- _ => is_var b; destruct b
              end;
       discriminate).

Lemma Refusal_not_Loaded files m pkg pkgFile :
  Refusal JSON_parse options files m ->
  Loaded JSON_parse options files pkg pkgFile -> False.
Proof.
  intros Href (Hc & Hf & Hp & Ht).
  destruct Href as [Hr|Hr Hn|c Hr Hn Hj|c p Hr Hn Hj Hdt Hs]; try congruence.
  rewrite Hn in Hf. injection Hf as ->. rewrite Hj in Hp. injection Hp as ->.
  rewrite Hdt, Hs in Ht. discriminate.
Qed.


Ltac run_session :=
  match goal with
  | |- _ = _ -> ?G =>
      let c := fresh "claim" in set (c := G); execute; subst c
  end.

(** C8, as the code has it.  The manifest is read first and the baseline
    install runs next; the lock file is read after that install, and holds
    what the install left; the baseline tests come last. *)
Theorem snapshots_around_install files pkg pkgFile r s :
  doctor JSON_parse upgradePackageData env options (initial files) = (r, s) ->
  Loaded JSON_parse options files pkg pkgFile ->
  exists out f rest,
    exec env (loadedEvents pkgFile ++ installLog options) files
         (installCommand options) = (out, f) /\
    trace s = loadedEvents pkgFile ++ installEvents options out ++ rest /\
    (out = Succeeded ->
     exists out' rest',
       rest = ReadFile (lockFileName options) (f !! lockFileName options)
              :: testEvents options out' ++ rest').
Proof.
  intros H (Hc & Hf & Hp & Ht). revert H.
  run_session.
  all: try congruence.
  all: simplify_eq.
  all: try (repeat match goal with
                   | E : negb _ = true |- _ => apply negb_true_iff in E
                   end;
            match goal with
            | E1 : truthy (doctorTest options) = false,
              E2 : truthy (script _ "test") = false |- _ =>
                rewrite E1, E2 in Ht; discriminate
            end).
  all: try intros [<- <-]%pair_equal_spec; try intros Hid.
  all: try (apply extends_identifyBroken in Hid as [evs ->]).
  all: eexists _, _, _; unfold loadedEvents.
  all: (split; [rewrite app_nil_l in *; eassumption|]).
  all: cbn [trace]; unfold installEvents, testEvents, spawnEvents.
  all: (split; [flatten; reflexivity|]).
  all: try discriminate.
  all: intros _;
    repeat match goal with
           | E : _ !! lockFileName options = _ |- _ => rewrite E; clear E
           end;
    eexists _, _; flatten; reflexivity.
Qed.

Lemma lockFileName_not_manifest : lockFileName options ≠ "package.json".
Proof. unfold lockFileName. by destruct (isYarn _). Qed.

Lemma reads_baselineEvents pkgFile lock :
  reads (lockFileName options) (baselineEvents options pkgFile lock) = [lock].
Proof.
  unfold baselineEvents, loadedEvents, installEvents, testEvents, spawnEvents,
    installLog, testLog, reads, lockFileName.
  by destruct (isYarn _), (truthy (doctorInstall options)),
    (truthy (doctorTest options)).
Qed.

Lemma firstRead_baselineEvents pkgFile lock rest :
  firstRead (lockFileName options) (baselineEvents options pkgFile lock ++ rest)
  = Some lock.
Proof. unfold firstRead. by rewrite reads_app, reads_baselineEvents. Qed.

Lemma truthy_default (v : option string) :
  truthy v = negb (String.eqb (default "" v) "").
Proof. by destruct v. Qed.

(** The [catch] of the run with all upgrades, step by step: the files are
    restored, then the re-install, the loop and the save run; a rejected
    write ends the session before that. *)
Lemma identifyBroken_run pkg pkgFile upgrades lock s0 :
  lockFile s0 = default "" lock ->
  let failed :=
    trace s0
    ++ [ConsoleError [Chalk red (if installAllSuccess s0 then "Tests failed"
                                 else "Install failed")];
        ConsoleLog [Txt "Identifying broken dependencies"]] in
  let restored := <["package.json" := pkgFile]> (fs s0) in
  identifyBroken upgradePackageData env options pkg pkgFile upgrades s0
  = match deny env failed (fs s0) "package.json" with
    | Some error =>
        (Thrown (WriteError error),
         {| fs := fs s0; trace := failed ++ [Rejected "package.json" error];
            installAllSuccess := installAllSuccess s0;
            lockFile := lockFile s0; lastPkgFile := lastPkgFile s0 |})
    | None =>
        match deny env (failed ++ [WriteFile "package.json" pkgFile]) restored
                (lockFileName options) with
        | Some error =>
            (Thrown (WriteError error),
             {| fs := restored;
                trace := failed ++ [WriteFile "package.json" pkgFile;
                                    Rejected (lockFileName options) error];
                installAllSuccess := installAllSuccess s0;
                lockFile := lockFile s0; lastPkgFile := lastPkgFile s0 |})
        | None =>
            (reinstallBaseline env options ;;;
             iterate upgradePackageData env options pkg upgrades ;;;
             saveAndReinstall env options pkgFile)
              {| fs := (if truthy lock
                        then <[lockFileName options := default "" lock]>
                        else delete (lockFileName options)) restored;
                 trace := trace s0
                          ++ rollbackEvents options (installAllSuccess s0)
                               pkgFile lock;
                 installAllSuccess := installAllSuccess s0;
                 lockFile := lockFile s0; lastPkgFile := pkgFile |}
        end
    end.
Proof.
  destruct s0 as [f t ias lf lpf]. cbn [lockFile installAllSuccess trace fs].
  intros ->. cbv zeta.
  unfold identifyBroken, bisect, restoreFiles, rollbackEvents, lockRestore.
  unfold_model. flatten.
  destruct (deny env _ f _) as [error|]; [flatten; reflexivity|].
  unfold_model. rewrite <- (truthy_default lock). flatten.
  destruct (truthy lock) eqn:Hl; unfold_model; flatten.
  all: destruct (deny env _ _ _) as [error|]; [flatten; reflexivity|].
  all: destruct ias; unfold_model; flatten.
  all: try match goal with
       | |- context [runInstall env options ?s] =>
           destruct (runInstall env options s) as [[[]|e|c] s']
       end; unfold_model; try reflexivity.
  all: match goal with
       | |- context [iterate ?u ?e ?o ?p ?i ?s] =>
           destruct (iterate u e o p i s) as [[[]|?|?] ?]
       end; reflexivity.
Qed.

Lemma rollback_files (lock : option string) pkgFile (f : gmap string string) :
  let f2 := (if truthy lock
             then <[lockFileName options := default "" lock]>
             else delete (lockFileName options))
              (<["package.json" := pkgFile]> f) in
  f2 !! "package.json" = Some pkgFile /\
  (lock ≠ Some "" -> f2 !! lockFileName options = lock).
Proof.
  cbv zeta. split.
  - destruct (truthy lock).
    + rewrite lookup_insert_ne by apply lockFileName_not_manifest.
      apply lookup_insert_eq.
    + rewrite lookup_delete_ne by apply lockFileName_not_manifest.
      apply lookup_insert_eq.
  - intros Hl. unfold truthy. destruct lock as [l|]; cbn [default].
    + destruct (String.eqb_spec l "") as [->|_]; [done|]. apply lookup_insert_eq.
    + apply lookup_delete_eq.
Qed.

Lemma identifyBroken_rollback pkg pkgFile upgrades lock s0 :
  lockFile s0 = default "" lock ->
  (exists s2,
     trace s2 = trace s0 ++ rollbackEvents options (installAllSuccess s0) pkgFile lock /\
     fs s2 = (if truthy lock
              then <[lockFileName options := default "" lock]>
              else delete (lockFileName options))
               (<["package.json" := pkgFile]> (fs s0)) /\
     fs s2 !! "package.json" = Some pkgFile /\
     (lock ≠ Some "" -> fs s2 !! lockFileName options = lock) /\
     lastPkgFile s2 = pkgFile /\
     lockFile s2 = lockFile s0 /\
     installAllSuccess s2 = installAllSuccess s0 /\
     identifyBroken upgradePackageData env options pkg pkgFile upgrades s0
     = (reinstallBaseline env options ;;;
        iterate upgradePackageData env options pkg upgrades ;;;
        saveAndReinstall env options pkgFile) s2)
  \/ (exists error lockStep s',
        identifyBroken upgradePackageData env options pkg pkgFile upgrades s0
        = (Thrown (WriteError error), s') /\
        trace s' = trace s0 ++ rollbackRejected options (installAllSuccess s0)
                                 pkgFile lockStep error).
Proof.
  intros Hlock. rewrite (identifyBroken_run pkg pkgFile upgrades lock s0 Hlock).
  cbv zeta. unfold rollbackRejected.
  destruct (deny env _ (fs s0) _) as [error|].
  { right. exists error, false. eexists. split; [reflexivity|].
    cbn [trace]. by rewrite <- app_assoc. }
  destruct (deny env _ _ _) as [error|].
  { right. exists error, true. eexists. split; [reflexivity|].
    cbn [trace]. by rewrite <- app_assoc. }
  left. destruct (rollback_files lock pkgFile (fs s0)) as [Hm Hl].
  eexists. split; [|split; [|split; [|split; [|split; [|split;
    [|split; [|reflexivity]]]]]]]; cbn [fs trace installAllSuccess lockFile lastPkgFile];
    try reflexivity; assumption.
Qed.

(** With a file system that accepts every write, the files are restored. *)
Lemma identifyBroken_restored pkg pkgFile upgrades lock s0 :
  reliable env ->
  lockFile s0 = default "" lock ->
  exists s2,
    trace s2 = trace s0 ++ rollbackEvents options (installAllSuccess s0) pkgFile lock /\
    fs s2 = (if truthy lock
             then <[lockFileName options := default "" lock]>
             else delete (lockFileName options))
              (<["package.json" := pkgFile]> (fs s0)) /\
    fs s2 !! "package.json" = Some pkgFile /\
    (lock ≠ Some "" -> fs s2 !! lockFileName options = lock) /\
    lastPkgFile s2 = pkgFile /\
    lockFile s2 = lockFile s0 /\
    installAllSuccess s2 = installAllSuccess s0 /\
    identifyBroken upgradePackageData env options pkg pkgFile upgrades s0
    = (reinstallBaseline env options ;;;
       iterate upgradePackageData env options pkg upgrades ;;;
       saveAndReinstall env options pkgFile) s2.
Proof.
  intros Hrel Hlock.
  rewrite (identifyBroken_run pkg pkgFile upgrades lock s0 Hlock).
  cbv zeta. rewrite !Hrel.
  destruct (rollback_files lock pkgFile (fs s0)) as [Hm Hl].
  eexists. split; [|split; [|split; [|split; [|split; [|split;
    [|split; [|reflexivity]]]]]]]; cbn [fs trace installAllSuccess lockFile lastPkgFile];
    try reflexivity; assumption.
Qed.


Lemma bind_inv {A B} (m : M A) (k : A -> M B) s r s' :
  bind m k s = (r, s') ->
  (exists a s1, m s = (Ok a, s1) /\ k a s1 = (r, s')) \/
  (exists e, m s = (Thrown e, s') /\ r = Thrown e) \/
  (exists c, m s = (Exited c, s') /\ r = Exited c).
Proof.
  unfold bind. destruct (m s) as [[a|e|c] s1]; intros H.
  - left. eauto.
  - right. left. injection H as <- <-. eauto.
  - right. right. injection H as <- <-. eauto.
Qed.

(** The re-install of the baseline: skipped when the install with all
    upgrades had failed; fatal when it fails itself. *)
Lemma reinstallBaseline_cases s r s' :
  reinstallBaseline env options s = (r, s') ->
  (installAllSuccess s = false /\ r = Ok tt /\ s' = s) \/
  (installAllSuccess s = true /\
   exists out,
     trace s' = trace s ++ installEvents options out /\
     r = match out with
         | Succeeded => Ok tt
         | Failed _ => Thrown (NewError (fatalReinstall options))
         end /\
     lockFile s' = lockFile s /\ lastPkgFile s' = lastPkgFile s).
Proof.
  destruct s as [f t ias lf lpf]. revert r s'.
  unfold installEvents. execute; intros r s' [= <- <-].
  - right. split; [reflexivity|]. exists Succeeded. repeat split; reflexivity.
  - right. split; [reflexivity|]. eexists (Failed _). repeat split; reflexivity.
  - left. repeat split; reflexivity.
Qed.

Lemma extends_saveAndReinstall pkgFile :
  extends (saveAndReinstall env options pkgFile).
Proof. unfold saveAndReinstall, console_log. extends_auto. Qed.

Lemma outcomes_rollbackEvents ok pkgFile lock :
  outcomes (rollbackEvents options ok pkgFile lock) = [].
Proof. unfold rollbackEvents, lockRestore. by destruct (truthy lock). Qed.

Lemma outcomes_rollbackRejected ok pkgFile lockStep error :
  outcomes (rollbackRejected options ok pkgFile lockStep error) = [].
Proof. by destruct lockStep. Qed.

Lemma outcomes_restoreRejected pkg name version e lock manifest error :
  outcomes (restoreRejected options pkg name version e lock manifest error) = [].
Proof. by destruct manifest. Qed.

Lemma outcomes_saveRejected error : outcomes (saveRejected error) = [].
Proof. reflexivity. Qed.

Hint Rewrite outcomes_rollbackEvents outcomes_rollbackRejected
  outcomes_restoreRejected outcomes_saveRejected : outcomes.

(** C3. When the baseline install that follows the rollback fails, the
    session ends there with a thrown error and no bisection step runs.
    The error is not the report of a test failure: its message names the
    install command and points at a partial install and at the
    connection. *)
Theorem reinstall_failure_is_fatal files r s rest :
  doctor JSON_parse upgradePackageData env options (initial files) = (r, s) ->
  outcomes (trace s) = [true; true; true; false; false] ++ rest ->
  r = Thrown (NewError (fatalReinstall options)) /\
  rest = [] /\
  (exists pkgFile lock u t t',
     trace s = baselineEvents options pkgFile lock ++ upgradingEvents env
               ++ [Ran (RunReturns u)] ++ failedAllEvents options true t
               ++ rollbackEvents options true pkgFile lock
               ++ installEvents options (Failed t')) /\
  fatalReinstall options ≠ [Chalk red "Tests failed"] /\
  Chalk cyan ((if truthy (packageManager options)
               then default "" (packageManager options) else "npm")
              ++ " install")%string ∈ fatalReinstall options /\
  exists text,
    Txt text ∈ fatalReinstall options /\
    isInfix "Either npm failed to revert a partial install, or failed anomalously on the second run. Please check your internet connection and retry." text = true.
Proof.
  intros H Hout. session_paths H; other_outcomes Hout.
  destruct (outcomes_bisected _ _ _ _ _ _ _ _ _ Ht Hid) as (evs & _ & Ho).
  assert (ok0 = true) as -> by (rewrite Ho in Hout; by destruct ok0).
  destruct (identifyBroken_rollback pkg pkgFile (default [] u) lock s0 Hlock)
    as [(s2 & Ht2 & _ & _ & _ & _ & _ & Hias & Heq)
       |(error & lockStep & s' & Heq & Ht')].
  2:{ rewrite Heq in Hid. injection Hid as _ <-.
      rewrite Ht', Ht in Hout. autorewrite with outcomes in Hout.
      destruct lockStep; discriminate. }
  rewrite Hok in *. rewrite Heq in Hid. clear Heq Ho.
  apply bind_inv in Hid as [(a & s3 & Hre & Hk)|[(e & Hre & ->)|(c & Hre & ->)]];
    apply reinstallBaseline_cases in Hre as [(Hf & _)|(_ & out & Ht3 & Hr & _)];
    try congruence.
  - destruct out; [|discriminate].
    destruct (extends_bind _ _ (extends_iterate _ _ _ _ _)
                (fun _ => extends_saveAndReinstall pkgFile) _ _ _ Hk) as [evs' He].
    rewrite He, Ht3, Ht2, Ht in Hout. autorewrite with outcomes in Hout.
    discriminate.
  - destruct out as [|t']; [discriminate|]. injection Hr as ->.
    rewrite Ht3, Ht2, Ht in *. autorewrite with outcomes in Hout.
    injection Hout as <-.
    split; [done|]. split; [done|]. split.
    { exists pkgFile, lock, u, t, t'. by rewrite <- !app_assoc. }
    split; [done|]. split.
    { unfold fatalReinstall. destruct (truthy (packageManager options)) eqn:E.
      - destruct (packageManager options); [|done]. cbn. set_solver.
      - cbn. set_solver. }
    unfold fatalReinstall. eexists. split.
    { do 2 apply list_elem_of_further. apply list_elem_of_here. }
    vm_compute. reflexivity.
  - destruct out; discriminate.
Qed.

Lemma extends_reinstallBaseline : extends (reinstallBaseline env options).
Proof. unfold reinstallBaseline. extends_auto. Qed.

Lemma quiet_not_written t path c :
  Forall (fun e => isWrite e = false) t -> WriteFile path c ∉ t.
Proof.
  intros Hq Hin. rewrite Forall_forall in Hq. by apply Hq in Hin.
Qed.

Lemma quiet_failedAllEvents ok t :
  Forall (fun e => isWrite e = false) (failedAllEvents options ok t).
Proof.
  unfold failedAllEvents. destruct ok;
    repeat first [ apply quiet_installEvents | apply quiet_testEvents
                 | apply Forall_app; split ].
Qed.


(** The end of the [catch] block, step by step. *)
Lemma saveAndReinstall_run pkgFile s :
  saveAndReinstall env options pkgFile s
  = if String.eqb (lastPkgFile s) pkgFile then runInstall env options s
    else match deny env (trace s ++ [ConsoleLog [Txt "Saving partially upgraded package.json"]])
                 (fs s) "package.json" with
         | Some error =>
             (Thrown (WriteError error),
              {| fs := fs s; trace := trace s ++ saveRejected error;
                 installAllSuccess := installAllSuccess s;
                 lockFile := lockFile s; lastPkgFile := lastPkgFile s |})
         | None =>
             runInstall env options
               {| fs := <["package.json" := lastPkgFile s]> (fs s);
                  trace := trace s ++ saveEvents pkgFile (lastPkgFile s);
                  installAllSuccess := installAllSuccess s;
                  lockFile := lockFile s; lastPkgFile := lastPkgFile s |}
         end.
Proof.
  destruct s as [f t ias lf lpf]. unfold saveAndReinstall, saveEvents, saveRejected.
  cbn [lastPkgFile lockFile trace fs installAllSuccess]. unfold_model.
  destruct (String.eqb lpf pkgFile); cbn [negb]; [reflexivity|].
  flatten. destruct (deny env _ f _); flatten; reflexivity.
Qed.

(** The end of the [catch] block: the state in which the final install
    starts, unless the save is rejected. *)
Lemma saveAndReinstall_saved pkgFile s :
  (exists s1,
     saveAndReinstall env options pkgFile s = runInstall env options s1 /\
     trace s1 = trace s ++ saveEvents pkgFile (lastPkgFile s) /\
     (lastPkgFile s ≠ pkgFile -> fs s1 !! "package.json" = Some (lastPkgFile s)) /\
     (lastPkgFile s = pkgFile -> fs s1 = fs s) /\
     (forall path, path ≠ "package.json" -> fs s1 !! path = fs s !! path) /\
     lastPkgFile s1 = lastPkgFile s /\
     lockFile s1 = lockFile s)
  \/ (exists error s',
        saveAndReinstall env options pkgFile s = (Thrown (WriteError error), s') /\
        trace s' = trace s ++ saveRejected error).
Proof.
  rewrite saveAndReinstall_run.
  destruct (String.eqb_spec (lastPkgFile s) pkgFile) as [Heq|Hne].
  - left. exists s. unfold saveEvents. rewrite Heq, String.eqb_refl, app_nil_r.
    by repeat split.
  - destruct (deny env _ (fs s) _) as [error|].
    + right. by eexists error, _.
    + left. eexists. split; [reflexivity|].
      cbn [fs trace lastPkgFile lockFile].
      split; [reflexivity|]. split; [intros _; apply lookup_insert_eq|].
      split; [done|]. split; [|done].
      intros path Hp. by apply lookup_insert_ne.
Qed.


(** The install and the tests of one upgrade leave the variables of
    [doctor] alone. *)
Lemma installAndTest_frame pkg name version s r s1 :
  installAndTest env options pkg name version s = (r, s1) ->
  lockFile s1 = lockFile s /\ lastPkgFile s1 = lastPkgFile s /\
  installAllSuccess s1 = installAllSuccess s.
Proof.
  destruct s as [f t ias lf lpf]. revert r s1.
  execute; intros r s1 [= <- <-]; repeat split; reflexivity.
Qed.

Lemma iterate_cons pkg name version rest s :
  iterate upgradePackageData env options pkg ((name, version) :: rest) s
  = match iteration upgradePackageData env options pkg name version s with
    | (Ok _, s') => iterate upgradePackageData env options pkg rest s'
    | (Thrown e, s') => (Thrown e, s')
    | (Exited c, s') => (Exited c, s')
    end.
Proof. reflexivity. Qed.

(** C4, as the code has it.  When the install of one upgrade, the prepare
    script or the tests fail for a dependency, the [catch] of the
    iteration prints the failure and writes the lock file back from the
    last good capture, and package.json from the last good manifest
    exactly when the package manager is yarn.  When the file system
    accepts these writes, the last good manifest and lock file are left
    as they were and the loop goes on with the next dependency.  When it
    rejects one of them, the error of the write leaves the loop: no
    further process is spawned, the dependencies that remain are not
    tried. *)
Theorem rejection_is_local pkg name version rest s e s1 :
  installAndTest env options pkg name version s = (Thrown e, s1) ->
  let failed := trace s1 ++ [ConsoleError (failLine pkg name version);
                             ConsoleError [Chalk red (exnString e)]] in
  let written := <[lockFileName options := lockFile s]> (fs s1) in
  (exists s2,
     deny env failed (fs s1) (lockFileName options) = None /\
     (isYarn (packageManager options) = true ->
      deny env (failed ++ [WriteFile (lockFileName options) (lockFile s)])
        written "package.json" = None) /\
     iteration upgradePackageData env options pkg name version s = (Ok tt, s2) /\
     trace s2
     = trace s1
       ++ [ConsoleError (failLine pkg name version);
           ConsoleError [Chalk red (exnString e)];
           WriteFile (lockFileName options) (lockFile s)]
       ++ (if isYarn (packageManager options)
           then [WriteFile "package.json" (lastPkgFile s)] else []) /\
     fs s2 !! lockFileName options = Some (lockFile s) /\
     fs s2 !! "package.json"
     = (if isYarn (packageManager options) then Some (lastPkgFile s)
        else fs s1 !! "package.json") /\
     lastPkgFile s2 = lastPkgFile s /\
     lockFile s2 = lockFile s /\
     iterate upgradePackageData env options pkg ((name, version) :: rest) s
     = iterate upgradePackageData env options pkg rest s2)
  \/ (exists error path s2,
        (path = lockFileName options /\
         deny env failed (fs s1) (lockFileName options) = Some error
         \/ path = "package.json" /\
            isYarn (packageManager options) = true /\
            deny env failed (fs s1) (lockFileName options) = None /\
            deny env (failed ++ [WriteFile (lockFileName options) (lockFile s)])
              written "package.json" = Some error) /\
        iterate upgradePackageData env options pkg ((name, version) :: rest) s
        = (Thrown (WriteError error), s2) /\
        last (trace s2) = Some (Rejected path error) /\
        spawned (trace s2) = spawned (trace s1) /\
        lastPkgFile s2 = lastPkgFile s /\
        lockFile s2 = lockFile s).
Proof.
  intros H failed written.
  destruct (installAndTest_frame _ _ _ _ _ _ H) as (Hl & Hp & _).
  assert (Hit : iteration upgradePackageData env options pkg name version s
                = restoreLastGood env options pkg name version e s1).
  { unfold iteration, try_catch, tryUpgrade, bind. by rewrite H. }
  rewrite iterate_cons, Hit, restoreLastGood_run. cbv zeta.
  rewrite Hl, Hp. fold failed. fold written.
  destruct (deny env failed (fs s1) _) as [error|] eqn:D1.
  { right. exists error, (lockFileName options). eexists.
    split; [by left|]. split; [reflexivity|]. cbn [trace lockFile lastPkgFile].
    split; [by rewrite last_app|]. split; [|done].
    subst failed. by rewrite !spawned_app, !app_nil_r. }
  destruct (isYarn (packageManager options)) eqn:Hy.
  - destruct (deny env _ written _) as [error|] eqn:D2.
    + right. exists error, "package.json". eexists.
      split; [right; done|]. split; [reflexivity|].
      cbn [trace lockFile lastPkgFile].
      split; [by rewrite last_app|]. split; [|done].
      subst failed. by rewrite !spawned_app, !app_nil_r.
    + left. eexists. split; [done|]. split; [done|]. split; [reflexivity|].
      cbn [trace fs lockFile lastPkgFile]. subst failed written.
      split; [by rewrite <- !app_assoc|].
      split; [apply lockFileName_lookup|]. split; [apply lookup_insert_eq|].
      done.
  - left. eexists. split; [done|]. split; [done|]. split; [reflexivity|].
    cbn [trace fs lockFile lastPkgFile]. subst failed written.
    split; [by rewrite <- !app_assoc|].
    split; [apply lookup_insert_eq|].
    split; [apply lookup_insert_ne, lockFileName_not_manifest|].
    done.
Qed.

Section Reliable.
Hypothesis Hrel : reliable env.

Lemma restoreLastGood_reliable pkg name version e s1 :
  restoreLastGood env options pkg name version e s1
  = (Ok tt,
     {| fs := (if isYarn (packageManager options)
               then <["package.json" := lastPkgFile s1]>
                      (<[lockFileName options := lockFile s1]> (fs s1))
               else <[lockFileName options := lockFile s1]> (fs s1));
        trace := trace s1 ++ restoreEvents options pkg name version e
                               (lockFile s1) (lastPkgFile s1);
        installAllSuccess := installAllSuccess s1;
        lockFile := lockFile s1; lastPkgFile := lastPkgFile s1 |}).
Proof.
  rewrite restoreLastGood_run. cbv zeta. rewrite !Hrel. unfold restoreEvents.
  destruct (isYarn (packageManager options)); by rewrite <- app_assoc.
Qed.

(** With a file system that accepts every write, one iteration never
    throws; it ends in one of five ways. *)
Lemma iteration_reliable pkg name version s :
  exists s' evs,
    iteration upgradePackageData env options pkg name version s = (Ok tt, s') /\
    trace s' = trace s ++ evs /\
    installAllSuccess s' = installAllSuccess s /\
    fs s' !! lockFileName options = Some (lockFile s') /\
    ((exists t,
        evs = singleEvents options name version (Failed t)
              ++ restoreEvents options pkg name version (SpawnError t)
                   (lockFile s) (lastPkgFile s) /\
        lastPkgFile s' = lastPkgFile s /\ lockFile s' = lockFile s)
     \/ (exists t,
        truthy (script pkg "prepare") = true /\
        evs = singleEvents options name version Succeeded
              ++ prepareEvents options pkg (Failed t)
              ++ restoreEvents options pkg name version (SpawnError t)
                   (lockFile s) (lastPkgFile s) /\
        lastPkgFile s' = lastPkgFile s /\ lockFile s' = lockFile s)
     \/ (exists t,
        evs = singleEvents options name version Succeeded
              ++ prepareEvents options pkg Succeeded
              ++ testEvents options (Failed t)
              ++ restoreEvents options pkg name version (SpawnError t)
                   (lockFile s) (lastPkgFile s) /\
        lastPkgFile s' = lastPkgFile s /\ lockFile s' = lockFile s)
     \/ (exists l,
        evs = singleEvents options name version Succeeded
              ++ prepareEvents options pkg Succeeded
              ++ testEvents options Succeeded
              ++ [ConsoleLog (passLine pkg name version);
                  ReadFile (lockFileName options) (Some l)] /\
        lastPkgFile s' = merged upgradePackageData pkg name version (lastPkgFile s) /\
        lockFile s' = l)
     \/ (evs = singleEvents options name version Succeeded
              ++ prepareEvents options pkg Succeeded
              ++ testEvents options Succeeded
              ++ [ConsoleLog (passLine pkg name version);
                  ReadFile (lockFileName options) None]
              ++ restoreEvents options pkg name version
                   (FsError (lockFileName options)) (lockFile s)
                   (merged upgradePackageData pkg name version (lastPkgFile s)) /\
        lastPkgFile s' = merged upgradePackageData pkg name version (lastPkgFile s) /\
        lockFile s' = lockFile s)).
Proof.
  rewrite iteration_try.
  destruct (tryUpgrade_cases pkg name version s)
    as (r & s1 & pre & -> & Ht & Hias & Hcases).
  assert (Hfs : forall e,
            fs (restoreLastGood env options pkg name version e s1).2
              !! lockFileName options = Some (lockFile s1)).
  { intros e. rewrite restoreLastGood_reliable. cbn [snd fs].
    destruct (isYarn (packageManager options));
      [apply lockFileName_lookup|apply lookup_insert_eq]. }
  destruct Hcases as [(l & -> & -> & Hl & Hk & Hfs')
                     |[(t & -> & -> & Hl & Hk)|[(t & Hpr & -> & -> & Hl & Hk)
                     |[(t & -> & -> & Hl & Hk)|(-> & -> & Hl & Hk)]]]].
  - exists s1. eexists. split; [reflexivity|]. split; [exact Ht|].
    split; [exact Hias|]. split; [by rewrite Hk|].
    right. right. right. left. by exists l.
  - specialize (Hfs (SpawnError t)). rewrite restoreLastGood_reliable in *.
    eexists _, _. split; [reflexivity|]. cbn [trace installAllSuccess lockFile lastPkgFile snd] in *.
    rewrite Ht, Hl, Hk, <- !app_assoc in *.
    split; [reflexivity|]. split; [exact Hias|]. split; [exact Hfs|].
    left. by exists t.
  - specialize (Hfs (SpawnError t)). rewrite restoreLastGood_reliable in *.
    eexists _, _. split; [reflexivity|]. cbn [trace installAllSuccess lockFile lastPkgFile snd] in *.
    rewrite Ht, Hl, Hk, <- !app_assoc in *.
    split; [reflexivity|]. split; [exact Hias|]. split; [exact Hfs|].
    right. left. by exists t.
  - specialize (Hfs (SpawnError t)). rewrite restoreLastGood_reliable in *.
    eexists _, _. split; [reflexivity|]. cbn [trace installAllSuccess lockFile lastPkgFile snd] in *.
    rewrite Ht, Hl, Hk, <- !app_assoc in *.
    split; [reflexivity|]. split; [exact Hias|]. split; [exact Hfs|].
    right. right. left. by exists t.
  - specialize (Hfs (FsError (lockFileName options))).
    rewrite restoreLastGood_reliable in *.
    eexists _, _. split; [reflexivity|]. cbn [trace installAllSuccess lockFile lastPkgFile snd] in *.
    rewrite Ht, Hl, Hk, <- !app_assoc in *.
    split; [reflexivity|]. split; [exact Hias|]. split; [exact Hfs|].
    right. right. right. right. done.
Qed.

End Reliable.

Lemma spawned_passed pkg name version c :
  spawned [ConsoleLog (passLine pkg name version);
           ReadFile (lockFileName options) c] = [].
Proof. reflexivity. Qed.

Ltac spawned_events :=
  rewrite ?spawned_app, ?spawned_singleEvents, ?spawned_prepareEvents,
    ?spawned_testEvents, ?spawned_restoreEvents, ?spawned_passed, ?app_nil_r.

Lemma failLine_restored pkg name version e lock last :
  ConsoleError (failLine pkg name version)
  ∈ restoreEvents options pkg name version e lock last.
Proof. unfold restoreEvents. apply elem_of_app. left. apply list_elem_of_here. Qed.


Lemma outcomes_singleEvents name version out :
  outcomes (singleEvents options name version out) = [succeeded out].
Proof. reflexivity. Qed.

Lemma outcomes_prepareEvents pkg out :
  outcomes (prepareEvents options pkg out)
  = if truthy (script pkg "prepare") then [succeeded out] else [].
Proof. unfold outcomes. rewrite spawned_prepareEvents. by destruct (truthy _). Qed.

Lemma outcomes_restoreEvents pkg name version e lock last :
  outcomes (restoreEvents options pkg name version e lock last) = [].
Proof. unfold outcomes. by rewrite spawned_restoreEvents. Qed.

Lemma outcomes_saveEvents pkgFile last : outcomes (saveEvents pkgFile last) = [].
Proof. unfold saveEvents. by destruct (String.eqb _ _). Qed.

Hint Rewrite outcomes_singleEvents outcomes_prepareEvents
  outcomes_restoreEvents outcomes_saveEvents : outcomes.

Lemma reads_installEvents path out : reads path (installEvents options out) = [].
Proof.
  unfold installEvents, spawnEvents, installLog. by destruct (truthy _).
Qed.

Lemma reads_testEvents path out : reads path (testEvents options out) = [].
Proof. unfold testEvents, spawnEvents, testLog. by destruct (truthy _). Qed.

Lemma reads_singleEvents path name version out :
  reads path (singleEvents options name version out) = [].
Proof. reflexivity. Qed.

Lemma reads_prepareEvents path pkg out :
  reads path (prepareEvents options pkg out) = [].
Proof. unfold prepareEvents. destruct (truthy _); [|done]. by destruct out. Qed.

Lemma reads_restoreEvents path pkg name version e lock last :
  reads path (restoreEvents options pkg name version e lock last) = [].
Proof. unfold restoreEvents. by destruct (isYarn _). Qed.

Lemma reads_restoreRejected path pkg name version e lock manifest error :
  reads path (restoreRejected options pkg name version e lock manifest error)
  = [].
Proof. by destruct manifest. Qed.

Lemma reads_rollbackRejected path ok pkgFile lockStep error :
  reads path (rollbackRejected options ok pkgFile lockStep error) = [].
Proof. by destruct lockStep. Qed.

Lemma reads_saveRejected path error : reads path (saveRejected error) = [].
Proof. reflexivity. Qed.

Lemma reads_rollbackEvents path ok pkgFile lock :
  reads path (rollbackEvents options ok pkgFile lock) = [].
Proof. unfold rollbackEvents, lockRestore. by destruct (truthy lock). Qed.

Lemma reads_saveEvents path pkgFile last :
  reads path (saveEvents pkgFile last) = [].
Proof. unfold saveEvents. by destruct (String.eqb _ _). Qed.

Lemma reads_failedAllEvents path ok t :
  reads path (failedAllEvents options ok t) = [].
Proof.
  unfold failedAllEvents.
  destruct ok; by rewrite ?reads_app, ?reads_installEvents, ?reads_testEvents.
Qed.

Lemma reads_passed pkg name version c :
  reads (lockFileName options)
    [ConsoleLog (passLine pkg name version); ReadFile (lockFileName options) c]
  = [c].
Proof. unfold reads, lockFileName. by destruct (isYarn _). Qed.

Create Rewrite HintDb reads.
Hint Rewrite reads_app reads_installEvents reads_testEvents reads_singleEvents
  reads_prepareEvents reads_restoreEvents reads_rollbackEvents reads_saveEvents
  reads_failedAllEvents reads_passed reads_baselineEvents
  reads_restoreRejected reads_rollbackRejected reads_saveRejected : reads.

(** One iteration, seen through its outcomes: the upgrade is merged when
    every process succeeded, and only then; the iteration returns unless
    a write of its [catch] is rejected. *)
Lemma iteration_verdict pkg name version s :
  exists r s' evs,
    iteration upgradePackageData env options pkg name version s = (r, s') /\
    trace s' = trace s ++ evs /\
    List.length (outcomes evs) <= attempts pkg /\
    (r = Ok tt /\ fs s' !! lockFileName options = Some (lockFile s')
     \/ exists error, r = Thrown (WriteError error)) /\
    ((outcomes evs = replicate (attempts pkg) true /\
      lastPkgFile s' = merged upgradePackageData pkg name version (lastPkgFile s) /\
      ((exists l, reads (lockFileName options) evs = [Some l] /\ lockFile s' = l)
       \/ (reads (lockFileName options) evs = [None] /\ lockFile s' = lockFile s)))
     \/ (exists j,
           j < attempts pkg /\
           outcomes evs = replicate j true ++ [false] /\
           lastPkgFile s' = lastPkgFile s /\
           lockFile s' = lockFile s /\
           reads (lockFileName options) evs = [])).
Proof.
  destruct (iteration_cases pkg name version s)
    as (r & s' & evs & Hit & Ht & _ & Hcases).
  exists r, s', evs. do 2 (split; [assumption|]). unfold attempts.
  destruct Hcases as [(l & -> & -> & Hl & Hk & Hfs)
                     |(pre & e & last & Hshape & Hl & Hk & Hres)].
  { autorewrite with outcomes reads; cbn [succeeded app].
    split; [destruct (truthy _); cbn; lia|].
    split; [left; by rewrite Hk|].
    left. destruct (truthy _); repeat split; try done; left; by exists l. }
  assert (Hr : (r = Ok tt /\ fs s' !! lockFileName options = Some (lockFile s')
                \/ exists error, r = Thrown (WriteError error)) /\
               outcomes evs = outcomes pre /\
               reads (lockFileName options) evs
               = reads (lockFileName options) pre).
  { destruct Hres as [(-> & -> & Hfs)|(error & manifest & -> & -> & _)];
      autorewrite with outcomes reads; rewrite ?app_nil_r.
    - split; [left; by rewrite Hk|done].
    - split; [right; by exists error|done]. }
  destruct Hr as (Hr & -> & ->). clear Hres.
  destruct Hshape as [(t & -> & -> & ->)|[(t & Hpr & -> & -> & ->)
                     |[(t & -> & -> & ->)|(-> & -> & ->)]]];
    autorewrite with outcomes reads; cbn [succeeded app].
  - split; [destruct (truthy _); cbn; lia|]. split; [exact Hr|].
    right. exists 0. destruct (truthy _); repeat split; try done; lia.
  - rewrite Hpr. split; [cbn; lia|]. split; [exact Hr|].
    right. exists 1. repeat split; try done; lia.
  - split; [destruct (truthy _); cbn; lia|]. split; [exact Hr|].
    right. destruct (truthy _).
    + exists 2. repeat split; try done; lia.
    + exists 1. repeat split; try done; lia.
  - split; [destruct (truthy _); cbn; lia|]. split; [exact Hr|].
    left. destruct (truthy _); repeat split; try done; by right.
Qed.

Lemma Loaded_unique files pkg pkgFile pkg' pkgFile' :
  Loaded JSON_parse options files pkg pkgFile ->
  Loaded JSON_parse options files pkg' pkgFile' ->
  pkg' = pkg /\ pkgFile' = pkgFile.
Proof.
  intros (_ & Hf & Hp & _) (_ & Hf' & Hp' & _).
  rewrite Hf in Hf'. injection Hf' as <-. rewrite Hp in Hp'. by injection Hp' as <-.
Qed.

Lemma run_step {B C} (m : M unit) (k : unit -> M B) (k' : B -> M C) s s1 r s' :
  m s = (Ok tt, s1) ->
  bind (bind m k) k' s = (r, s') -> bind (k tt) k' s1 = (r, s').
Proof. unfold bind. by intros ->. Qed.

Lemma run_abort {B C} (m : M unit) (k : unit -> M B) (k' : B -> M C) s s1 e r s' :
  m s = (Thrown e, s1) ->
  bind (bind m k) k' s = (r, s') -> r = Thrown e /\ s' = s1.
Proof. unfold bind. intros ->. by intros [= <- <-]. Qed.

(** C1, as the code has it.  A session over three upgrades in which the
    run with all upgrades fails and, one by one, the first and the third
    upgrade pass and the second fails (at its install, at the prepare
    script or at the tests) ends with exactly the first and the third
    merged into the manifest.  [s_end] is the state in which the final
    install starts: that manifest has just been written to package.json,
    and the lock file on disk is the one captured after the third
    upgrade.  The session ends with that install, and its files are then
    what the install makes of those of [s_end]. *)
Theorem bisection_keeps_first_and_third
  files pkg pkgFile r s d1 v1 d2 v2 d3 v3 (ok final : bool) k lock3 :
  doctor JSON_parse upgradePackageData env options (initial files) = (r, s) ->
  Loaded JSON_parse options files pkg pkgFile ->
  ranResult (trace s)
  = Some (RunReturns (Some [(d1, v1); (d2, v2); (d3, v3)])) ->
  k < attempts pkg ->
  outcomes (trace s)
  = [true; true] ++ (if ok then [true; false; true] else [false])
    ++ replicate (attempts pkg) true
    ++ (replicate k true ++ [false])
    ++ replicate (attempts pkg) true
    ++ [final] ->
  lastRead (lockFileName options) (trace s) = Some (Some lock3) ->
  let accepted :=
    merged upgradePackageData pkg d3 v3
      (merged upgradePackageData pkg d1 v1 pkgFile) in
  accepted ≠ pkgFile ->
  exists s_end,
    (r, s) = runInstall env options s_end /\
    lastPkgFile s_end = accepted /\
    fs s_end !! "package.json" = Some accepted /\
    last (trace s_end) = Some (WriteFile "package.json" accepted) /\
    lockFile s_end = lock3 /\
    fs s_end !! lockFileName options = Some lock3 /\
    exists out,
      exec env (trace s_end ++ installLog options) (fs s_end)
        (installCommand options) = (out, fs s) /\
      succeeded out = final /\
      r = resultOf out /\
      trace s = trace s_end ++ installEvents options out.
Proof.
  intros H Hld Hran Hk Hout Hread accepted Hne.
  apply doctor_session in H.
  destruct H as [ s Hc Ht Hfs | s c Hc Hf Hp Ht Hfs
                | s c pkg' Hc Hf Hp Hs Ht Hfs
                | s c Hc Hf Hp Ht Hfs
                | s pkg' pkgFile' t Hl Ht | s pkg' pkgFile' lock t Hl Ht
                | s pkg' pkgFile' lock t Hl Ht | s pkg' pkgFile' lock u Hl Hu Ht
                | s pkg' pkgFile' lock u Hl Hu Ht
                | r s pkg' pkgFile' lock u ok0 t s0 Hl Hu Ht Hok Hlock Hid ];
    other_outcomes Hout.
  destruct (Loaded_unique _ _ _ _ _ Hld Hl) as [-> ->].
  destruct (outcomes_bisected _ _ _ _ _ _ _ _ _ Ht Hid) as (evs & He & Ho).
  assert (ok0 = ok) as -> by (rewrite Ho in Hout; by destruct ok0, ok).
  rewrite He, Ht, <- !app_assoc, ranResult_upgraded in Hran.
  injection Hran as ->.
  cbn [from_option id] in Hid. clear evs He Ho.
  assert (Hlen : List.length (outcomes (trace s))
                 = (if ok then 5 else 3) + attempts pkg + (k + 1) + attempts pkg + 1).
  { rewrite Hout, !length_app, !length_replicate. destruct ok; cbn; lia. }
  destruct (identifyBroken_rollback pkg pkgFile [(d1, v1); (d2, v2); (d3, v3)]
              lock s0 Hlock)
    as [(s2 & Ht2 & _ & _ & _ & Hlast2 & _ & Hias & Heq)
       |(error & lockStep & s' & Heq & Ht')].
  2:{ rewrite Heq in Hid. injection Hid as _ <-.
      rewrite Ht', Ht in Hlen. autorewrite with outcomes in Hlen.
      rewrite !length_app in Hlen. destruct ok; cbn in Hlen; lia. }
  rewrite Hok in *. rewrite Heq in Hid. clear Heq.
  (* the re-install of the baseline *)
  assert (exists s3 evs3,
            (iterate upgradePackageData env options pkg
               [(d1, v1); (d2, v2); (d3, v3)] ;;;
             saveAndReinstall env options pkgFile) s3 = (r, s) /\
            trace s3 = trace s2 ++ evs3 /\
            outcomes evs3 = (if ok then [true] else []) /\
            reads (lockFileName options) evs3 = [] /\
            lastPkgFile s3 = pkgFile) as (s3 & evs3 & Hk3 & Ht3 & Ho3 & Hr3 & Hlast3).
  { apply bind_inv in Hid
      as [(a & s3 & Hre & Hk3)|[(e & Hre & ->)|(c & Hre & ->)]];
      apply reinstallBaseline_cases in Hre
        as [(Hf & Hr & Hs3)|(Hf & out & Ht3 & Hr & _ & Hlast3)];
      try discriminate Hr.
    - subst s3. exists s2, []. rewrite app_nil_r, Hias in *. rewrite Hf.
      by repeat split.
    - destruct out; [|discriminate]. exists s3, (installEvents options Succeeded).
      rewrite Hias in Hf. rewrite Hf. autorewrite with outcomes reads.
      repeat split; try done. congruence.
    - destruct out as [|t']; [discriminate|].
      rewrite Hias in Hf.
      rewrite Ht3, Ht2, Ht, Hf in Hout. autorewrite with outcomes in Hout.
      cbn in Hout. discriminate.
    - destruct out; discriminate. }
  clear Hid. cbn [iterate] in Hk3.
  assert (Hbase : List.length (outcomes (trace s3)) = if ok then 5 else 3).
  { rewrite Ht3, Ht2, Ht. autorewrite with outcomes. rewrite Ho3.
    destruct ok; reflexivity. }
  (* the three iterations and the end of the loop *)
  destruct (iteration_verdict pkg d1 v1 s3)
    as (r1 & s4 & e1 & Hi1 & Ht4 & Hb1 & [[-> _]|[error ->]] & V1).
  2:{ destruct (run_abort _ _ _ _ _ _ _ _ Hi1 Hk3) as [_ ->].
      rewrite Ht4, outcomes_app, length_app in Hlen. lia. }
  apply (run_step _ _ _ _ _ _ _ Hi1) in Hk3.
  destruct (iteration_verdict pkg d2 v2 s4)
    as (r2 & s5 & e2 & Hi2 & Ht5 & Hb2 & [[-> _]|[error ->]] & V2).
  2:{ destruct (run_abort _ _ _ _ _ _ _ _ Hi2 Hk3) as [_ ->].
      rewrite Ht5, Ht4, !outcomes_app, !length_app in Hlen.
      assert (List.length (outcomes e1) + List.length (outcomes e2)
              = attempts pkg + (k + 1)); [|lia].
      rewrite Ht5, Ht4, Ht3, Ht2, Ht in Hout.
      autorewrite with outcomes in Hout. rewrite Ho3 in Hout.
      apply (f_equal (@List.length bool)) in Hout.
      rewrite !length_app, !length_replicate in Hout.
      destruct ok; cbn in Hout; lia. }
  apply (run_step _ _ _ _ _ _ _ Hi2) in Hk3.
  destruct (iteration_verdict pkg d3 v3 s5)
    as (r3 & s6 & e3 & Hi3 & Ht6 & Hb3 & Hres3 & V3).
  assert (Hcut : forall X Y : list bool,
            (if ok then [true; false] else [false])
              ++ (if ok then [true] else []) ++ X
            = (if ok then [true; false; true] else [false]) ++ Y ->
            X = Y) by (intros X Y; destruct ok; by intros [= ->]).
  assert (Hno : outcomes e1 ++ outcomes e2 ++ outcomes e3
                = replicate (attempts pkg) true ++ (replicate k true ++ [false])
                  ++ replicate (attempts pkg) true ++ [final] -> False).
  { intros Hx. unfold attempts in *. clear -V1 V2 V3 Hx Hk.
    destruct V1 as [(O1 & _)|(j1 & Hj1 & O1 & _)],
             V2 as [(O2 & _)|(j2 & Hj2 & O2 & _)],
             V3 as [(O3 & _)|(j3 & Hj3 & O3 & _)];
      rewrite O1, O2, O3 in Hx; destruct (truthy (script pkg "prepare"));
      repeat match goal with
             | n : nat |- _ => destruct n as [|[|[|?]]]; try lia
             end;
      cbn in Hx; discriminate. }
  assert (Hstop : outcomes (trace s) = outcomes (trace s6) -> False).
  { intros Hx. rewrite Hx, Ht6, Ht5, Ht4, Ht3, Ht2, Ht in Hout.
    autorewrite with outcomes in Hout. rewrite Ho3 in Hout.
    rewrite <- !app_assoc in Hout.
    change (outcomes []) with (@nil bool) in Hout. cbn [app] in Hout.
    injection Hout as Hout. apply Hcut in Hout. apply Hno.
    rewrite Hout. by rewrite <- !app_assoc. }
  destruct Hres3 as [[-> Hfs6]|[error ->]].
  2:{ destruct (run_abort _ _ _ _ _ _ _ _ Hi3 Hk3) as [_ ->]. exfalso. by apply Hstop. }
  apply (run_step _ _ _ _ _ _ _ Hi3) in Hk3.
  unfold bind, ret in Hk3.
  destruct (saveAndReinstall_saved pkgFile s6)
    as [(s7 & Heq & Ht7 & Hw & _ & Hother & Hlast7 & Hlock7)
       |(error & s' & Heq & Ht')].
  2:{ rewrite Heq in Hk3. injection Hk3 as _ <-. exfalso. apply Hstop.
      rewrite Ht'. autorewrite with outcomes. by rewrite app_nil_r. }
  clear Hno Hstop.
  rewrite Heq in Hk3.
  assert (exists out,
            exec env (trace s7 ++ installLog options) (fs s7)
              (installCommand options) = (out, fs s) /\
            r = resultOf out /\
            trace s = trace s7 ++ installEvents options out)
    as (out & Hexec & Hres & Hts).
  { rewrite runInstall_run in Hk3. unfold run_spawn in Hk3.
    destruct (exec env _ (fs s7) _) as [out f7]. injection Hk3 as <- <-.
    by exists out. }
  clear Hlen Hbase Hb1 Hb2 Hb3.
  rewrite Hts, Ht7, Ht6, Ht5, Ht4, Ht3, Ht2, Ht in Hout, Hread.
  unfold lastRead in Hread.
  autorewrite with outcomes in Hout. autorewrite with reads in Hread.
  rewrite Ho3 in Hout. rewrite Hr3 in Hread.
  unfold attempts in *.
  rewrite <- !app_assoc in Hout.
  change (outcomes []) with (@nil bool) in Hout. cbn [app] in Hout.
  injection Hout as Hout. apply Hcut in Hout. clear Hcut.
  exists s7. split; [done|].
  destruct V1 as [(O1 & L1 & R1)|(j1 & Hj1 & O1 & _)]; rewrite O1 in Hout;
    destruct (truthy (script pkg "prepare"));
    [| |destruct j1 as [|[|[|]]]; try lia; discriminate
       |destruct j1 as [|[|]]; try lia; discriminate].
  all: cbn [replicate app] in Hout.
  all: destruct V2 as [(O2 & _)|(j2 & Hj2 & O2 & L2 & K2 & R2)];
    rewrite O2 in Hout;
    [destruct k as [|[|[|]]]; try lia; discriminate|].
  all: destruct V3 as [(O3 & L3 & R3)|(j3 & Hj3 & O3 & _)]; rewrite O3 in Hout.
  all: try (destruct k as [|[|[|]]], j2 as [|[|[|]]], j3 as [|[|[|]]];
            try lia; discriminate).
  all: assert (Hacc : lastPkgFile s6 = accepted)
    by (by rewrite L3, L2, L1, Hlast3).
  all: rewrite Hacc in *.
  all: (split; [done|]).
  all: (split; [by apply Hw|]).
  all: (split; [rewrite Ht7; unfold saveEvents;
                apply String.eqb_neq in Hne; rewrite Hne;
                by rewrite last_app|]).
  all: rewrite Hother by apply lockFileName_not_manifest.
  all: rewrite Hlock7, Hfs6.
  all: rewrite R2 in Hread.
  all: destruct R3 as [(l3 & R3 & K3)|(R3 & K3)]; rewrite R3 in Hread.
  all: destruct R1 as [(l1 & R1 & K1)|(R1 & K1)]; rewrite R1 in Hread.
  all: cbn in Hread; try discriminate.
  all: injection Hread as <-.
  all: (split; [by rewrite K3|]); (split; [by rewrite K3|]).
  all: exists out; (split; [done|]); (split; [|done]).
  all: apply (f_equal (@last bool)) in Hout;
    rewrite ?last_cons, ?last_app in Hout; cbn in Hout; congruence.
Qed.

(** ** The loop as a whole *)

Lemma loop_singleEvents pkg upgrades name version out :
  (name, version) ∈ upgrades ->
  Forall (loopEvent options pkg upgrades) (singleEvents options name version out).
Proof. intros Hin. repeat constructor. exact Hin. Qed.

Lemma loop_prepareEvents pkg upgrades out :
  Forall (loopEvent options pkg upgrades) (prepareEvents options pkg out).
Proof.
  unfold prepareEvents. destruct (truthy (script pkg "prepare")) eqn:E;
    [|constructor].
  destruct out; repeat first [apply loop_prepare; exact E | constructor].
Qed.

Lemma loop_testEvents pkg upgrades out :
  Forall (loopEvent options pkg upgrades) (testEvents options out).
Proof.
  unfold testEvents, spawnEvents, testLog.
  destruct (truthy (doctorTest options)); repeat constructor.
Qed.

Lemma loop_restoreEvents pkg upgrades name version e lock last :
  Forall (loopEvent options pkg upgrades)
    (restoreEvents options pkg name version e lock last).
Proof.
  unfold restoreEvents. destruct (isYarn (packageManager options)) eqn:E;
    repeat first [apply loop_manifest; exact E | constructor].
Qed.

Lemma loop_restoreRejected pkg upgrades name version e lock manifest error :
  (manifest = true -> isYarn (packageManager options) = true) ->
  Forall (loopEvent options pkg upgrades)
    (restoreRejected options pkg name version e lock manifest error).
Proof.
  intros Hm. unfold restoreRejected. destruct manifest;
    repeat first [apply loop_rejected_manifest; by apply Hm | constructor].
Qed.

Lemma last_restoreRejected pkg name version e lock manifest error pre :
  last (pre ++ restoreRejected options pkg name version e lock manifest error)
  = Some (Rejected (if manifest then "package.json" else lockFileName options)
            error).
Proof. rewrite last_app. by destruct manifest. Qed.

Lemma loop_iteration pkg upgrades name version s :
  (name, version) ∈ upgrades ->
  exists r s' evs,
    iteration upgradePackageData env options pkg name version s = (r, s') /\
    trace s' = trace s ++ evs /\
    Forall (loopEvent options pkg upgrades) evs /\
    (r = Ok tt
     \/ exists error path,
          r = Thrown (WriteError error) /\
          last evs = Some (Rejected path error)) /\
    (reliable env -> r = Ok tt).
Proof.
  intros Hin.
  destruct (iteration_cases pkg name version s)
    as (r & s' & evs & Hit & Ht & _ & Hcases).
  exists r, s', evs. split; [exact Hit|]. split; [exact Ht|].
  assert (Hrel : reliable env -> r = Ok tt).
  { intros Hrel.
    destruct (iteration_reliable Hrel pkg name version s) as (s'' & ? & Hit' & _).
    congruence. }
  destruct Hcases as [(l & -> & -> & _)|(pre & e & last & Hshape & _ & _ & Hres)].
  { split; [|split; [by left|done]].
    repeat first
      [ apply loop_singleEvents; exact Hin | apply loop_prepareEvents
      | apply loop_testEvents | apply Forall_app; split | constructor ]. }
  assert (Hpre : Forall (loopEvent options pkg upgrades) pre).
  { destruct Hshape as [(t & _ & -> & _)|[(t & _ & _ & -> & _)
                       |[(t & _ & -> & _)|(_ & -> & _)]]];
      repeat first
        [ apply loop_singleEvents; exact Hin | apply loop_prepareEvents
        | apply loop_testEvents | apply Forall_app; split | constructor ]. }
  destruct Hres as [(-> & -> & _)|(error & manifest & -> & -> & Hm)].
  - split; [|split; [by left|done]].
    apply Forall_app. split; [exact Hpre|apply loop_restoreEvents].
  - split; [|split; [|done]].
    + apply Forall_app. split; [exact Hpre|by apply loop_restoreRejected].
    + right. eexists _, _. split; [reflexivity|apply last_restoreRejected].
Qed.

Lemma loop_iterate pkg all upgrades s :
  upgrades ⊆ all ->
  exists r s' evs,
    iterate upgradePackageData env options pkg upgrades s = (r, s') /\
    trace s' = trace s ++ evs /\
    Forall (loopEvent options pkg all) evs /\
    (r = Ok tt
     \/ exists error path,
          r = Thrown (WriteError error) /\
          last evs = Some (Rejected path error)) /\
    (reliable env -> r = Ok tt).
Proof.
  revert s. induction upgrades as [|[name version] rest IH]; intros s Hsub.
  - exists (Ok tt), s, []. rewrite app_nil_r. repeat split; try done. by left.
  - destruct (loop_iteration pkg all name version s)
      as (r1 & s1 & e1 & Hit & Ht1 & H1 & Hr1 & Hrel1).
    { apply Hsub. apply list_elem_of_here. }
    rewrite iterate_cons, Hit.
    destruct Hr1 as [->|(error & path & -> & Hlast)].
    + destruct (IH s1) as (r & s' & e2 & Hrest & Ht2 & H2 & Hr2 & Hrel2).
      { intros x Hx. apply Hsub. by apply list_elem_of_further. }
      exists r, s', (e1 ++ e2). split; [exact Hrest|].
      split; [by rewrite Ht2, Ht1, app_assoc|].
      split; [by apply Forall_app|]. split; [|exact Hrel2].
      destruct Hr2 as [->|(error & path & -> & Hlast)]; [by left|right].
      exists error, path. split; [done|]. by rewrite last_app, Hlast.
    + eexists _, s1, e1. split; [reflexivity|]. split; [exact Ht1|].
      split; [exact H1|]. split; [|exact Hrel1]. right. by exists error, path.
Qed.

(** X1. The loop over the upgrades never exits and throws only when the
    file system rejects a write of the [catch] of an iteration: it then
    ends on that rejected write, with its error.  With a file system
    that accepts every write it returns, whatever the processes do.  All
    the loop does is print, spawn the install of an upgrade of the list,
    the prepare script (only when package.json has one) and the test
    command, read and write the lock file and, under yarn only, write
    package.json. *)
Theorem loop_stops_only_on_rejected_write pkg upgrades s :
  exists r s' evs,
    iterate upgradePackageData env options pkg upgrades s = (r, s') /\
    trace s' = trace s ++ evs /\
    Forall (loopEvent options pkg upgrades) evs /\
    (r = Ok tt
     \/ exists error path,
          r = Thrown (WriteError error) /\
          last evs = Some (Rejected path error)) /\
    (reliable env -> r = Ok tt).
Proof. by apply loop_iterate. Qed.

Lemma isSingleInstall_single name version :
  isSingleInstall (singleCommand options name version) = true.
Proof.
  unfold singleCommand, singleArgs, npmCommand. by destruct (isYarn _).
Qed.

Lemma isSingleInstall_prepare : isSingleInstall (prepareCommand options) = false.
Proof. unfold prepareCommand, npmCommand. by destruct (isYarn _). Qed.

Lemma isSingleInstall_test : isSingleInstall (testCommand options) = false.
Proof.
  unfold testCommand, customCommand, npmCommand.
  by destruct (truthy (doctorTest options)), (isYarn (packageManager options)).
Qed.

Lemma isSingleInstall_install : isSingleInstall (installCommand options) = false.
Proof.
  unfold installCommand, customCommand, npmCommand.
  by destruct (truthy (doctorInstall options)),
    (isYarn (packageManager options)).
Qed.

(** One iteration: its single install, and whether the upgrade is merged. *)
Lemma iteration_summary pkg name version s :
  exists r s' evs,
    iteration upgradePackageData env options pkg name version s = (r, s') /\
    trace s' = trace s ++ evs /\
    (r = Ok tt /\ fs s' !! lockFileName options = Some (lockFile s')
     \/ exists error, r = Thrown (WriteError error)) /\
    List.filter isSingleInstall (map fst (spawned evs))
    = [singleCommand options name version] /\
    (lastPkgFile s' = merged upgradePackageData pkg name version (lastPkgFile s)
     \/ (lastPkgFile s' = lastPkgFile s /\ false ∈ outcomes evs)).
Proof.
  destruct (iteration_cases pkg name version s)
    as (r & s' & evs & Hit & Ht & _ & Hcases).
  exists r, s', evs. do 2 (split; [assumption|]).
  destruct Hcases as [(l & -> & -> & Hl & Hk & Hfs)
                     |(pre & e & last & Hshape & Hl & Hk & Hres)].
  { split; [left; by rewrite Hk|].
    rewrite ?spawned_app, ?spawned_singleEvents, ?spawned_prepareEvents,
      ?spawned_testEvents, ?spawned_passed, ?app_nil_r.
    destruct (truthy (script pkg "prepare"));
      cbn [map fst app List.filter];
      rewrite ?isSingleInstall_single, ?isSingleInstall_prepare,
        ?isSingleInstall_test; by split; [|left]. }
  assert (Hr : (r = Ok tt /\ fs s' !! lockFileName options = Some (lockFile s')
                \/ exists error, r = Thrown (WriteError error)) /\
               spawned evs = spawned pre /\ outcomes evs = outcomes pre).
  { destruct Hres as [(-> & -> & Hfs)|(error & manifest & -> & -> & _)];
      autorewrite with outcomes;
      rewrite spawned_app, ?spawned_restoreEvents, ?spawned_restoreRejected,
        ?app_nil_r.
    - split; [left; by rewrite Hk|done].
    - split; [right; by exists error|done]. }
  destruct Hr as (Hr & -> & ->). split; [exact Hr|]. clear Hres Hr.
  destruct Hshape as [(t & -> & -> & ->)|[(t & Hpr & -> & -> & ->)
                     |[(t & -> & -> & ->)|(-> & -> & ->)]]];
    autorewrite with outcomes;
    rewrite ?spawned_app, ?spawned_singleEvents, ?spawned_prepareEvents,
      ?spawned_testEvents, ?spawned_passed, ?app_nil_r;
    destruct (truthy (script pkg "prepare")); try discriminate;
    cbn [map fst app List.filter succeeded];
    rewrite ?isSingleInstall_single, ?isSingleInstall_prepare,
      ?isSingleInstall_test.
  all: split; [reflexivity|].
  all: first [ left; exact Hl | right; split; [exact Hl|set_solver] ].
Qed.

(** X2. The loop installs the upgrades one by one in the order of the
    list, each at most once and, as long as it goes on, however the
    earlier ones fared: when it returns, every upgrade has been installed
    exactly once; when a rejected write ends it, those up to the one
    whose [catch] was running.  The manifest it accumulates is
    [upgradePackageData] applied, in order, for a sub-list of the
    upgrades it tried (all of them when the loop returns and no process
    failed), and after a non-empty loop that returns the lock file on
    disk is the last good lock file that the loop holds. *)
Theorem loop_attempts_each_upgrade_once pkg upgrades s :
  exists r s' evs kept n,
    iterate upgradePackageData env options pkg upgrades s = (r, s') /\
    trace s' = trace s ++ evs /\
    List.filter isSingleInstall (map fst (spawned evs))
    = map (fun u => singleCommand options u.1 u.2) (take n upgrades) /\
    sublist kept (take n upgrades) /\
    lastPkgFile s' = mergedAll pkg upgradePackageData kept (lastPkgFile s) /\
    (r = Ok tt /\
     n = List.length upgrades /\
     (false ∉ outcomes evs -> kept = upgrades) /\
     (upgrades ≠ [] -> fs s' !! lockFileName options = Some (lockFile s'))
     \/ exists error,
          r = Thrown (WriteError error) /\ 0 < n <= List.length upgrades).
Proof.
  revert s. induction upgrades as [|[name version] rest IH]; intros s.
  - exists (Ok tt), s, [], [], 0. rewrite app_nil_r.
    split; [done|]. split; [done|]. split; [done|]. split; [constructor|].
    split; [done|]. left. by repeat split.
  - destruct (iteration_summary pkg name version s)
      as (r1 & s1 & e1 & Hit & Ht1 & Hr1 & Hs1 & Hm1).
    rewrite iterate_cons, Hit.
    destruct Hr1 as [[-> Hfs1]|[error ->]].
    + destruct (IH s1)
        as (r & s' & e2 & kept & n & Hrest & Ht2 & Hs2 & Hsub & Hm2 & Hend).
      assert (Hsingles :
                List.filter isSingleInstall (map fst (spawned (e1 ++ e2)))
                = map (fun u => singleCommand options u.1 u.2)
                    (take (S n) ((name, version) :: rest))).
      { by rewrite spawned_app, map_app, List.filter_app, Hs1, Hs2. }
      assert (Htrace : trace s' = trace s ++ e1 ++ e2)
        by (by rewrite Ht2, Ht1, app_assoc).
      assert (Hlock : r = Ok tt ->
                      fs s' !! lockFileName options = Some (lockFile s')).
      { intros ->. destruct rest as [|u rest'].
        - cbn [iterate] in Hrest. by injection Hrest as <-.
        - destruct Hend as [(_ & _ & _ & Hl)|(error & [=] & _)]. by apply Hl. }
      destruct Hm1 as [Hm1|[Hm1 Hfail]].
      * exists r, s', (e1 ++ e2), ((name, version) :: kept), (S n).
        do 3 (split; [assumption|]).
        split; [by constructor|]. split; [by rewrite Hm2, Hm1|].
        destruct Hend as [(-> & -> & Hall & _)|(error & -> & Hn)].
        -- left. split; [done|]. split; [done|]. split; [|intros _; by apply Hlock].
           intros Hno. f_equal. apply Hall. intros Hin. apply Hno.
           rewrite outcomes_app. apply elem_of_app. by right.
        -- right. exists error. split; [done|]. cbn [List.length]. lia.
      * exists r, s', (e1 ++ e2), kept, (S n).
        do 3 (split; [assumption|]).
        split; [by constructor|]. split; [by rewrite Hm2, Hm1|].
        destruct Hend as [(-> & -> & Hall & _)|(error & -> & Hn)].
        -- left. split; [done|]. split; [done|]. split; [|intros _; by apply Hlock].
           intros Hno. exfalso. apply Hno. rewrite outcomes_app.
           apply elem_of_app. by left.
        -- right. exists error. split; [done|]. cbn [List.length]. lia.
    + destruct Hm1 as [Hm1|[Hm1 _]].
      * exists (Thrown (WriteError error)), s1, e1, [(name, version)], 1.
        split; [done|]. split; [done|]. cbn [take map].
        split; [done|]. split; [by repeat constructor|]. split; [done|].
        right. exists error. split; [done|]. cbn [List.length]. lia.
      * exists (Thrown (WriteError error)), s1, e1, [], 1.
        split; [done|]. split; [done|]. cbn [take map].
        split; [done|]. split; [by repeat constructor|]. split; [done|].
        right. exists error. split; [done|]. cbn [List.length]. lia.
Qed.

(** ** Sessions that stop before the bisection *)

Lemma ranResult_loaded pkgFile out :
  ranResult (loadedEvents pkgFile ++ installEvents options out) = None.
Proof.
  unfold ranResult, loadedEvents, installEvents, spawnEvents, installLog.
  by destruct (truthy (doctorInstall options)).
Qed.

Lemma ranResult_baseline_failed pkgFile lock t m :
  ranResult (loadedEvents pkgFile ++ installEvents options Succeeded
             ++ [ReadFile (lockFileName options) lock]
             ++ testEvents options (Failed t) ++ [ConsoleError m]) = None.
Proof.
  unfold ranResult, loadedEvents, installEvents, testEvents, spawnEvents,
    installLog, testLog.
  rewrite !omap_app.
  by destruct (truthy (doctorInstall options)), (truthy (doctorTest options)).
Qed.

Lemma ranResult_session pkgFile lock r rest tr :
  tr = baselineEvents options pkgFile lock ++ upgradingEvents env
       ++ Ran r :: rest ->
  ranResult tr = Some r.
Proof. intros ->. apply (ranResult_upgraded pkgFile lock r rest). Qed.

Lemma ranResult_bisected pkg pkgFile lock u ok t s0 r s :
  trace s0 = baselineEvents options pkgFile lock ++ upgradingEvents env
             ++ [Ran (RunReturns u)] ++ failedAllEvents options ok t ->
  identifyBroken upgradePackageData env options pkg pkgFile (default [] u) s0
    = (r, s) ->
  ranResult (trace s) = Some (RunReturns u).
Proof.
  intros Ht H. destruct (extends_identifyBroken _ _ _ _ _ _ _ _ _ H) as [evs He].
  rewrite He, Ht, <- !app_assoc. apply ranResult_upgraded.
Qed.

(** X3. When the first install fails, before any upgrade, the session is
    rejected with the error of that install, and the failed install is
    the last thing it did: all there is in the session is the read of
    package.json, the line that announces the tests, the install (with
    its echo) and its failure.  [doctor] prints no message of its own for
    it, nothing else is spawned, npm-check-updates is not run and no file
    is written or removed. *)
Theorem baseline_install_failure files r s rest :
  doctor JSON_parse upgradePackageData env options (initial files) = (r, s) ->
  outcomes (trace s) = false :: rest ->
  exists pkgFile t,
    files !! "package.json" = Some pkgFile /\
    trace s = [ReadFile "package.json" (Some pkgFile);
               ConsoleLog [Txt "Running tests before upgrading"]]
              ++ installLog options
              ++ [Spawned (installCommand options) (Failed t)] /\
    r = Thrown (SpawnError t) /\
    rest = [] /\
    ranResult (trace s) = None /\
    Forall (fun e => isWrite e = false) (trace s).
Proof.
  intros H Hout. session_paths H; other_outcomes Hout.
  - exists pkgFile, t. split; [apply Hl|]. split; [exact Ht|].
    rewrite Ht in *. autorewrite with outcomes in Hout. injection Hout as <-.
    split; [done|]. split; [done|]. split; [apply ranResult_loaded|].
    repeat first [apply quiet_installEvents | apply Forall_app; split
                 | constructor].
  - destruct (outcomes_bisected _ _ _ _ _ _ _ _ _ Ht Hid) as (evs & _ & Ho).
    rewrite Ho in Hout. discriminate.
Qed.

(** X4. When the install succeeds and the tests fail before any upgrade, the
    session prints that the tests failed before it got started and exits
    with code 1: nothing else is spawned, npm-check-updates is not run and
    no file is written or removed. *)
Theorem baseline_tests_failure files r s rest :
  doctor JSON_parse upgradePackageData env options (initial files) = (r, s) ->
  outcomes (trace s) = true :: false :: rest ->
  r = Exited 1 /\
  rest = [] /\
  last (trace s)
  = Some (ConsoleError [Txt "Tests failed before we even got started!"]) /\
  ranResult (trace s) = None /\
  Forall (fun e => isWrite e = false) (trace s).
Proof.
  intros H Hout. session_paths H; other_outcomes Hout.
  - rewrite Ht in *. autorewrite with outcomes in Hout. injection Hout as <-.
    split; [done|]. split; [done|]. split.
    { by rewrite !last_app. }
    split.
    { apply ranResult_baseline_failed. }
    repeat first [apply quiet_installEvents | apply quiet_testEvents
                 | apply Forall_app; split | constructor].
  - destruct (outcomes_bisected _ _ _ _ _ _ _ _ _ Ht Hid) as (evs & _ & Ho).
    rewrite Ho in Hout. discriminate.
Qed.

(** X5. When npm-check-updates finds nothing to upgrade (an empty object, or
    nothing at all), the session ends successfully after the baseline
    install and tests: it says that all dependencies are up to date,
    spawns nothing more and writes or removes no file. *)
Theorem nothing_to_upgrade files r s found :
  doctor JSON_parse upgradePackageData env options (initial files) = (r, s) ->
  ranResult (trace s) = Some (RunReturns found) ->
  default [] found = [] ->
  r = Ok tt /\
  outcomes (trace s) = [true; true] /\
  last (trace s)
  = Some (ConsoleLog [Txt "All dependencies are up-to-date ";
                      Chalk greenBold ":)"]) /\
  Forall (fun e => isWrite e = false) (trace s).
Proof.
  intros H Hran Hnone. session_paths H.
  - rewrite Ht in Hran. discriminate.
  - rewrite Ht in Hran. discriminate.
  - rewrite Ht in Hran. discriminate.
  - rewrite Ht in Hran. discriminate.
  - rewrite Ht, ranResult_loaded in Hran. discriminate.
  - rewrite Ht, ranResult_baseline_failed in Hran. discriminate.
  - rewrite (ranResult_session _ _ _ _ _ Ht) in Hran. discriminate.
  - split; [done|]. rewrite Ht. split.
    { autorewrite with outcomes. reflexivity. }
    split; [by rewrite !last_app|].
    repeat first [apply quiet_baselineEvents | apply Forall_app; split
                 | constructor].
  - rewrite (ranResult_session _ _ _ _ _ Ht) in Hran.
    injection Hran as <-. done.
  - rewrite (ranResult_bisected _ _ _ _ _ _ _ _ _ Ht Hid) in Hran.
    injection Hran as <-. done.
Qed.

(** X6. When the inner run of npm-check-updates is rejected, the session is
    rejected with the same error after the baseline install and tests:
    nothing more is spawned and [doctor] restores nothing, it writes or
    removes no file. *)
Theorem run_rejection_propagates files r s err :
  doctor JSON_parse upgradePackageData env options (initial files) = (r, s) ->
  ranResult (trace s) = Some (RunRejects err) ->
  r = Thrown (RunError err) /\
  outcomes (trace s) = [true; true] /\
  Forall (fun e => isWrite e = false) (trace s).
Proof.
  intros H Hran. session_paths H.
  - rewrite Ht in Hran. discriminate.
  - rewrite Ht in Hran. discriminate.
  - rewrite Ht in Hran. discriminate.
  - rewrite Ht in Hran. discriminate.
  - rewrite Ht, ranResult_loaded in Hran. discriminate.
  - rewrite Ht, ranResult_baseline_failed in Hran. discriminate.
  - rewrite (ranResult_session _ _ _ _ _ Ht) in Hran. injection Hran as <-.
    split; [done|]. rewrite Ht.
    split; [autorewrite with outcomes; reflexivity|].
    repeat first [apply quiet_baselineEvents | apply Forall_app; split
                 | constructor].
  - rewrite (ranResult_session _ _ _ _ _ Ht) in Hran. discriminate.
  - rewrite (ranResult_session _ _ _ _ _ Ht) in Hran. discriminate.
  - rewrite (ranResult_bisected _ _ _ _ _ _ _ _ _ Ht Hid) in Hran.
    discriminate.
Qed.

(** ** The whole session *)

Lemma session_installEvents out :
  Forall (sessionEvent options) (installEvents options out).
Proof.
  unfold installEvents, spawnEvents, installLog.
  destruct (truthy (doctorInstall options));
    repeat first [apply session_spawned; constructor | constructor].
Qed.

Lemma session_testEvents out :
  Forall (sessionEvent options) (testEvents options out).
Proof.
  unfold testEvents, spawnEvents, testLog.
  destruct (truthy (doctorTest options));
    repeat first [apply session_spawned; constructor | constructor].
Qed.

Lemma session_loopEvent pkg upgrades e :
  loopEvent options pkg upgrades e -> sessionEvent options e.
Proof.
  intros [m|m|name version out _|out _|out|c|c|c _|error|error _];
    repeat first [apply session_spawned; constructor | constructor].
Qed.

Lemma session_baselineEvents pkgFile lock :
  Forall (sessionEvent options) (baselineEvents options pkgFile lock).
Proof.
  unfold baselineEvents, loadedEvents.
  repeat first [apply session_installEvents | apply session_testEvents
               | apply Forall_app; split | constructor].
Qed.

Lemma session_rollbackEvents ok pkgFile lock :
  Forall (sessionEvent options) (rollbackEvents options ok pkgFile lock).
Proof.
  unfold rollbackEvents, lockRestore. destruct (truthy lock); repeat constructor.
Qed.

Lemma session_saveEvents pkgFile last :
  Forall (sessionEvent options) (saveEvents pkgFile last).
Proof. unfold saveEvents. destruct (String.eqb last pkgFile); repeat constructor. Qed.

Lemma session_failedAllEvents ok t :
  Forall (sessionEvent options) (failedAllEvents options ok t).
Proof.
  unfold failedAllEvents. destruct ok;
    repeat first [apply session_installEvents | apply session_testEvents
                 | apply Forall_app; split].
Qed.

Lemma session_restoreRejected ok pkgFile lockStep error :
  Forall (sessionEvent options) (rollbackRejected options ok pkgFile lockStep error).
Proof. unfold rollbackRejected. destruct lockStep; repeat constructor. Qed.

Lemma session_saveRejected error :
  Forall (sessionEvent options) (saveRejected error).
Proof. repeat constructor. Qed.

Ltac session_events :=
  repeat first
    [ apply session_installEvents | apply session_testEvents
    | apply session_baselineEvents | apply session_rollbackEvents
    | apply session_saveEvents | apply session_failedAllEvents
    | apply session_restoreRejected | apply session_saveRejected
    | apply Forall_app; split | apply Forall_cons; split | apply Forall_nil
    | apply session_spawned; constructor | constructor ].

(** ** How many processes a session spawns *)

Lemma iterate_bound pkg upgrades s :
  exists r s' evs,
    iterate upgradePackageData env options pkg upgrades s = (r, s') /\
    trace s' = trace s ++ evs /\
    List.length (outcomes evs) <= 3 * List.length upgrades.
Proof.
  revert s. induction upgrades as [|[name version] rest IH]; intros s.
  - exists (Ok tt), s, []. rewrite app_nil_r. cbn. by repeat split.
  - destruct (iteration_verdict pkg name version s)
      as (r1 & s1 & e1 & Hit & Ht1 & Hb1 & Hr1 & _).
    assert (attempts pkg <= 3)
      by (unfold attempts; destruct (truthy _); lia).
    rewrite iterate_cons, Hit.
    destruct Hr1 as [[-> _]|[error ->]].
    + destruct (IH s1) as (r & s' & e2 & Hrest & Ht2 & H2).
      exists r, s', (e1 ++ e2). split; [exact Hrest|].
      split; [by rewrite Ht2, Ht1, app_assoc|].
      rewrite outcomes_app, length_app. cbn [List.length]. lia.
    + eexists _, s1, e1. split; [reflexivity|]. split; [exact Ht1|].
      cbn [List.length]. lia.
Qed.

(** The loop, for the session: what it does, how it ends, how much. *)
Lemma iterate_facts pkg upgrades s r s' :
  iterate upgradePackageData env options pkg upgrades s = (r, s') ->
  exists evs,
    trace s' = trace s ++ evs /\
    Forall (sessionEvent options) evs /\
    List.length (outcomes evs) <= 3 * List.length upgrades /\
    (r = Ok tt
     \/ exists error path,
          r = Thrown (WriteError error) /\
          last evs = Some (Rejected path error)).
Proof.
  intros H.
  destruct (loop_iterate pkg upgrades upgrades s)
    as (r1 & s1 & e1 & H1 & Ht1 & Hall & Hr & _); [done|].
  destruct (iterate_bound pkg upgrades s) as (r2 & s2 & e2 & H2 & Ht2 & Hb).
  rewrite H in H1, H2. simplify_eq. rewrite Ht1 in Ht2.
  apply app_inv_head in Ht2 as <-.
  exists e1. split; [done|]. split; [|done].
  eapply Forall_impl; [exact Hall|]. apply session_loopEvent.
Qed.

(** How a bisection ends: with the fatal error of the re-install of the
    baseline, with the outcome of the last install, after the loop and
    the save, or with the error of a rejected write. *)
Lemma identifyBroken_shape pkg pkgFile upgrades lock s0 r s :
  lockFile s0 = default "" lock ->
  identifyBroken upgradePackageData env options pkg pkgFile upgrades s0
    = (r, s) ->
  (exists t,
     installAllSuccess s0 = true /\
     r = Thrown (NewError (fatalReinstall options)) /\
     trace s = trace s0
               ++ rollbackEvents options (installAllSuccess s0) pkgFile lock
               ++ installEvents options (Failed t)) \/
  (exists loop last out,
     (exists s3 s4,
        iterate upgradePackageData env options pkg upgrades s3 = (Ok tt, s4) /\
        trace s4 = trace s3 ++ loop) /\
     r = resultOf out /\
     trace s = trace s0
               ++ rollbackEvents options (installAllSuccess s0) pkgFile lock
               ++ (if installAllSuccess s0
                   then installEvents options Succeeded else [])
               ++ loop ++ saveEvents pkgFile last
               ++ installEvents options out) \/
  (exists error path evs,
     r = Thrown (WriteError error) /\
     trace s = trace s0 ++ evs /\
     last evs = Some (Rejected path error) /\
     Forall (sessionEvent options) evs /\
     List.length (outcomes evs)
     <= (if installAllSuccess s0 then 1 else 0) + 3 * List.length upgrades).
Proof.
  intros Hlock H.
  destruct (identifyBroken_rollback pkg pkgFile upgrades lock s0 Hlock)
    as [(s2 & Ht2 & _ & _ & _ & _ & _ & Hias & Hrun)
       |(error & lockStep & s' & Hrun & Ht')];
    rewrite Hrun in H; clear Hrun.
  2:{ injection H as <- <-. right. right.
      exists error, (if lockStep then lockFileName options else "package.json").
      eexists. split; [done|]. split; [exact Ht'|].
      split; [by destruct lockStep|]. split; [session_events|].
      autorewrite with outcomes. cbn. lia. }
  assert (Hloop : forall s3 base,
            trace s3 = trace s2 ++ base ->
            Forall (sessionEvent options) base ->
            (iterate upgradePackageData env options pkg upgrades ;;;
             saveAndReinstall env options pkgFile) s3 = (r, s) ->
            (exists loop last out,
               (exists s3 s4,
                  iterate upgradePackageData env options pkg upgrades s3
                  = (Ok tt, s4) /\
                  trace s4 = trace s3 ++ loop) /\
               r = resultOf out /\
               trace s = trace s2 ++ base ++ loop ++ saveEvents pkgFile last
                         ++ installEvents options out)
            \/ (exists error path evs,
                  r = Thrown (WriteError error) /\
                  trace s = trace s2 ++ base ++ evs /\
                  last evs = Some (Rejected path error) /\
                  Forall (sessionEvent options) evs /\
                  List.length (outcomes evs) <= 3 * List.length upgrades)).
  { intros s3 base Ht3 Hbase Hrest.
    destruct (iterate upgradePackageData env options pkg upgrades s3)
      as [rl s4] eqn:Hit.
    destruct (iterate_facts _ _ _ _ _ Hit) as (loop & Ht4 & Hall & Hb & Hr).
    unfold bind in Hrest. rewrite Hit in Hrest.
    destruct Hr as [->|(error & path & -> & Hlast)].
    - destruct (saveAndReinstall_saved pkgFile s4)
        as [(s5 & Hsave & Ht5 & _)|(error & s' & Hsave & Ht')];
        rewrite Hsave in Hrest.
      + left. rewrite runInstall_run in Hrest. unfold run_spawn in Hrest.
        destruct (exec env _ _ _) as [out f]. injection Hrest as <- <-.
        exists loop, (lastPkgFile s4), out. split; [by exists s3, s4|].
        split; [reflexivity|]. cbn [trace]. fold (installEvents options out).
        by rewrite Ht5, Ht4, Ht3, <- !app_assoc.
      + right. injection Hrest as <- <-.
        exists error, "package.json", (loop ++ saveRejected error).
        split; [done|]. split; [by rewrite Ht', Ht4, Ht3, <- !app_assoc|].
        split; [by rewrite last_app|].
        split; [apply Forall_app; split; [done|session_events]|].
        autorewrite with outcomes. rewrite app_nil_r. exact Hb.
    - right. injection Hrest as <- <-. exists error, path, loop.
      split; [done|]. split; [by rewrite Ht4, Ht3, <- !app_assoc|]. done. }
  apply bind_inv in H as [([] & s3 & Hre & Hrest)|[(e & Hre & ->)|(c & Hre & ->)]].
  - right. apply reinstallBaseline_cases in Hre
      as [(Hf & _ & ->)|(Ht & out & Htr & Hr & _)].
    + destruct (Hloop s2 []) as [(loop & last & out & Hall & Hr & Hts)
                                |(error & path & evs & Hr & Hts & Hl & Hall & Hb)];
        [by rewrite app_nil_r|constructor|exact Hrest| |].
      * left. exists loop, last, out. split; [exact Hall|]. split; [exact Hr|].
        rewrite Hts, Ht2, <- Hias, Hf, <- !app_assoc. reflexivity.
      * right. exists error, path, (rollbackEvents options false pkgFile lock ++ evs).
        split; [exact Hr|].
        split; [by rewrite Hts, Ht2, <- Hias, Hf, <- !app_assoc|].
        split; [by rewrite last_app, Hl|].
        split; [session_events; assumption|].
        autorewrite with outcomes. rewrite <- Hias, Hf. cbn. lia.
    + destruct out; [|discriminate].
      destruct (Hloop s3 (installEvents options Succeeded))
        as [(loop & last & out & Hall & Hr' & Hts)
           |(error & path & evs & Hr' & Hts & Hl & Hall & Hb)];
        [exact Htr|session_events|exact Hrest| |].
      * left. exists loop, last, out. split; [exact Hall|]. split; [exact Hr'|].
        rewrite Hts, Ht2, <- Hias, Ht, <- !app_assoc. reflexivity.
      * right. exists error, path,
          (rollbackEvents options true pkgFile lock
           ++ installEvents options Succeeded ++ evs).
        split; [exact Hr'|].
        split; [by rewrite Hts, Ht2, <- Hias, Ht, <- !app_assoc|].
        split; [by rewrite !last_app, Hl|].
        split; [session_events; assumption|].
        autorewrite with outcomes. rewrite <- Hias, Ht. cbn. lia.
  - left. apply reinstallBaseline_cases in Hre
      as [(_ & Hr & _)|(Ht & out & Htr & Hr & _)]; [discriminate|].
    destruct out as [|t]; [discriminate|]. injection Hr as ->.
    exists t. split; [by rewrite <- Hias|]. split; [reflexivity|].
    by rewrite Htr, Ht2, <- !app_assoc.
  - apply reinstallBaseline_cases in Hre
      as [(_ & Hr & _)|(_ & out & _ & Hr & _)]; [discriminate|].
    destruct out; discriminate.
Qed.

(** Every event of a session is one of [sessionEvent]. *)
Lemma session_events_all files r s :
  doctor JSON_parse upgradePackageData env options (initial files) = (r, s) ->
  Forall (sessionEvent options) (trace s).
Proof.
  intros H. session_paths H; try (rewrite Ht; unfold loadedEvents, upgradingEvents;
                                  session_events; fail).
  destruct (identifyBroken_shape _ _ _ _ _ _ _ Hlock Hid)
    as [(t' & _ & _ & ->)|[(loop & last & out & Hall & _ & ->)
       |(error & path & evs & _ & -> & _ & Hall & _)]];
    rewrite Ht; unfold upgradingEvents.
  - session_events.
  - assert (Forall (sessionEvent options) loop).
    { destruct Hall as (s3 & s4 & Hit & Ht4).
      destruct (iterate_facts _ _ _ _ _ Hit) as (loop' & Ht4' & Hall' & _).
      rewrite Ht4 in Ht4'. by apply app_inv_head in Ht4' as <-. }
    destruct (installAllSuccess s0); session_events; assumption.
  - session_events; assumption.
Qed.

(** ** What a session never does *)

(** X7. Whatever the processes and npm-check-updates do, the only files that
    [doctor] itself reads, writes or removes are package.json and the
    lock file of the package manager, and package.json is never
    removed. *)
Theorem only_manifest_and_lock_touched files e path :
  e ∈ trace (doctor JSON_parse upgradePackageData env options (initial files)).2 ->
  touched e = Some path ->
  (path = "package.json" \/ path = lockFileName options) /\
  e ≠ Rimraf "package.json".
Proof.
  intros He Hp.
  destruct (doctor JSON_parse upgradePackageData env options (initial files))
    as [r s] eqn:H.
  apply session_events_all in H. rewrite Forall_forall in H.
  specialize (H e He). pose proof lockFileName_not_manifest as Hne.
  destruct H; cbn in Hp; try discriminate; injection Hp as <-;
    (split; [by auto|]); try discriminate.
  intros [= Heq]. by apply Hne.
Qed.

(** [line.split(' ')] joined with spaces again is [line]. *)
Lemma join_split s : join " " (split space s) = s.
Proof.
  induction s as [|c rest IH]; [reflexivity|].
  cbn [split]. destruct (Ascii.eqb_spec c space) as [->|Hc].
  - destruct (split space rest) as [|w ws] eqn:E; cbn [join] in *.
    + destruct rest; cbn in E; [discriminate|].
      destruct (Ascii.eqb _ _), (split space rest); discriminate.
    + by rewrite IH.
  - destruct (split space rest) as [|w ws] eqn:E.
    + destruct rest; cbn in E; [discriminate|].
      destruct (Ascii.eqb _ _), (split space rest); discriminate.
    + cbn [join] in *. destruct ws; by rewrite <- IH.
Qed.

Lemma customCommand_words line cmd args :
  customCommand line = Spawn cmd args ->
  join " " (cmd :: args) = default "" line.
Proof.
  unfold customCommand. intros [= <- <-].
  rewrite <- (join_split (default "" line)) at 3.
  destruct (split space (default "" line)) as [|w ws] eqn:E; [|reflexivity].
  destruct (default "" line) as [|c rest]; cbn in E; [discriminate|].
  destruct (Ascii.eqb _ _), (split space rest); discriminate.
Qed.

(** X8. Every process of a session is started through the package manager
    that the options name: [spawnYarn] exactly when packageManager is
    "yarn", [spawnNpm] otherwise.  The only other processes are the
    custom install and test commands, and the words of such a process,
    joined with spaces, are the option as it was given. *)
Theorem processes_follow_options files c out :
  Spawned c out
    ∈ trace (doctor JSON_parse upgradePackageData env options (initial files)).2 ->
  match c with
  | SpawnYarn _ => packageManager options = Some "yarn"
  | SpawnNpm _ => packageManager options ≠ Some "yarn"
  | Spawn cmd args =>
      Some (join " " (cmd :: args)) = doctorInstall options \/
      Some (join " " (cmd :: args)) = doctorTest options
  end.
Proof.
  intros He.
  destruct (doctor JSON_parse upgradePackageData env options (initial files))
    as [r s] eqn:H.
  apply session_events_all in H. rewrite Forall_forall in H.
  specialize (H _ He). inversion H as [| | | |c' out' Hc| | | | | | |]; subst.
  assert (Hnpm : forall args,
            match npmCommand (packageManager options) args with
            | SpawnYarn _ => packageManager options = Some "yarn"
            | SpawnNpm _ => packageManager options ≠ Some "yarn"
            | Spawn _ _ => False
            end).
  { intros args. unfold npmCommand, isYarn.
    destruct (packageManager options) as [pm|]; [|done].
    destruct (String.eqb_spec pm "yarn") as [->|Hpm]; [done|]. congruence. }
  assert (Hcustom : forall line cmd args,
            truthy line = true -> customCommand line = Spawn cmd args ->
            Some (join " " (cmd :: args)) = line).
  { intros line cmd args Hl Hcmd. rewrite (customCommand_words _ _ _ Hcmd).
    by destruct line. }
  destruct Hc.
  - unfold installCommand. destruct (truthy (doctorInstall options)) eqn:E.
    + destruct (customCommand _) eqn:Hcmd; try discriminate. left. eauto.
    + specialize (Hnpm ["install"]). by destruct (npmCommand _ _).
  - unfold testCommand. destruct (truthy (doctorTest options)) eqn:E.
    + destruct (customCommand _) eqn:Hcmd; try discriminate. right. eauto.
    + specialize (Hnpm ["run"; "test"]). by destruct (npmCommand _ _).
  - unfold prepareCommand. specialize (Hnpm ["run"; "prepare"]).
    by destruct (npmCommand _ _).
  - unfold singleCommand. specialize (Hnpm (singleArgs options name version)).
    by destruct (npmCommand _ _).
Qed.

(** X9. A session ends in one of seven ways: it returns, it exits with
    code 1, it is rejected with the error of a spawned process, of the
    inner run of npm-check-updates or of a rejected write, it throws the
    fatal error of the re-install, or it throws the [TypeError] of reading
    a property of a package.json that holds [null].  It never exits with
    another code, and never ends with the error of a failed read or of
    [JSON.parse]. *)
Theorem session_results files :
  match (doctor JSON_parse upgradePackageData env options (initial files)).1 with
  | Ok _ => True
  | Exited code => code = 1%Z
  | Thrown (SpawnError _) | Thrown (RunError _) | Thrown (WriteError _) => True
  | Thrown (TypeError p) =>
      p = nullProperty options /\
      exists c, files !! "package.json" = Some c /\ JSON_parse c = Some JsonNull
  | Thrown (NewError m) => m = fatalReinstall options
  | Thrown (FsError _) | Thrown SyntaxError => False
  end.
Proof.
  destruct (doctor JSON_parse upgradePackageData env options (initial files))
    as [r s] eqn:H.
  cbn [fst]. session_paths H; try done.
  - split; [done|]. by exists c.
  - destruct (identifyBroken_shape _ _ _ _ _ _ _ Hlock Hid)
      as [(t' & _ & -> & _)|[(loop & last & out & _ & -> & _)
         |(error & path & evs & -> & _)]]; [done| |done].
    by destruct out.
Qed.

(** ** Loading the manifest *)

(** X10. When neither packageData nor packageFile is given, package.json
    exists and parses, and there is a test script or a custom test
    command (which waives the script), [loadPackageFile] returns the
    parsed manifest with the text it read: it reads package.json once,
    prints nothing and leaves the files alone. *)
Theorem loadPackageFile_accepts files pkg pkgFile :
  Loaded JSON_parse options files pkg pkgFile ->
  exists s,
    loadPackageFile JSON_parse options (initial files)
    = (Ok (JsonValue pkg, pkgFile), s) /\
    trace s = [ReadFile "package.json" (Some pkgFile)] /\
    fs s = files.
Proof.
  intros (Hc & Hf & Hp & Ht). unfold loadPackageFile, initial.
  rewrite Hc. unfold_model. rewrite Hf. unfold_model. rewrite Hp. unfold_model.
  destruct (truthy (doctorTest options)); cbn [negb]; unfold_model.
  - eexists. split; [reflexivity|]. done.
  - cbn in Ht. rewrite Ht. cbn [negb]. eexists. split; [reflexivity|]. done.
Qed.

Lemma spawned_baselineEvents pkgFile lock :
  spawned (baselineEvents options pkgFile lock)
  = [(installCommand options, Succeeded); (testCommand options, Succeeded)].
Proof.
  unfold baselineEvents, loadedEvents.
  by rewrite !spawned_app, spawned_installEvents, spawned_testEvents.
Qed.

(** X11. A session either ends without having spawned any process, or
    starts with the install.  It ends so exactly when [loadPackageFile]
    refuses it (packageData or packageFile given, package.json missing or
    not JSON, no test script and no custom test command), with the
    message of the refusal as its last line and exit code 1, or when
    package.json holds [null], with a [TypeError] and no message. *)
Theorem session_refused_or_installs files r s :
  doctor JSON_parse upgradePackageData env options (initial files) = (r, s) ->
  (spawned (trace s) = [] /\
   ((exists m,
       Refusal JSON_parse options files m /\
       r = Exited 1 /\
       last (trace s) = Some (ConsoleError m))
    \/ (exists c,
          files !! "package.json" = Some c /\
          JSON_parse c = Some JsonNull /\
          r = Thrown (TypeError (nullProperty options)) /\
          trace s = [ReadFile "package.json" (Some c)])))
  \/ (exists pkg pkgFile out,
        Loaded JSON_parse options files pkg pkgFile /\
        head (spawned (trace s)) = Some (installCommand options, out)).
Proof.
  intros H. session_paths H.
  - left. rewrite Ht. split; [done|]. left. exists (notAllowed).
    split; [by constructor|done].
  - left. rewrite Ht. split; [done|]. left.
    exists [Txt "Missing or invalid package.json"]. split; [|done].
    destruct c as [c|]; [|by apply refusal_missing].
    by apply (refusal_invalid _ _ _ c).
  - left. rewrite Ht. split; [done|]. left. exists (noTestScript).
    split; [|done]. apply orb_false_iff in Hs as [Hd Hs].
    by apply (refusal_untested _ _ _ c pkg).
  - left. rewrite Ht. split; [done|]. right. by exists c.
  - right. exists pkg, pkgFile, (Failed t). split; [done|].
    by rewrite Ht, spawned_app, spawned_installEvents.
  - right. exists pkg, pkgFile, Succeeded. split; [done|].
    by rewrite Ht, !spawned_app, spawned_installEvents.
  - right. exists pkg, pkgFile, Succeeded. split; [done|].
    by rewrite Ht, !spawned_app, spawned_baselineEvents.
  - right. exists pkg, pkgFile, Succeeded. split; [done|].
    by rewrite Ht, !spawned_app, spawned_baselineEvents.
  - right. exists pkg, pkgFile, Succeeded. split; [done|].
    by rewrite Ht, !spawned_app, spawned_baselineEvents.
  - right. exists pkg, pkgFile, Succeeded. split; [done|].
    destruct (extends_identifyBroken _ _ _ _ _ _ _ _ _ Hid) as [evs ->].
    by rewrite Ht, !spawned_app, spawned_baselineEvents.
Qed.

(** ** How a session ends *)

(** X12. The only error of a process that escapes from a session is that of
    the install command, and that install is the last thing the session
    did: a failure of the tests, of the prepare script or of the install
    of a single upgrade never rejects the session. *)
Theorem escaping_error_is_install files r s text :
  doctor JSON_parse upgradePackageData env options (initial files) = (r, s) ->
  r = Thrown (SpawnError text) ->
  last (trace s) = Some (Spawned (installCommand options) (Failed text)).
Proof.
  intros H Hr. session_paths H; try discriminate.
  - injection Hr as <-. rewrite Ht. unfold installEvents, spawnEvents.
    by rewrite !last_app.
  - destruct (identifyBroken_shape _ _ _ _ _ _ _ Hlock Hid)
      as [(t' & _ & -> & _)|[(loop & last' & out & _ & -> & ->)
         |(error & path & evs & -> & _)]]; [discriminate| |discriminate].
    destruct out as [|t']; [discriminate|]. injection Hr as ->.
    unfold installEvents, spawnEvents. by rewrite !last_app.
Qed.

(** X13. A session that returns has seen its last process succeed, and that
    process was the install or the test command. *)
Theorem return_follows_success files r s :
  doctor JSON_parse upgradePackageData env options (initial files) = (r, s) ->
  r = Ok tt ->
  exists c,
    last (spawned (trace s)) = Some (c, Succeeded) /\
    (c = installCommand options \/ c = testCommand options).
Proof.
  intros H Hr. session_paths H; try discriminate.
  - exists (testCommand options). split; [|by right].
    rewrite Ht. unfold baselineEvents, upgradingEvents.
    rewrite !spawned_app, spawned_testEvents. by rewrite !last_app.
  - exists (testCommand options). split; [|by right].
    rewrite Ht. rewrite !spawned_app, spawned_testEvents. by rewrite !last_app.
  - destruct (identifyBroken_shape _ _ _ _ _ _ _ Hlock Hid)
      as [(t' & _ & -> & _)|[(loop & last' & out & _ & -> & ->)
         |(error & path & evs & -> & _)]]; [discriminate| |discriminate].
    destruct out; [|discriminate].
    exists (installCommand options). split; [|by left].
    rewrite !spawned_app, spawned_installEvents. by rewrite !last_app.
Qed.

(** ** How many processes a session spawns *)

Lemma found_session pkgFile lock r rest tr :
  tr = baselineEvents options pkgFile lock ++ upgradingEvents env
       ++ Ran r :: rest ->
  found tr = match r with RunReturns u => default [] u | _ => [] end.
Proof. intros H. unfold found. by rewrite (ranResult_session _ _ _ _ _ H). Qed.

(** X14. A session spawns at most six processes (two for the baseline, two for
    the run with all upgrades, the re-install of the baseline and the last
    install) and three for each upgrade that npm-check-updates found. *)
Theorem session_process_bound files :
  let s := (doctor JSON_parse upgradePackageData env options (initial files)).2 in
  List.length (spawned (trace s)) <= 6 + 3 * List.length (found (trace s)).
Proof.
  destruct (doctor JSON_parse upgradePackageData env options (initial files))
    as [r s] eqn:H.
  cbn [snd]. rewrite <- (length_map (fun p => succeeded p.2)).
  fold (outcomes (trace s)).
  session_paths H;
    try (rewrite Ht; autorewrite with outcomes; cbn; lia).
  assert (Hf : found (trace s) = default [] u).
  { unfold found. by rewrite (ranResult_bisected _ _ _ _ _ _ _ _ _ Ht Hid). }
  destruct (identifyBroken_shape _ _ _ _ _ _ _ Hlock Hid)
    as [(t' & Hias & _ & Hts)|[(loop & last' & out & Hloop & _ & Hts)
       |(error & path & evs & _ & Hts & _ & _ & Hb)]].
  - rewrite Hts, Ht. autorewrite with outcomes. rewrite <- Hok, Hias. cbn. lia.
  - destruct Hloop as (s3 & s4 & Hit & Ht4).
    destruct (iterate_facts _ _ _ _ _ Hit) as (loop' & Ht4' & _ & Hb & _).
    rewrite Ht4 in Ht4'. apply app_inv_head in Ht4' as <-.
    rewrite Hf, Hts, Ht. autorewrite with outcomes. rewrite Hok.
    destruct ok0; autorewrite with outcomes; rewrite !length_app;
      change (outcomes []) with (@nil bool); cbn [List.length]; lia.
  - rewrite Hf, Hts, Ht. autorewrite with outcomes. rewrite Hok in Hb.
    rewrite !length_app. change (outcomes []) with (@nil bool).
    destruct ok0; cbn [List.length] in *; lia.
Qed.

End Runs.

(** ** The theorems at work on the small project *)

(** C1 as the specification has it fails.  In this session the batch
    fails, [a] and [c] pass and [b] fails; the lock file captured after
    the last successful step is the one read after [c].  It is on disk
    when the final install starts, but the final install writes a lock
    file of its own, and that one is the final lock file. *)
Lemma final_lock_file_is_left_by_install :
  let captured := ("lock of " ++ Demo.pkgFile ++ " + a@2.0.0 + c@2.0.0")%string in
  outcomes (trace Demo.session.2)
  = [true; true] ++ [true; false; true] ++ [true; true] ++ [true; false]
    ++ [true; true] ++ [true] /\
  lastRead "package-lock.json" (trace Demo.session.2) = Some (Some captured) /\
  fs Demo.session.2 !! "package-lock.json"
  = Some ("lock of " ++ Demo.manifest "2.0.0" "1.0.0" "2.0.0")%string /\
  fs Demo.session.2 !! "package-lock.json" ≠ Some captured.
Proof.
  cbv zeta. split; [vm_compute; reflexivity|]. split; [vm_compute; reflexivity|].
  split; [vm_compute; reflexivity|].
  intros H. vm_compute in H. discriminate.
Qed.

(** C4 as the specification has it fails.  In this session the tests of
    [b] fail and the file system rejects the write that restores the lock
    file: the error of the write leaves the loop and ends the session,
    and [c], the next dependency, is never installed. *)
Lemma rejected_write_ends_the_loop :
  spawned (trace Demo.brittleSession.2)
  = [(SpawnNpm ["install"], Succeeded);
     (SpawnNpm ["run"; "test"], Succeeded);
     (SpawnNpm ["install"], Succeeded);
     (SpawnNpm ["run"; "test"], Failed "1 failing");
     (SpawnNpm ["install"], Succeeded);
     (SpawnNpm ["install"; "--no-save"; "a@2.0.0"], Succeeded);
     (SpawnNpm ["run"; "test"], Succeeded);
     (SpawnNpm ["install"; "--no-save"; "b@2.0.0"], Succeeded);
     (SpawnNpm ["run"; "test"], Failed "1 failing")] /\
  found (trace Demo.brittleSession.2)
  = [("a", "2.0.0"); ("b", "2.0.0"); ("c", "2.0.0")] /\
  last (trace Demo.brittleSession.2)
  = Some (Rejected "package-lock.json"
            "EISDIR: illegal operation on a directory, open 'package-lock.json'") /\
  Demo.brittleSession.1
  = Thrown (WriteError
              "EISDIR: illegal operation on a directory, open 'package-lock.json'").
Proof. repeat split; vm_compute; reflexivity. Qed.

(** C8 as the specification has it fails: in this session the lock file
    is read only after the baseline install has run, and what is kept is
    the lock file that the install wrote, not the stale one. *)
Lemma lock_snapshot_follows_install :
  ~ snapshotsBeforeInstall "package-lock.json" (trace Demo.staleSession.2).
Proof.
  intros (m & l & i & _ & Hl & Hi & _ & Hlt).
  vm_compute in Hl, Hi. injection Hl as <-. injection Hi as <-. lia.
Qed.


Lemma reliable_demo : reliable Demo.env.
Proof. intros history files path. reflexivity. Defined.

Lemma bisection_keeps_first_and_third_witness :
  exists s_end,
    Demo.session = runInstall Demo.env Demo.options s_end /\
    fs s_end !! "package.json"
    = Some (Demo.manifest "2.0.0" "1.0.0" "2.0.0") /\
    lastPkgFile s_end = Demo.manifest "2.0.0" "1.0.0" "2.0.0" /\
    fs s_end !! "package-lock.json"
    = Some ("lock of " ++ Demo.pkgFile ++ " + a@2.0.0 + c@2.0.0")%string.
Proof.
  destruct (bisection_keeps_first_and_third Demo.JSON_parse
              Demo.upgradePackageData Demo.env Demo.options Demo.files
              Demo.pkg Demo.pkgFile Demo.session.1 Demo.session.2
              "a" "2.0.0" "b" "2.0.0" "c" "2.0.0" true true 1
              ("lock of " ++ Demo.pkgFile ++ " + a@2.0.0 + c@2.0.0")%string
              (surjective_pairing _))
    as (s_end & Hs & Hl & Hf & _ & _ & Hk & _).
  - unfold Loaded. repeat match goal with |- _ /\ _ => split end;
      vm_compute; reflexivity.
  - vm_compute. reflexivity.
  - vm_compute. lia.
  - vm_compute. reflexivity.
  - vm_compute. reflexivity.
  - apply String.eqb_neq. vm_compute. reflexivity.
  - exists s_end. split; [|split; [|split]].
    + rewrite <- Hs. apply surjective_pairing.
    + rewrite Hf. vm_compute. reflexivity.
    + rewrite Hl. vm_compute. reflexivity.
    + exact Hk.
Defined.


Lemma reinstall_failure_is_fatal_witness :
  outcomes (trace Demo.flakySession.2) = [true; true; true; false; false] ++ [] /\
  Demo.flakySession.1 = Thrown (NewError (fatalReinstall Demo.options)).
Proof.
  assert (Hout : outcomes (trace Demo.flakySession.2)
                 = [true; true; true; false; false] ++ [])
    by (vm_compute; reflexivity).
  split; [exact Hout|].
  exact (proj1 (reinstall_failure_is_fatal Demo.JSON_parse
                  Demo.upgradePackageData Demo.flaky Demo.options Demo.files
                  Demo.flakySession.1 Demo.flakySession.2 []
                  (surjective_pairing _) Hout)).
Defined.

Lemma rejection_is_local_witness :
  let s := Demo.yarnBeforeB in
  lockFile s = ("lock of " ++ Demo.pkgFile ++ " + a@2.0.0")%string /\
  lastPkgFile s = Demo.manifest "2.0.0" "1.0.0" "1.0.0" /\
  exists s1 s2,
    installAndTest Demo.yarnEnv Demo.yarn Demo.pkg "b" "2.0.0" s
    = (Thrown (SpawnError "1 failing"), s1) /\
    iteration Demo.upgradePackageData Demo.yarnEnv Demo.yarn Demo.pkg
      "b" "2.0.0" s = (Ok tt, s2) /\
    fs s2 !! "yarn.lock" = Some (lockFile s) /\
    fs s2 !! "package.json" = Some (lastPkgFile s) /\
    iterate Demo.upgradePackageData Demo.yarnEnv Demo.yarn Demo.pkg
      [("b", "2.0.0"); ("c", "2.0.0")] s
    = iterate Demo.upgradePackageData Demo.yarnEnv Demo.yarn Demo.pkg
        [("c", "2.0.0")] s2.
Proof.
  cbv zeta. split; [vm_compute; reflexivity|]. split; [vm_compute; reflexivity|].
  set (s1 := (installAndTest Demo.yarnEnv Demo.yarn Demo.pkg "b" "2.0.0"
                Demo.yarnBeforeB).2).
  assert (H : installAndTest Demo.yarnEnv Demo.yarn Demo.pkg "b" "2.0.0"
                Demo.yarnBeforeB = (Thrown (SpawnError "1 failing"), s1))
    by (vm_compute; reflexivity).
  destruct (rejection_is_local Demo.upgradePackageData Demo.yarnEnv Demo.yarn
              Demo.pkg "b" "2.0.0" [("c", "2.0.0")] Demo.yarnBeforeB
              (SpawnError "1 failing") s1 H)
    as [(s2 & _ & _ & Hit & _ & Hl & Hm & _ & _ & Hgo)
       |(error & path & s2 & [[_ Hd]|(_ & _ & _ & Hd)] & _)];
    [|discriminate Hd|discriminate Hd].
  exists s1, s2. exact (conj H (conj Hit (conj Hl (conj Hm Hgo)))).
Defined.


Lemma all_upgrades_verified_witness :
  outcomes (trace Demo.healthySession.2) = [true; true; true; true] ++ [] /\
  Demo.healthySession.1 = Ok tt /\
  Forall (fun e => isWrite e = false) (trace Demo.healthySession.2).
Proof.
  assert (Hout : outcomes (trace Demo.healthySession.2)
                 = [true; true; true; true] ++ [])
    by (vm_compute; reflexivity).
  split; [exact Hout|].
  destruct (all_upgrades_verified Demo.JSON_parse Demo.upgradePackageData
              Demo.healthy Demo.options Demo.files
              Demo.healthySession.1 Demo.healthySession.2 []
              (surjective_pairing _) Hout) as (Hr & _ & Hq & _).
  split; [exact Hr|exact Hq].
Defined.


Lemma snapshots_around_install_witness :
  exists out f rest,
    exec Demo.env (loadedEvents Demo.pkgFile ++ installLog Demo.options)
      Demo.staleFiles (installCommand Demo.options) = (out, f) /\
    trace Demo.staleSession.2
    = loadedEvents Demo.pkgFile ++ installEvents Demo.options out ++ rest /\
    (out = Succeeded ->
     exists out' rest',
       rest = ReadFile "package-lock.json" (f !! "package-lock.json")
              :: testEvents Demo.options out' ++ rest').
Proof.
  apply (snapshots_around_install Demo.JSON_parse Demo.upgradePackageData
           Demo.env Demo.options Demo.staleFiles Demo.pkg Demo.pkgFile
           Demo.staleSession.1 Demo.staleSession.2).
  - apply surjective_pairing.
  - unfold Loaded. repeat match goal with |- _ /\ _ => split end;
      vm_compute; reflexivity.
Defined.



Lemma baseline_install_failure_witness :
  outcomes (trace Demo.offlineSession.2) = [false] /\
  exists t,
    Demo.offlineSession.1 = Thrown (SpawnError t) /\
    last (trace Demo.offlineSession.2)
    = Some (Spawned (installCommand Demo.options) (Failed t)).
Proof.
  assert (Hout : outcomes (trace Demo.offlineSession.2) = false :: [])
    by (vm_compute; reflexivity).
  split; [exact Hout|].
  destruct (baseline_install_failure Demo.JSON_parse Demo.upgradePackageData
              Demo.offline Demo.options Demo.files
              Demo.offlineSession.1 Demo.offlineSession.2 []
              (surjective_pairing _) Hout) as (pkgFile & t & _ & Ht & Hr & _).
  exists t. split; [exact Hr|]. rewrite Ht, !last_app. reflexivity.
Defined.

Lemma baseline_tests_failure_witness :
  outcomes (trace Demo.redSession.2) = [true; false] /\
  Demo.redSession.1 = Exited 1.
Proof.
  assert (Hout : outcomes (trace Demo.redSession.2) = true :: false :: [])
    by (vm_compute; reflexivity).
  split; [exact Hout|].
  exact (proj1 (baseline_tests_failure Demo.JSON_parse Demo.upgradePackageData
                  Demo.red Demo.options Demo.files
                  Demo.redSession.1 Demo.redSession.2 []
                  (surjective_pairing _) Hout)).
Defined.

Lemma nothing_to_upgrade_witness :
  ranResult (trace Demo.currentSession.2) = Some (RunReturns None) /\
  Demo.currentSession.1 = Ok tt /\
  outcomes (trace Demo.currentSession.2) = [true; true].
Proof.
  assert (Hran : ranResult (trace Demo.currentSession.2) = Some (RunReturns None))
    by (vm_compute; reflexivity).
  split; [exact Hran|].
  destruct (nothing_to_upgrade Demo.JSON_parse Demo.upgradePackageData
              Demo.current Demo.options Demo.files
              Demo.currentSession.1 Demo.currentSession.2 None
              (surjective_pairing _) Hran eq_refl) as (Hr & Hout & _).
  exact (conj Hr Hout).
Defined.

Lemma run_rejection_propagates_witness :
  ranResult (trace Demo.unreachableSession.2) = Some (RunRejects "E503") /\
  Demo.unreachableSession.1 = Thrown (RunError "E503").
Proof.
  assert (Hran : ranResult (trace Demo.unreachableSession.2)
                 = Some (RunRejects "E503"))
    by (vm_compute; reflexivity).
  split; [exact Hran|].
  exact (proj1 (run_rejection_propagates Demo.JSON_parse Demo.upgradePackageData
                  Demo.unreachable Demo.options Demo.files
                  Demo.unreachableSession.1 Demo.unreachableSession.2 "E503"
                  (surjective_pairing _) Hran)).
Defined.

Lemma only_manifest_and_lock_touched_witness :
  WriteFile "package-lock.json" ("lock of " ++ Demo.pkgFile)
    ∈ trace Demo.session.2 /\
  ("package-lock.json" = "package.json" \/
   "package-lock.json" = lockFileName Demo.options).
Proof.
  assert (Hin : WriteFile "package-lock.json" ("lock of " ++ Demo.pkgFile)
                  ∈ trace Demo.session.2).
  { apply (list_elem_of_lookup_2 _ 17). vm_compute. reflexivity. }
  split; [exact Hin|].
  exact (proj1 (only_manifest_and_lock_touched Demo.JSON_parse
                  Demo.upgradePackageData Demo.env Demo.options Demo.files
                  _ "package-lock.json" Hin eq_refl)).
Defined.

Lemma processes_follow_options_witness :
  Spawned (SpawnNpm ["install"]) Succeeded ∈ trace Demo.session.2 /\
  packageManager Demo.options ≠ Some "yarn".
Proof.
  assert (Hin : Spawned (SpawnNpm ["install"]) Succeeded ∈ trace Demo.session.2).
  { apply (list_elem_of_lookup_2 _ 3). vm_compute. reflexivity. }
  split; [exact Hin|].
  exact (processes_follow_options Demo.JSON_parse Demo.upgradePackageData
           Demo.env Demo.options Demo.files _ _ Hin).
Defined.

Lemma loadPackageFile_accepts_witness :
  Loaded Demo.JSON_parse Demo.options Demo.files Demo.pkg Demo.pkgFile /\
  exists s,
    loadPackageFile Demo.JSON_parse Demo.options (initial Demo.files)
    = (Ok (JsonValue Demo.pkg, Demo.pkgFile), s) /\
    trace s = [ReadFile "package.json" (Some Demo.pkgFile)] /\
    fs s = Demo.files.
Proof.
  assert (Hl : Loaded Demo.JSON_parse Demo.options Demo.files Demo.pkg
                 Demo.pkgFile).
  { unfold Loaded.
    repeat match goal with |- _ /\ _ => split end; vm_compute; reflexivity. }
  split; [exact Hl|].
  exact (loadPackageFile_accepts Demo.JSON_parse Demo.options Demo.files
           Demo.pkg Demo.pkgFile Hl).
Defined.

Lemma session_refused_or_installs_witness :
  (spawned (trace Demo.nullSession.2) = [] /\
   ((exists m,
       Refusal Demo.JSON_parse Demo.options Demo.nullFiles m /\
       Demo.nullSession.1 = Exited 1 /\
       last (trace Demo.nullSession.2) = Some (ConsoleError m))
    \/ (exists c,
          Demo.nullFiles !! "package.json" = Some c /\
          Demo.JSON_parse c = Some JsonNull /\
          Demo.nullSession.1 = Thrown (TypeError (nullProperty Demo.options)) /\
          trace Demo.nullSession.2 = [ReadFile "package.json" (Some c)])))
  \/ (exists pkg pkgFile out,
        Loaded Demo.JSON_parse Demo.options Demo.nullFiles pkg pkgFile /\
        head (spawned (trace Demo.nullSession.2))
        = Some (installCommand Demo.options, out)).
Proof.
  exact (session_refused_or_installs Demo.JSON_parse Demo.upgradePackageData
           Demo.env Demo.options Demo.nullFiles
           Demo.nullSession.1 Demo.nullSession.2 (surjective_pairing _)).
Defined.

Lemma escaping_error_is_install_witness :
  Demo.offlineSession.1 = Thrown (SpawnError "ENOTFOUND") /\
  last (trace Demo.offlineSession.2)
  = Some (Spawned (installCommand Demo.options) (Failed "ENOTFOUND")).
Proof.
  assert (Hr : Demo.offlineSession.1 = Thrown (SpawnError "ENOTFOUND"))
    by (vm_compute; reflexivity).
  split; [exact Hr|].
  exact (escaping_error_is_install Demo.JSON_parse Demo.upgradePackageData
           Demo.offline Demo.options Demo.files
           Demo.offlineSession.1 Demo.offlineSession.2 "ENOTFOUND"
           (surjective_pairing _) Hr).
Defined.

Lemma return_follows_success_witness :
  Demo.session.1 = Ok tt /\
  exists c,
    last (spawned (trace Demo.session.2)) = Some (c, Succeeded) /\
    (c = installCommand Demo.options \/ c = testCommand Demo.options).
Proof.
  assert (Hr : Demo.session.1 = Ok tt) by (vm_compute; reflexivity).
  split; [exact Hr|].
  exact (return_follows_success Demo.JSON_parse Demo.upgradePackageData
           Demo.env Demo.options Demo.files
           Demo.session.1 Demo.session.2 (surjective_pairing _) Hr).
Defined.
